(** * A shallow embedding of the dual UART driver [uart2.c]

    The driver keeps, for each of the two hardware UARTs, a receive and a
    transmit ring buffer, two flags, an overflow counter and an optional
    receive callback, all in global arrays of length two that are indexed
    by the channel number [nUart].  This file embeds the C functions of
    [uart2.c] as functions on an explicit driver state and proves the
    properties of the specification about them.

    Conventions of the embedding:
    - C integers are modelled as [Z], with the wrap-around of every fixed
      width written out ([u8], [u16], [u32]).  The target is the AVR, where
      [int] and [unsigned short] are 16 bits wide.
    - Data bytes are [Byte.byte].
    - An access to a global array of length two with an index outside
      [0..1] is undefined behaviour in C; the embedding returns [None]
      there, so every C function is a function into [option].
    - Writes to a hardware data register are recorded in a per-channel
      list, oldest first. *)

From Stdlib Require Import ZArith Lia Bool Strings.Byte.
From stdpp Require Import base option list.

Local Open Scope Z_scope.

(** ** Machine integers *)

Definition u8 (x : Z) : Z := x mod 2 ^ 8.
Definition u16 (x : Z) : Z := x mod 2 ^ 16.
Definition u32 (x : Z) : Z := x mod 2 ^ 32.

(** The C truth value of an integer: non-zero. *)
Definition truthy (x : Z) : bool := negb (x =? 0).

(** The C value of a comparison or of [!]: 1 or 0. *)
Definition of_bool (b : bool) : Z := if b then 1 else 0.

(** The value of a [uint8_t] data byte as an [int]. *)
Definition byte_to_int (b : byte) : Z := Z.of_N (Byte.to_N b).

(** ** Global arrays of length two *)

Module Array2.

Record t (A : Type) := Make { elt0 : A; elt1 : A }.
Arguments Make {A} _ _.
Arguments elt0 {A} _.
Arguments elt1 {A} _.

(** [a[i]] as an rvalue. *)
Definition get {A} (a : t A) (i : Z) : option A :=
  if i =? 0 then Some (elt0 a)
  else if i =? 1 then Some (elt1 a)
  else None.

(** [a[i] = v]. *)
Definition set {A} (a : t A) (i : Z) (v : A) : option (t A) :=
  if i =? 0 then Some (Make v (elt1 a))
  else if i =? 1 then Some (Make (elt0 a) v)
  else None.

Definition const {A} (v : A) : t A := Make v v.

End Array2.

Abbreviation arr2 := Array2.t.

(** ** The ring buffer *)

(** Modelled from the spec: [buffer.h] and [buffer.c] (the type [cBuffer]
    and the functions [bufferInit], [bufferGetFromFront], [bufferAddToEnd]
    and [bufferFlush]) are not among the sources.  The record follows the
    data model of the specification: a storage region of fixed capacity, a
    read index [head], a write index [tail] and the count of valid bytes.
    The capacity and the count carry the names [size] and [datalength]
    under which [uart2.c] reads them.  The specification gives no widths;
    the indices and counters are taken as [unsigned short], the type
    [uart2.c] gives its own counter [uartRxOverflow]. *)
Record cBuffer := mkBuffer {
  dataptr : list byte;
  size : Z;
  head : Z;
  tail : Z;
  datalength : Z
}.

(** Modelled from the spec: "created once at channel initialization with a
    caller-supplied capacity and storage region". *)
Definition bufferInit (start : list byte) (sz : Z) : cBuffer :=
  mkBuffer start (u16 sz) 0 0 0.

(** Modelled from the spec: "push_back(byte) -> bool: appends if
    length < capacity; advances tail; increments length; returns whether
    it succeeded".  The overview of the specification speaks of
    "overwrite-on-full semantics"; the description of the operation, which
    is followed here, and the use of its result in [uartReceiveService]
    both say that a push on a full buffer fails and stores nothing. *)
Definition bufferAddToEnd (b : cBuffer) (data : byte) : bool * cBuffer :=
  if datalength b <? size b then
    (true,
     mkBuffer (<[Z.to_nat (tail b) := data]> (dataptr b))
              (size b)
              (head b)
              ((tail b + 1) mod size b)
              (u16 (datalength b + 1)))
  else (false, b).

(** Modelled from the spec: "pop_front() -> byte: precondition length > 0;
    removes and returns the oldest byte; advances head; decrements length.
    Undefined result if called on an empty buffer".  The undefined case is
    [None]. *)
Definition bufferGetFromFront (b : cBuffer) : option (byte * cBuffer) :=
  if 0 <? datalength b then
    data ← dataptr b !! Z.to_nat (head b);
    Some (data,
          mkBuffer (dataptr b)
                   (size b)
                   ((head b + 1) mod size b)
                   (tail b)
                   (u16 (datalength b - 1)))
  else None.

(** Modelled from the spec: "flush(): resets length to 0 and head/tail to
    a consistent empty state, discarding all queued bytes". *)
Definition bufferFlush (b : cBuffer) : cBuffer :=
  mkBuffer (dataptr b) (size b) 0 0 0.

(** The invariant of the data model: the storage has the capacity's
    length, [0 <= length <= capacity], the indices are taken modulo the
    capacity and the write index is [length] places after the read index.
    A buffer of capacity zero (the state of the globals before
    initialization) is well formed when it is empty. *)
Definition wf_buffer (b : cBuffer) : bool :=
  (0 <=? size b) && (size b <? 2 ^ 16) &&
  (Z.of_nat (length (dataptr b)) =? size b) &&
  (0 <=? datalength b) && (datalength b <=? size b) &&
  (0 <=? head b) &&
  (if size b =? 0 then (head b =? 0) && (tail b =? 0)
   else (head b <? size b) && (tail b =? (head b + datalength b) mod size b)).

(** The queued bytes, oldest first: the [datalength] bytes of the storage
    that start at [head], read circularly. *)
Definition contents (b : cBuffer) : list byte :=
  take (Z.to_nat (datalength b))
       (drop (Z.to_nat (head b)) (dataptr b ++ dataptr b)).

(** ** The hardware *)

(** The registers the driver touches.  [UDR0_tx] and [UDR1_tx] record the
    bytes written to the two transmit data registers, oldest first;
    [UDR0_rx] and [UDR1_rx] hold the byte the receiver has latched. *)
Record Hardware := mkHardware {
  UDR0_tx : list byte;
  UDR1_tx : list byte;
  UDR0_rx : byte;
  UDR1_rx : byte;
  UCSR0B : Z;
  UCSR1B : Z;
  UBRR0L : Z;
  UBRR0H : Z;
  UBRR1L : Z;
  UBRR1H : Z;
  SREG_I : bool
}.

Definition outb_UDR0 (c : byte) (h : Hardware) : Hardware :=
  mkHardware (UDR0_tx h ++ [c]) (UDR1_tx h) (UDR0_rx h) (UDR1_rx h)
             (UCSR0B h) (UCSR1B h) (UBRR0L h) (UBRR0H h) (UBRR1L h) (UBRR1H h)
             (SREG_I h).

Definition outb_UDR1 (c : byte) (h : Hardware) : Hardware :=
  mkHardware (UDR0_tx h) (UDR1_tx h ++ [c]) (UDR0_rx h) (UDR1_rx h)
             (UCSR0B h) (UCSR1B h) (UBRR0L h) (UBRR0H h) (UBRR1L h) (UBRR1H h)
             (SREG_I h).

Definition outb_UCSR0B (v : Z) (h : Hardware) : Hardware :=
  mkHardware (UDR0_tx h) (UDR1_tx h) (UDR0_rx h) (UDR1_rx h)
             (u8 v) (UCSR1B h) (UBRR0L h) (UBRR0H h) (UBRR1L h) (UBRR1H h)
             (SREG_I h).

Definition outb_UCSR1B (v : Z) (h : Hardware) : Hardware :=
  mkHardware (UDR0_tx h) (UDR1_tx h) (UDR0_rx h) (UDR1_rx h)
             (UCSR0B h) (u8 v) (UBRR0L h) (UBRR0H h) (UBRR1L h) (UBRR1H h)
             (SREG_I h).

Definition outb_UBRR0L (v : Z) (h : Hardware) : Hardware :=
  mkHardware (UDR0_tx h) (UDR1_tx h) (UDR0_rx h) (UDR1_rx h)
             (UCSR0B h) (UCSR1B h) (u8 v) (UBRR0H h) (UBRR1L h) (UBRR1H h)
             (SREG_I h).

Definition outb_UBRR0H (v : Z) (h : Hardware) : Hardware :=
  mkHardware (UDR0_tx h) (UDR1_tx h) (UDR0_rx h) (UDR1_rx h)
             (UCSR0B h) (UCSR1B h) (UBRR0L h) (u8 v) (UBRR1L h) (UBRR1H h)
             (SREG_I h).

Definition outb_UBRR1L (v : Z) (h : Hardware) : Hardware :=
  mkHardware (UDR0_tx h) (UDR1_tx h) (UDR0_rx h) (UDR1_rx h)
             (UCSR0B h) (UCSR1B h) (UBRR0L h) (UBRR0H h) (u8 v) (UBRR1H h)
             (SREG_I h).

Definition outb_UBRR1H (v : Z) (h : Hardware) : Hardware :=
  mkHardware (UDR0_tx h) (UDR1_tx h) (UDR0_rx h) (UDR1_rx h)
             (UCSR0B h) (UCSR1B h) (UBRR0L h) (UBRR0H h) (UBRR1L h) (u8 v)
             (SREG_I h).

Definition sei (h : Hardware) : Hardware :=
  mkHardware (UDR0_tx h) (UDR1_tx h) (UDR0_rx h) (UDR1_rx h)
             (UCSR0B h) (UCSR1B h) (UBRR0L h) (UBRR0H h) (UBRR1L h) (UBRR1H h)
             true.

(** The receiver latches an arriving byte in the data register of its
    channel; any channel other than 0 is taken as channel 1, as the driver
    itself selects its registers. *)
Definition latch_rx (nUart : Z) (c : byte) (h : Hardware) : Hardware :=
  if truthy nUart then
    mkHardware (UDR0_tx h) (UDR1_tx h) (UDR0_rx h) c
               (UCSR0B h) (UCSR1B h) (UBRR0L h) (UBRR0H h) (UBRR1L h)
               (UBRR1H h) (SREG_I h)
  else
    mkHardware (UDR0_tx h) (UDR1_tx h) c (UDR1_rx h)
               (UCSR0B h) (UCSR1B h) (UBRR0L h) (UBRR0H h) (UBRR1L h)
               (UBRR1H h) (SREG_I h).

(** The bytes written so far to the transmit data register of a channel. *)
Definition UDR_tx (nUart : Z) (h : Hardware) : list byte :=
  if truthy nUart then UDR1_tx h else UDR0_tx h.

(** Bit numbers of the control register UCSRnB, from [avr/io.h]. *)
Definition RXCIE : Z := 7.
Definition TXCIE : Z := 6.
Definition RXEN : Z := 4.
Definition TXEN : Z := 3.
Definition _BV (bit : Z) : Z := Z.shiftl 1 bit.

(** ** Configuration *)

(** Constants of [global.h] and [uart2.h], which are not among the sources:
    the clock frequency, the four buffer capacities and the default baud
    rates; whether the device has the high baud rate registers
    ([#ifdef UBRR0H], [#ifdef UBRR1H]); and the storage regions handed to
    [bufferInit] (the static arrays, or the external RAM regions), with the
    bytes they hold at that time. *)
Record Config := mkConfig {
  F_CPU : Z;
  UART0_RX_BUFFER_SIZE : Z;
  UART0_TX_BUFFER_SIZE : Z;
  UART1_RX_BUFFER_SIZE : Z;
  UART1_TX_BUFFER_SIZE : Z;
  UART0_DEFAULT_BAUD_RATE : Z;
  UART1_DEFAULT_BAUD_RATE : Z;
  UBRR0H_defined : bool;
  UBRR1H_defined : bool;
  uart0RxData : list byte;
  uart0TxData : list byte;
  uart1RxData : list byte;
  uart1TxData : list byte
}.

(** ** The driver *)

Section Driver.

(** The application's own state, on which a receive callback acts.  A
    callback is called with the received byte; it is application code
    and is taken not to touch the driver's variables. *)
Variable App : Type.

Definition voidFuncPtruint8_t : Type := byte -> App -> App.

Variable cfg : Config.

(** The global variables of [uart2.c], the hardware and the application
    state.  A null function pointer is [None]. *)
Record State := mkState {
  uartReadyTx : arr2 Z;
  uartBufferedTx : arr2 Z;
  uartRxBuffer : arr2 cBuffer;
  uartTxBuffer : arr2 cBuffer;
  uartRxOverflow : arr2 Z;
  UartRxFunc : arr2 (option voidFuncPtruint8_t);
  hw : Hardware;
  app : App
}.

Definition set_uartReadyTx (a : arr2 Z) (s : State) : State :=
  mkState a (uartBufferedTx s) (uartRxBuffer s) (uartTxBuffer s)
          (uartRxOverflow s) (UartRxFunc s) (hw s) (app s).

Definition set_uartBufferedTx (a : arr2 Z) (s : State) : State :=
  mkState (uartReadyTx s) a (uartRxBuffer s) (uartTxBuffer s)
          (uartRxOverflow s) (UartRxFunc s) (hw s) (app s).

Definition set_uartRxBuffer (a : arr2 cBuffer) (s : State) : State :=
  mkState (uartReadyTx s) (uartBufferedTx s) a (uartTxBuffer s)
          (uartRxOverflow s) (UartRxFunc s) (hw s) (app s).

Definition set_uartTxBuffer (a : arr2 cBuffer) (s : State) : State :=
  mkState (uartReadyTx s) (uartBufferedTx s) (uartRxBuffer s) a
          (uartRxOverflow s) (UartRxFunc s) (hw s) (app s).

Definition set_uartRxOverflow (a : arr2 Z) (s : State) : State :=
  mkState (uartReadyTx s) (uartBufferedTx s) (uartRxBuffer s)
          (uartTxBuffer s) a (UartRxFunc s) (hw s) (app s).

Definition set_UartRxFunc (a : arr2 (option voidFuncPtruint8_t))
    (s : State) : State :=
  mkState (uartReadyTx s) (uartBufferedTx s) (uartRxBuffer s)
          (uartTxBuffer s) (uartRxOverflow s) a (hw s) (app s).

Definition set_hw (h : Hardware) (s : State) : State :=
  mkState (uartReadyTx s) (uartBufferedTx s) (uartRxBuffer s)
          (uartTxBuffer s) (uartRxOverflow s) (UartRxFunc s) h (app s).

Definition set_app (x : App) (s : State) : State :=
  mkState (uartReadyTx s) (uartBufferedTx s) (uartRxBuffer s)
          (uartTxBuffer s) (uartRxOverflow s) (UartRxFunc s) (hw s) x.

(** [uart0InitBuffers], [uart1InitBuffers] *)
Definition uart0InitBuffers (s : State) : option State :=
  rx ← Array2.set (uartRxBuffer s) 0
         (bufferInit (uart0RxData cfg) (UART0_RX_BUFFER_SIZE cfg));
  let s := set_uartRxBuffer rx s in
  tx ← Array2.set (uartTxBuffer s) 0
         (bufferInit (uart0TxData cfg) (UART0_TX_BUFFER_SIZE cfg));
  Some (set_uartTxBuffer tx s).

Definition uart1InitBuffers (s : State) : option State :=
  rx ← Array2.set (uartRxBuffer s) 1
         (bufferInit (uart1RxData cfg) (UART1_RX_BUFFER_SIZE cfg));
  let s := set_uartRxBuffer rx s in
  tx ← Array2.set (uartTxBuffer s) 1
         (bufferInit (uart1TxData cfg) (UART1_TX_BUFFER_SIZE cfg));
  Some (set_uartTxBuffer tx s).

(** [uartSetRxHandler]: the only function that checks [nUart]. *)
Definition uartSetRxHandler (nUart : Z)
    (rx_func : option voidFuncPtruint8_t) (s : State) : option State :=
  if nUart <? 2 then
    a ← Array2.set (UartRxFunc s) nUart rx_func;
    Some (set_UartRxFunc a s)
  else Some s.

(** [uartSetBaudRate].  The divisor is computed in [unsigned long]
    (32 bits); a division by zero is undefined. *)
Definition uartSetBaudRate (nUart : Z) (baudrate : Z) (s : State)
    : option State :=
  let baudrate := u32 baudrate in
  let d := u32 (baudrate * 16) in
  if d =? 0 then None
  else
    let bauddiv := u16 (u32 (u32 (F_CPU cfg + u32 (baudrate * 8)) / d - 1)) in
    if truthy nUart then
      let h := outb_UBRR1L bauddiv (hw s) in
      let h := if UBRR1H_defined cfg
               then outb_UBRR1H (Z.shiftr bauddiv 8) h else h in
      Some (set_hw h s)
    else
      let h := outb_UBRR0L bauddiv (hw s) in
      let h := if UBRR0H_defined cfg
               then outb_UBRR0H (Z.shiftr bauddiv 8) h else h in
      Some (set_hw h s).

(** [uart0Init], [uart1Init], [uartInit] *)
Definition uart0Init (s : State) : option State :=
  s ← uart0InitBuffers s;
  f ← Array2.set (UartRxFunc s) 0 None;
  let s := set_UartRxFunc f s in
  let s := set_hw (outb_UCSR0B
    (Z.lor (Z.lor (Z.lor (_BV RXCIE) (_BV TXCIE)) (_BV RXEN)) (_BV TXEN))
    (hw s)) s in
  s ← uartSetBaudRate 0 (UART0_DEFAULT_BAUD_RATE cfg) s;
  r ← Array2.set (uartReadyTx s) 0 1;
  let s := set_uartReadyTx r s in
  b ← Array2.set (uartBufferedTx s) 0 0;
  let s := set_uartBufferedTx b s in
  o ← Array2.set (uartRxOverflow s) 0 0;
  let s := set_uartRxOverflow o s in
  Some (set_hw (sei (hw s)) s).

Definition uart1Init (s : State) : option State :=
  s ← uart1InitBuffers s;
  f ← Array2.set (UartRxFunc s) 1 None;
  let s := set_UartRxFunc f s in
  let s := set_hw (outb_UCSR1B
    (Z.lor (Z.lor (Z.lor (_BV RXCIE) (_BV TXCIE)) (_BV RXEN)) (_BV TXEN))
    (hw s)) s in
  s ← uartSetBaudRate 1 (UART1_DEFAULT_BAUD_RATE cfg) s;
  r ← Array2.set (uartReadyTx s) 1 1;
  let s := set_uartReadyTx r s in
  b ← Array2.set (uartBufferedTx s) 1 0;
  let s := set_uartBufferedTx b s in
  o ← Array2.set (uartRxOverflow s) 1 0;
  let s := set_uartRxOverflow o s in
  Some (set_hw (sei (hw s)) s).

Definition uartInit (s : State) : option State :=
  s ← uart0Init s;
  uart1Init s.

(** [uartGetRxBuffer], [uartGetTxBuffer]: the returned pointer is
    modelled by the buffer it points to; there is none for an index
    outside the array. *)
Definition uartGetRxBuffer (nUart : Z) (s : State) : option cBuffer :=
  Array2.get (uartRxBuffer s) nUart.

Definition uartGetTxBuffer (nUart : Z) (s : State) : option cBuffer :=
  Array2.get (uartTxBuffer s) nUart.

(** [uartSendByte].  The loop that polls the flag UDRE ends as soon as
    the hardware reports the data register empty and changes no
    variable; the hardware is taken to reach that state. *)
Definition uartSendByte (nUart : Z) (txData : byte) (s : State)
    : option State :=
  let s :=
    if truthy nUart then set_hw (outb_UDR1 txData (hw s)) s
    else set_hw (outb_UDR0 txData (hw s)) s in
  r ← Array2.set (uartReadyTx s) nUart 0;
  Some (set_uartReadyTx r s).

Definition uart0SendByte (data : byte) (s : State) : option State :=
  uartSendByte 0 data s.

Definition uart1SendByte (data : byte) (s : State) : option State :=
  uartSendByte 1 data s.

(** [uartReceiveByte].  [rxData] is the content of the caller's variable
    behind the pointer, [None] when it is not initialized; the result
    is the returned value, the content of that variable after the call
    and the state. *)
Definition uartReceiveByte (nUart : Z) (rxData : option byte) (s : State)
    : option (Z * option byte * State) :=
  b ← Array2.get (uartRxBuffer s) nUart;
  if truthy (size b) then
    if truthy (datalength b) then
      '(c, b') ← bufferGetFromFront b;
      a ← Array2.set (uartRxBuffer s) nUart b';
      Some (1, Some c, set_uartRxBuffer a s)
    else Some (0, rxData, s)
  else Some (0, rxData, s).

(** [uart0GetByte], [uart1GetByte]: the local [c] starts uninitialized;
    the result is an [int]. *)
Definition uart0GetByte (s : State) : option (Z * State) :=
  '(r, c, s) ← uartReceiveByte 0 None s;
  if truthy r then c ← c; Some (byte_to_int c, s)
  else Some (-1, s).

Definition uart1GetByte (s : State) : option (Z * State) :=
  '(r, c, s) ← uartReceiveByte 1 None s;
  if truthy r then c ← c; Some (byte_to_int c, s)
  else Some (-1, s).

(** [uartFlushReceiveBuffer] *)
Definition uartFlushReceiveBuffer (nUart : Z) (s : State) : option State :=
  b ← Array2.get (uartRxBuffer s) nUart;
  a ← Array2.set (uartRxBuffer s) nUart (bufferFlush b);
  Some (set_uartRxBuffer a s).

(** [uartReceiveBufferIsEmpty] *)
Definition uartReceiveBufferIsEmpty (nUart : Z) (s : State) : option Z :=
  b ← Array2.get (uartRxBuffer s) nUart;
  Some (of_bool (datalength b =? 0)).

(** [uartTransmitPending] *)
Definition uartTransmitPending (nUart : Z) (s : State) : option Z :=
  r ← Array2.get (uartReadyTx s) nUart;
  Some (of_bool (negb (truthy r))).

(** [uartAddToTxBuffer]; the result of [bufferAddToEnd] is dropped. *)
Definition uartAddToTxBuffer (nUart : Z) (data : byte) (s : State)
    : option State :=
  b ← Array2.get (uartTxBuffer s) nUart;
  a ← Array2.set (uartTxBuffer s) nUart (bufferAddToEnd b data).2;
  Some (set_uartTxBuffer a s).

Definition uart0AddToTxBuffer (data : byte) (s : State) : option State :=
  uartAddToTxBuffer 0 data s.

Definition uart1AddToTxBuffer (data : byte) (s : State) : option State :=
  uartAddToTxBuffer 1 data s.

(** [uartSendTxBuffer] *)
Definition uartSendTxBuffer (nUart : Z) (s : State) : option State :=
  f ← Array2.set (uartBufferedTx s) nUart 1;
  let s := set_uartBufferedTx f s in
  b ← Array2.get (uartTxBuffer s) nUart;
  '(c, b') ← bufferGetFromFront b;
  a ← Array2.set (uartTxBuffer s) nUart b';
  uartSendByte nUart c (set_uartTxBuffer a s).

(** The loop of [uartSendBuffer]: [k] more rounds of
    [bufferAddToEnd(&uartTxBuffer[nUart], *buffer++)].  [buffer] is the
    caller's array from the pointer on; reading past its end is
    undefined. *)
Fixpoint uartSendBuffer_loop (k : nat) (nUart : Z) (buffer : list byte)
    (s : State) : option State :=
  match k with
  | O => Some s
  | S k =>
      match buffer with
      | [] => None
      | c :: buffer =>
          b ← Array2.get (uartTxBuffer s) nUart;
          a ← Array2.set (uartTxBuffer s) nUart (bufferAddToEnd b c).2;
          uartSendBuffer_loop k nUart buffer (set_uartTxBuffer a s)
      end
  end.

(** [uartSendBuffer].  [datalength + nBytes] is a sum of 16-bit unsigned
    values and wraps modulo 2^16.  In the loop [i] runs from 0 to
    [nBytes - 2] (with [nBytes >= 1], so [nBytes - 1] does not wrap),
    that is [nBytes - 1] rounds. *)
Definition uartSendBuffer (nUart : Z) (buffer : list byte) (nBytes : Z)
    (s : State) : option (Z * State) :=
  b ← Array2.get (uartTxBuffer s) nUart;
  if (u16 (datalength b + nBytes) <? size b) && truthy nBytes then
    match buffer with
    | [] => None
    | first :: buffer =>
        s ← uartSendBuffer_loop (Z.to_nat (nBytes - 1)) nUart buffer s;
        f ← Array2.set (uartBufferedTx s) nUart 1;
        s ← uartSendByte nUart first (set_uartBufferedTx f s);
        Some (1, s)
    end
  else Some (0, s).

(** [uartTransmitService], the transmit complete interrupt function *)
Definition uartTransmitService (nUart : Z) (s : State) : option State :=
  f ← Array2.get (uartBufferedTx s) nUart;
  if truthy f then
    b ← Array2.get (uartTxBuffer s) nUart;
    if truthy (datalength b) then
      if truthy nUart then
        b1 ← Array2.get (uartTxBuffer s) 1;
        '(c, b') ← bufferGetFromFront b1;
        a ← Array2.set (uartTxBuffer s) 1 b';
        let s := set_uartTxBuffer a s in
        Some (set_hw (outb_UDR1 c (hw s)) s)
      else
        b0 ← Array2.get (uartTxBuffer s) 0;
        '(c, b') ← bufferGetFromFront b0;
        a ← Array2.set (uartTxBuffer s) 0 b';
        let s := set_uartTxBuffer a s in
        Some (set_hw (outb_UDR0 c (hw s)) s)
    else
      f ← Array2.set (uartBufferedTx s) nUart 0;
      let s := set_uartBufferedTx f s in
      r ← Array2.set (uartReadyTx s) nUart 1;
      Some (set_uartReadyTx r s)
  else
    r ← Array2.set (uartReadyTx s) nUart 1;
    Some (set_uartReadyTx r s).

(** [uartReceiveService], the receive complete interrupt function *)
Definition uartReceiveService (nUart : Z) (s : State) : option State :=
  let c := if truthy nUart then UDR1_rx (hw s) else UDR0_rx (hw s) in
  f ← Array2.get (UartRxFunc s) nUart;
  match f with
  | Some rx_func => Some (set_app (rx_func c (app s)) s)
  | None =>
      b ← Array2.get (uartRxBuffer s) nUart;
      let '(ok, b') := bufferAddToEnd b c in
      a ← Array2.set (uartRxBuffer s) nUart b';
      let s := set_uartRxBuffer a s in
      if negb ok then
        n ← Array2.get (uartRxOverflow s) nUart;
        o ← Array2.set (uartRxOverflow s) nUart (u16 (n + 1));
        Some (set_uartRxOverflow o s)
      else Some s
  end.

(** The four interrupt handlers. *)
Definition SIG_UART0_TRANS (s : State) : option State :=
  uartTransmitService 0 s.
Definition SIG_UART1_TRANS (s : State) : option State :=
  uartTransmitService 1 s.
Definition SIG_UART0_RECV (s : State) : option State :=
  uartReceiveService 0 s.
Definition SIG_UART1_RECV (s : State) : option State :=
  uartReceiveService 1 s.

(** A receive complete event: the hardware latches the byte [c] and the
    interrupt function of the channel runs. *)
Definition receive_event (nUart : Z) (c : byte) (s : State)
    : option State :=
  uartReceiveService nUart (set_hw (latch_rx nUart c (hw s)) s).

(** [k] transmit complete events in a row. *)
Fixpoint transmit_events (k : nat) (nUart : Z) (s : State)
    : option State :=
  match k with
  | O => Some s
  | S k => s ← uartTransmitService nUart s; transmit_events k nUart s
  end.

(** Receive complete events for the bytes of [cs], in order. *)
Fixpoint receive_events (nUart : Z) (cs : list byte) (s : State)
    : option State :=
  match cs with
  | [] => Some s
  | c :: cs => s ← receive_event nUart c s; receive_events nUart cs s
  end.

(** *** Steps of the driver

    Every entry point of [uart2.c] with its arguments, and the hardware
    event that latches a received byte.  [run] executes one step and
    keeps the state. *)
Inductive call : Type :=
| call_uartInit
| call_uart0Init
| call_uart1Init
| call_uart0InitBuffers
| call_uart1InitBuffers
| call_uartSetRxHandler (nUart : Z) (rx_func : option voidFuncPtruint8_t)
| call_uartSetBaudRate (nUart : Z) (baudrate : Z)
| call_uartGetRxBuffer (nUart : Z)
| call_uartGetTxBuffer (nUart : Z)
| call_uartSendByte (nUart : Z) (txData : byte)
| call_uart0SendByte (data : byte)
| call_uart1SendByte (data : byte)
| call_uart0GetByte
| call_uart1GetByte
| call_uartReceiveByte (nUart : Z) (rxData : option byte)
| call_uartFlushReceiveBuffer (nUart : Z)
| call_uartReceiveBufferIsEmpty (nUart : Z)
| call_uartTransmitPending (nUart : Z)
| call_uartAddToTxBuffer (nUart : Z) (data : byte)
| call_uart0AddToTxBuffer (data : byte)
| call_uart1AddToTxBuffer (data : byte)
| call_uartSendTxBuffer (nUart : Z)
| call_uartSendBuffer (nUart : Z) (buffer : list byte) (nBytes : Z)
| call_uartTransmitService (nUart : Z)
| call_uartReceiveService (nUart : Z)
| call_SIG_UART0_TRANS
| call_SIG_UART1_TRANS
| call_SIG_UART0_RECV
| call_SIG_UART1_RECV
| hw_latch_rx (nUart : Z) (c : byte).

Definition run (c : call) (s : State) : option State :=
  match c with
  | call_uartInit => uartInit s
  | call_uart0Init => uart0Init s
  | call_uart1Init => uart1Init s
  | call_uart0InitBuffers => uart0InitBuffers s
  | call_uart1InitBuffers => uart1InitBuffers s
  | call_uartSetRxHandler n f => uartSetRxHandler n f s
  | call_uartSetBaudRate n r => uartSetBaudRate n r s
  | call_uartGetRxBuffer n => _ ← uartGetRxBuffer n s; Some s
  | call_uartGetTxBuffer n => _ ← uartGetTxBuffer n s; Some s
  | call_uartSendByte n c => uartSendByte n c s
  | call_uart0SendByte c => uart0SendByte c s
  | call_uart1SendByte c => uart1SendByte c s
  | call_uart0GetByte => snd <$> uart0GetByte s
  | call_uart1GetByte => snd <$> uart1GetByte s
  | call_uartReceiveByte n rx => snd <$> uartReceiveByte n rx s
  | call_uartFlushReceiveBuffer n => uartFlushReceiveBuffer n s
  | call_uartReceiveBufferIsEmpty n =>
      _ ← uartReceiveBufferIsEmpty n s; Some s
  | call_uartTransmitPending n => _ ← uartTransmitPending n s; Some s
  | call_uartAddToTxBuffer n c => uartAddToTxBuffer n c s
  | call_uart0AddToTxBuffer c => uart0AddToTxBuffer c s
  | call_uart1AddToTxBuffer c => uart1AddToTxBuffer c s
  | call_uartSendTxBuffer n => uartSendTxBuffer n s
  | call_uartSendBuffer n buf nb => snd <$> uartSendBuffer n buf nb s
  | call_uartTransmitService n => uartTransmitService n s
  | call_uartReceiveService n => uartReceiveService n s
  | call_SIG_UART0_TRANS => SIG_UART0_TRANS s
  | call_SIG_UART1_TRANS => SIG_UART1_TRANS s
  | call_SIG_UART0_RECV => SIG_UART0_RECV s
  | call_SIG_UART1_RECV => SIG_UART1_RECV s
  | hw_latch_rx n c => Some (set_hw (latch_rx n c (hw s)) s)
  end.

(** The steps that initialize a channel. *)
Definition is_init (c : call) : bool :=
  match c with
  | call_uartInit | call_uart0Init | call_uart1Init => true
  | _ => false
  end.

(** The steps that run the receive interrupt function of channel [n]. *)
Definition is_receive_service (n : Z) (c : call) : bool :=
  match c with
  | call_uartReceiveService m => m =? n
  | call_SIG_UART0_RECV => n =? 0
  | call_SIG_UART1_RECV => n =? 1
  | _ => false
  end.

End Driver.

Arguments mkState {App}.
Arguments uartReadyTx {App}.
Arguments uartBufferedTx {App}.
Arguments uartRxBuffer {App}.
Arguments uartTxBuffer {App}.
Arguments uartRxOverflow {App}.
Arguments UartRxFunc {App}.
Arguments hw {App}.
Arguments app {App}.
Arguments set_uartReadyTx {App}.
Arguments set_uartBufferedTx {App}.
Arguments set_uartRxBuffer {App}.
Arguments set_uartTxBuffer {App}.
Arguments set_uartRxOverflow {App}.
Arguments set_UartRxFunc {App}.
Arguments set_hw {App}.
Arguments set_app {App}.
Arguments uart0InitBuffers {App}.
Arguments uart1InitBuffers {App}.
Arguments uartSetRxHandler {App}.
Arguments uartSetBaudRate {App}.
Arguments uart0Init {App}.
Arguments uart1Init {App}.
Arguments uartInit {App}.
Arguments uartGetRxBuffer {App}.
Arguments uartGetTxBuffer {App}.
Arguments uartSendByte {App}.
Arguments uart0SendByte {App}.
Arguments uart1SendByte {App}.
Arguments uartReceiveByte {App}.
Arguments uart0GetByte {App}.
Arguments uart1GetByte {App}.
Arguments uartFlushReceiveBuffer {App}.
Arguments uartReceiveBufferIsEmpty {App}.
Arguments uartTransmitPending {App}.
Arguments uartAddToTxBuffer {App}.
Arguments uart0AddToTxBuffer {App}.
Arguments uart1AddToTxBuffer {App}.
Arguments uartSendTxBuffer {App}.
Arguments uartSendBuffer_loop {App}.
Arguments uartSendBuffer {App}.
Arguments uartTransmitService {App}.
Arguments uartReceiveService {App}.
Arguments SIG_UART0_TRANS {App}.
Arguments SIG_UART1_TRANS {App}.
Arguments SIG_UART0_RECV {App}.
Arguments SIG_UART1_RECV {App}.
Arguments receive_event {App}.
Arguments transmit_events {App}.
Arguments receive_events {App}.
Arguments call_uartInit {App}.
Arguments call_uart0Init {App}.
Arguments call_uart1Init {App}.
Arguments call_uart0InitBuffers {App}.
Arguments call_uart1InitBuffers {App}.
Arguments call_uartSetRxHandler {App}.
Arguments call_uartSetBaudRate {App}.
Arguments call_uartGetRxBuffer {App}.
Arguments call_uartGetTxBuffer {App}.
Arguments call_uartSendByte {App}.
Arguments call_uart0SendByte {App}.
Arguments call_uart1SendByte {App}.
Arguments call_uart0GetByte {App}.
Arguments call_uart1GetByte {App}.
Arguments call_uartReceiveByte {App}.
Arguments call_uartFlushReceiveBuffer {App}.
Arguments call_uartReceiveBufferIsEmpty {App}.
Arguments call_uartTransmitPending {App}.
Arguments call_uartAddToTxBuffer {App}.
Arguments call_uart0AddToTxBuffer {App}.
Arguments call_uart1AddToTxBuffer {App}.
Arguments call_uartSendTxBuffer {App}.
Arguments call_uartSendBuffer {App}.
Arguments call_uartTransmitService {App}.
Arguments call_uartReceiveService {App}.
Arguments call_SIG_UART0_TRANS {App}.
Arguments call_SIG_UART1_TRANS {App}.
Arguments call_SIG_UART0_RECV {App}.
Arguments call_SIG_UART1_RECV {App}.
Arguments hw_latch_rx {App}.
Arguments run {App}.
Arguments is_init {App}.
Arguments is_receive_service {App}.

(** A channel number that selects an element of the global arrays. *)
Definition valid_channel (nUart : Z) : bool := (0 <=? nUart) && (nUart <? 2).

(** ** Well-formed states *)

Definition wf_buffers (a : arr2 cBuffer) : bool :=
  wf_buffer (Array2.elt0 a) && wf_buffer (Array2.elt1 a).

(** All four ring buffers satisfy the invariant of the data model. *)
Definition wf_state {App : Type} (s : State App) : bool :=
  wf_buffers (uartRxBuffer s) && wf_buffers (uartTxBuffer s).

(** Each storage region has the length of its capacity, and the capacities
    fit the 16-bit size argument of [bufferInit]. *)
Definition cfg_ok (cfg : Config) : bool :=
  (Z.of_nat (length (uart0RxData cfg)) =? UART0_RX_BUFFER_SIZE cfg) &&
  (Z.of_nat (length (uart0TxData cfg)) =? UART0_TX_BUFFER_SIZE cfg) &&
  (Z.of_nat (length (uart1RxData cfg)) =? UART1_RX_BUFFER_SIZE cfg) &&
  (Z.of_nat (length (uart1TxData cfg)) =? UART1_TX_BUFFER_SIZE cfg) &&
  (UART0_RX_BUFFER_SIZE cfg <? 2 ^ 16) &&
  (UART0_TX_BUFFER_SIZE cfg <? 2 ^ 16) &&
  (UART1_RX_BUFFER_SIZE cfg <? 2 ^ 16) &&
  (UART1_TX_BUFFER_SIZE cfg <? 2 ^ 16).

(** ** Runs of the driver *)

(** The state of the globals at program start: everything is zero, the
    buffers have no storage and capacity zero. *)
Definition boot_state {App : Type} (x : App) : State App :=
  mkState (Array2.const 0) (Array2.const 0)
          (Array2.const (mkBuffer [] 0 0 0 0))
          (Array2.const (mkBuffer [] 0 0 0 0))
          (Array2.const 0) (Array2.const None)
          (mkHardware [] [] x00 x00 0 0 0 0 0 0 false) x.

(** A sequence of steps, one after the other. *)
Fixpoint run_all {App : Type} (cfg : Config) (cs : list (call App))
    (s : State App) : option (State App) :=
  match cs with
  | [] => Some s
  | c :: cs => s ← run cfg c s; run_all cfg cs s
  end.

(** The states the driver reaches from program start. *)
Inductive reachable {App : Type} (cfg : Config) (x : App)
    : State App -> Prop :=
| reachable_boot : reachable cfg x (boot_state x)
| reachable_step (c : call App) (s s' : State App) :
    reachable cfg x s -> run cfg c s = Some s' -> reachable cfg x s'.

(** ** Concrete states

    States and inputs at which the statements below are evaluated.  The
    application state is the list of the bytes its callback has seen. *)

Definition log_byte : byte -> list byte -> list byte :=
  fun c seen => seen ++ [c].

Definition hw_reset : Hardware :=
  mkHardware [] [] x00 x00 0 0 0 0 0 0 false.

(** A buffer of capacity [cap] into which the bytes [cs] were pushed. *)
Definition queue_of (cap : nat) (cs : list byte) : cBuffer :=
  fold_left (fun b c => (bufferAddToEnd b c).2) cs
            (bufferInit (repeat x00 cap) (Z.of_nat cap)).

(** Both channels idle, with the given receive and transmit buffers,
    overflow count, buffered-transmit flag and callback. *)
Definition demo_state (rx tx : cBuffer) (ov : Z) (buffered : Z)
    (f : option (byte -> list byte -> list byte)) : State (list byte) :=
  mkState (Array2.Make 1 1) (Array2.Make buffered buffered)
          (Array2.Make rx rx) (Array2.Make tx tx) (Array2.Make ov ov)
          (Array2.Make f f) hw_reset [].

Definition demo_cfg : Config :=
  mkConfig 16000000 16 128 16 128 9600 9600 true true
           (repeat x00 16) (repeat x00 128) (repeat x00 16) (repeat x00 128).

(** The transmit buffer of the boundary example: capacity 8, occupancy 3. *)
Definition tx_8_3 : State (list byte) :=
  demo_state (queue_of 4 []) (queue_of 8 [x61; x62; x63]) 0 0 None.

(** A full receive buffer, with the overflow counter at its largest value. *)
Definition rx_full_max : State (list byte) :=
  demo_state (queue_of 2 [x61; x62]) (queue_of 8 []) 65535 0 None.

(** The state that [rx_full_max] turns into at the next receive complete
    event on channel 0. *)
Definition rx_full_wrapped : State (list byte) :=
  set_uartRxOverflow (Array2.Make 0 65535) rx_full_max.

(** Channel 0 in buffered transmission with three bytes queued. *)
Definition tx_busy : State (list byte) :=
  demo_state (queue_of 4 []) (queue_of 8 [x61; x62; x63]) 0 1 None.

(** One received byte waiting; and nothing waiting. *)
Definition rx_one : State (list byte) :=
  demo_state (queue_of 4 [x61]) (queue_of 8 []) 0 0 None.

Definition rx_none : State (list byte) :=
  demo_state (queue_of 4 []) (queue_of 8 []) 0 0 None.

(** A callback installed that records the bytes it is called with. *)
Definition rx_callback : State (list byte) :=
  demo_state (queue_of 4 [x61]) (queue_of 8 []) 7 0 (Some log_byte).

(** After initialization of channel 0, receive complete events until the
    receive buffer of 16 bytes is full and 65535 bytes more were lost. *)
Definition overflow_run : list (call (list byte)) :=
  call_uart0Init :: repeat call_SIG_UART0_RECV (Z.to_nat (16 + 65535)).

(** ** Views of one channel *)

(** The driver variables of channel [n]. *)
Definition channel_vars {App : Type} (n : Z) (s : State App) :=
  (Array2.get (uartReadyTx s) n, Array2.get (uartBufferedTx s) n,
   Array2.get (uartRxBuffer s) n, Array2.get (uartTxBuffer s) n,
   Array2.get (uartRxOverflow s) n, Array2.get (UartRxFunc s) n).

(** The hardware registers of channel [n]. *)
Definition channel_regs (n : Z) (h : Hardware) :=
  if truthy n then (UDR1_tx h, UDR1_rx h, UCSR1B h, UBRR1L h, UBRR1H h)
  else (UDR0_tx h, UDR0_rx h, UCSR0B h, UBRR0L h, UBRR0H h).

(** The 16-bit baud rate divisor held by the two baud rate registers of
    channel [n]. *)
Definition UBRR (n : Z) (h : Hardware) : Z :=
  if truthy n then UBRR1L h + 256 * UBRR1H h
  else UBRR0L h + 256 * UBRR0H h.

(** The channel a step works on; [uartInit] works on both. *)
Definition call_channel {App : Type} (c : call App) : option Z :=
  match c with
  | call_uartInit => None
  | call_uart0Init | call_uart0InitBuffers | call_uart0SendByte _
  | call_uart0GetByte | call_uart0AddToTxBuffer _
  | call_SIG_UART0_TRANS | call_SIG_UART0_RECV => Some 0
  | call_uart1Init | call_uart1InitBuffers | call_uart1SendByte _
  | call_uart1GetByte | call_uart1AddToTxBuffer _
  | call_SIG_UART1_TRANS | call_SIG_UART1_RECV => Some 1
  | call_uartSetRxHandler n _ | call_uartSetBaudRate n _
  | call_uartGetRxBuffer n | call_uartGetTxBuffer n
  | call_uartSendByte n _ | call_uartReceiveByte n _
  | call_uartFlushReceiveBuffer n | call_uartReceiveBufferIsEmpty n
  | call_uartTransmitPending n | call_uartAddToTxBuffer n _
  | call_uartSendTxBuffer n | call_uartSendBuffer n _ _
  | call_uartTransmitService n | call_uartReceiveService n
  | hw_latch_rx n _ => Some n
  end.

(** The steps of the transmit side, taken from call context or from the
    transmit complete interrupt. *)
Definition is_transmit_side {App : Type} (c : call App) : bool :=
  match c with
  | call_uartGetTxBuffer _ | call_uartSendByte _ _ | call_uart0SendByte _
  | call_uart1SendByte _ | call_uartTransmitPending _
  | call_uartAddToTxBuffer _ _ | call_uart0AddToTxBuffer _
  | call_uart1AddToTxBuffer _ | call_uartSendTxBuffer _
  | call_uartSendBuffer _ _ _ | call_uartTransmitService _
  | call_SIG_UART0_TRANS | call_SIG_UART1_TRANS => true
  | _ => false
  end.

(** The steps of the receive side. *)
Definition is_receive_side {App : Type} (c : call App) : bool :=
  match c with
  | call_uartSetRxHandler _ _ | call_uartGetRxBuffer _
  | call_uart0GetByte | call_uart1GetByte | call_uartReceiveByte _ _
  | call_uartFlushReceiveBuffer _ | call_uartReceiveBufferIsEmpty _
  | call_uartReceiveService _ | call_SIG_UART0_RECV | call_SIG_UART1_RECV
  | hw_latch_rx _ _ => true
  | _ => false
  end.

(** ** Flags and counters *)

(** The two flags of a channel hold 0 or 1, and during a buffered
    transmission the transmitter is not ready. *)
Definition flags_ok (ready buffered : Z) : bool :=
  ((ready =? 0) || (ready =? 1)) &&
  ((buffered =? 0) || ((buffered =? 1) && (ready =? 0))).

Definition counter_ok (v : Z) : bool := (0 <=? v) && (v <? 2 ^ 16).

Definition vars_ok {App : Type} (s : State App) : bool :=
  flags_ok (Array2.elt0 (uartReadyTx s)) (Array2.elt0 (uartBufferedTx s)) &&
  flags_ok (Array2.elt1 (uartReadyTx s)) (Array2.elt1 (uartBufferedTx s)) &&
  counter_ok (Array2.elt0 (uartRxOverflow s)) &&
  counter_ok (Array2.elt1 (uartRxOverflow s)).

(** ** Loops of a caller *)

(** [uartAddToTxBuffer] for each byte of [cs], in order. *)
Fixpoint add_all {App : Type} (nUart : Z) (cs : list byte) (s : State App)
    : option (State App) :=
  match cs with
  | [] => Some s
  | c :: cs => s ← uartAddToTxBuffer nUart c s; add_all nUart cs s
  end.

(** Up to [k] calls of [uartReceiveByte], stopping at the first that
    returns 0; the bytes received, in order, and the state. *)
Fixpoint receive_bytes {App : Type} (k : nat) (nUart : Z) (s : State App)
    : option (list byte * State App) :=
  match k with
  | O => Some ([], s)
  | S k =>
      '(r, c, s) ← uartReceiveByte nUart None s;
      if truthy r then
        c ← c;
        '(cs, s) ← receive_bytes k nUart s;
        Some (c :: cs, s)
      else Some ([], s)
  end.

(** A state the driver reaches from program start: channel 0 is
    initialized, two bytes are queued and their transmission is started,
    and one byte has arrived. *)
Definition demo_trace : list (call (list byte)) :=
  [call_uart0Init; call_uartAddToTxBuffer 0 x61; call_uartAddToTxBuffer 0 x62;
   call_uartSendTxBuffer 0; hw_latch_rx 0 x7a; call_SIG_UART0_RECV].

Definition demo_running : State (list byte) :=
  default (boot_state []) (run_all demo_cfg demo_trace (boot_state [])).

(** * Facts about the ring buffer *)

Lemma wf_buffer_iff (b : cBuffer) :
  wf_buffer b = true <->
  0 <= size b < 2 ^ 16 /\
  Z.of_nat (length (dataptr b)) = size b /\
  0 <= datalength b <= size b /\
  (size b = 0 /\ head b = 0 /\ tail b = 0 \/
   0 <= head b < size b /\ tail b = (head b + datalength b) mod size b).
Proof.
  unfold wf_buffer.
  rewrite !andb_true_iff, !Z.leb_le, !Z.ltb_lt, Z.eqb_eq.
  destruct (Z.eqb_spec (size b) 0) as [E | E];
    rewrite ?andb_true_iff, ?Z.eqb_eq, ?Z.ltb_lt; lia.
Qed.

Lemma wrap_index (h i sz : Z) :
  0 <= h < sz -> 0 <= i <= sz ->
  (h + i) mod sz = if h + i <? sz then h + i else h + i - sz.
Proof.
  intros Hh Hi. destruct (Z.ltb_spec (h + i) sz) as [L | L].
  - apply Z.mod_small. lia.
  - symmetry. apply (Z.mod_unique _ _ 1); lia.
Qed.

(** Reading the window of a doubled storage is reading the storage
    circularly. *)
Lemma lookup_window (st : list byte) (h n i : nat) :
  (h < length st)%nat -> (n <= length st)%nat -> (i < n)%nat ->
  take n (drop h (st ++ st)) !! i =
  st !! (if (h + i <? length st)%nat then (h + i)%nat
         else (h + i - length st)%nat).
Proof.
  intros Hh Hn Hi.
  rewrite lookup_take_lt by lia. rewrite lookup_drop.
  destruct (Nat.ltb_spec (h + i) (length st)) as [L | L].
  - apply lookup_app_l. lia.
  - rewrite lookup_app_r by lia. reflexivity.
Qed.

Lemma length_contents (b : cBuffer) :
  wf_buffer b = true -> Z.of_nat (length (contents b)) = datalength b.
Proof.
  intros W. apply wf_buffer_iff in W. unfold contents.
  rewrite length_take, length_drop, length_app. lia.
Qed.

(** The [i]-th queued byte sits [i] places after [head], modulo the
    capacity. *)
Lemma lookup_contents (b : cBuffer) (i : nat) :
  wf_buffer b = true -> Z.of_nat i < datalength b ->
  contents b !! i = dataptr b !! Z.to_nat ((head b + Z.of_nat i) mod size b).
Proof.
  intros W Hi. apply wf_buffer_iff in W.
  destruct W as (Hs & Hl & Hd & [(E & _ & _) | (Hh & Ht)]); [lia |].
  unfold contents. rewrite lookup_window by lia.
  rewrite wrap_index by lia.
  destruct (Nat.ltb_spec (Z.to_nat (head b) + i) (length (dataptr b)));
    destruct (Z.ltb_spec (head b + Z.of_nat i) (size b)); try lia;
    f_equal; lia.
Qed.

Lemma lookup_contents_ge (b : cBuffer) (i : nat) :
  wf_buffer b = true -> datalength b <= Z.of_nat i ->
  contents b !! i = None.
Proof.
  intros W Hi. apply lookup_ge_None.
  pose proof (length_contents b W). lia.
Qed.

Lemma u16_small (x : Z) : 0 <= x < 2 ^ 16 -> u16 x = x.
Proof. intros H. unfold u16. apply Z.mod_small. exact H. Qed.

(** A push on a buffer that is not full appends at the end of the queue. *)
Lemma bufferAddToEnd_ok (b : cBuffer) (c : byte) :
  wf_buffer b = true -> datalength b < size b ->
  exists b',
    bufferAddToEnd b c = (true, b') /\
    wf_buffer b' = true /\
    contents b' = contents b ++ [c] /\
    size b' = size b /\
    datalength b' = datalength b + 1.
Proof.
  intros W Hlt. pose proof W as W0. apply wf_buffer_iff in W.
  destruct W as (Hs & Hl & Hd & [(E & _ & _) | (Hh & Ht)]); [lia |].
  pose proof (length_contents b W0) as Hlen.
  unfold bufferAddToEnd. destruct (Z.ltb_spec (datalength b) (size b)); [| lia].
  rewrite u16_small by lia.
  set (b' := mkBuffer _ _ _ _ _).
  assert (W' : wf_buffer b' = true).
  { apply wf_buffer_iff. subst b'. cbn [size dataptr head tail datalength].
    rewrite length_insert.
    repeat split; try lia. right. split; [lia |].
    rewrite Ht, Z.add_mod_idemp_l by lia. f_equal. lia. }
  exists b'. split; [reflexivity |]. split; [exact W' |].
  split; [| split; reflexivity].
  apply list_eq. intros i.
  destruct (Z.lt_total (Z.of_nat i) (datalength b)) as [L | [L | L]].
  - rewrite (lookup_contents b' i W') by (subst b'; cbn [datalength]; lia).
    rewrite lookup_app_l by lia.
    rewrite (lookup_contents b i W0) by lia.
    subst b'. cbn [size dataptr head tail datalength].
    apply list_lookup_insert_ne.
    rewrite Ht, !wrap_index by lia.
    destruct (Z.ltb_spec (head b + datalength b) (size b));
      destruct (Z.ltb_spec (head b + Z.of_nat i) (size b)); lia.
  - rewrite (lookup_contents b' i W') by (subst b'; cbn [datalength]; lia).
    subst b'. cbn [size dataptr head tail datalength].
    rewrite L, <- Ht.
    rewrite list_lookup_insert_eq.
    + symmetry. apply list_lookup_middle. lia.
    + pose proof (Z.mod_pos_bound (head b + datalength b) (size b) ltac:(lia)).
      lia.
  - rewrite (lookup_contents_ge b' i W') by (subst b'; cbn [datalength]; lia).
    symmetry. apply lookup_ge_None. rewrite length_app. cbn. lia.
Qed.

(** A push on a full buffer fails and changes nothing. *)
Lemma bufferAddToEnd_full (b : cBuffer) (c : byte) :
  size b <= datalength b -> bufferAddToEnd b c = (false, b).
Proof.
  intros H. unfold bufferAddToEnd.
  destruct (Z.ltb_spec (datalength b) (size b)); [lia | reflexivity].
Qed.

(** A pop on a buffer that is not empty removes the oldest byte. *)
Lemma bufferGetFromFront_ok (b : cBuffer) :
  wf_buffer b = true -> 0 < datalength b ->
  exists c b',
    bufferGetFromFront b = Some (c, b') /\
    wf_buffer b' = true /\
    contents b = c :: contents b' /\
    size b' = size b /\
    datalength b' = datalength b - 1.
Proof.
  intros W Hlt. pose proof W as W0. apply wf_buffer_iff in W.
  destruct W as (Hs & Hl & Hd & [(E & _ & _) | (Hh & Ht)]); [lia |].
  unfold bufferGetFromFront.
  destruct (Z.ltb_spec 0 (datalength b)); [| lia].
  destruct (lookup_lt_is_Some_2 (dataptr b) (Z.to_nat (head b))) as [c Hc];
    [lia |].
  rewrite Hc. cbn [mbind option_bind].
  rewrite u16_small by lia.
  set (b' := mkBuffer _ _ _ _ _).
  assert (W' : wf_buffer b' = true).
  { apply wf_buffer_iff. subst b'. cbn [size dataptr head tail datalength].
    pose proof (Z.mod_pos_bound (head b + 1) (size b) ltac:(lia)).
    repeat split; try lia. right. split; [lia |].
    rewrite Ht, Z.add_mod_idemp_l by lia. f_equal. lia. }
  exists c, b'. split; [reflexivity |]. split; [exact W' |].
  split; [| split; reflexivity].
  apply list_eq. intros [| i].
  - rewrite (lookup_contents b 0 W0) by lia.
    rewrite Z.add_0_r, Z.mod_small by lia. exact Hc.
  - change ((c :: contents b') !! S i) with (contents b' !! i).
    destruct (Z.lt_ge_cases (Z.of_nat (S i)) (datalength b)) as [L | L].
    + rewrite (lookup_contents b (S i) W0) by lia.
      rewrite (lookup_contents b' i W') by (subst b'; cbn [datalength]; lia).
      subst b'. cbn [size dataptr head tail datalength].
      rewrite Z.add_mod_idemp_l by lia.
      replace (head b + Z.of_nat (S i)) with (head b + 1 + Z.of_nat i) by lia.
      reflexivity.
    + rewrite (lookup_contents_ge b (S i) W0) by lia.
      rewrite (lookup_contents_ge b' i W')
        by (subst b'; cbn [datalength]; lia).
      reflexivity.
Qed.

(** A flushed buffer is well formed and empty. *)
Lemma bufferFlush_ok (b : cBuffer) :
  wf_buffer b = true ->
  wf_buffer (bufferFlush b) = true /\ contents (bufferFlush b) = [] /\
  datalength (bufferFlush b) = 0.
Proof.
  intros W. apply wf_buffer_iff in W.
  destruct W as (Hs & Hl & Hd & HW).
  split; [| split; reflexivity].
  apply wf_buffer_iff. cbn.
  repeat split; try lia.
  destruct (Z.eq_dec (size b) 0) as [E | E]; [left; lia | right].
  split; [lia |]. rewrite Z.mod_0_l; lia.
Qed.

(** A freshly initialized buffer is well formed and empty. *)
Lemma bufferInit_ok (start : list byte) (sz : Z) :
  Z.of_nat (length start) = sz -> sz < 2 ^ 16 ->
  wf_buffer (bufferInit start sz) = true /\
  contents (bufferInit start sz) = [] /\
  size (bufferInit start sz) = sz.
Proof.
  intros Hl Hs. unfold bufferInit. rewrite u16_small by lia.
  split; [| split; reflexivity].
  apply wf_buffer_iff. cbn.
  repeat split; try lia.
  destruct (Z.eq_dec sz 0) as [E | E]; [left; lia | right].
  split; [lia |]. rewrite Z.mod_0_l; lia.
Qed.

(** A well formed buffer is empty exactly when its count is zero. *)
Lemma contents_nil_iff (b : cBuffer) :
  wf_buffer b = true -> (contents b = [] <-> datalength b = 0).
Proof.
  intros W. pose proof (length_contents b W) as L. split; intros H.
  - rewrite H in L. cbn in L. lia.
  - apply length_zero_iff_nil. lia.
Qed.

(** The queue runs around the end of the storage: in a buffer of capacity 3,
    after three pushes, two pops and two more pushes the write index has
    wrapped and the bytes come out in the order they went in. *)
Example ring_wraps :
  let b := queue_of 3 [x61; x62; x63] in
  let b := default b (snd <$> bufferGetFromFront b) in
  let b := default b (snd <$> bufferGetFromFront b) in
  let b := (bufferAddToEnd b x64).2 in
  let b := (bufferAddToEnd b x65).2 in
  wf_buffer b = true /\ head b = 2 /\ tail b = 2 /\ datalength b = 3 /\
  dataptr b = [x64; x65; x63] /\ contents b = [x63; x64; x65].
Proof. repeat split. Qed.

(** * Facts about the global arrays *)

Lemma valid_channel_cases (nUart : Z) :
  valid_channel nUart = true -> nUart = 0 \/ nUart = 1.
Proof.
  unfold valid_channel. rewrite andb_true_iff, Z.leb_le, Z.ltb_lt. lia.
Qed.

Lemma truthy_true (x : Z) : x <> 0 -> truthy x = true.
Proof.
  intros H. unfold truthy. destruct (Z.eqb_spec x 0); [lia | reflexivity].
Qed.

Lemma truthy_false (x : Z) : truthy x = false <-> x = 0.
Proof.
  unfold truthy. destruct (Z.eqb_spec x 0); cbn; split; intros; try lia;
    congruence.
Qed.

Module Array2Facts.

Lemma get_None {A} (a : arr2 A) (i : Z) :
  ~ (0 <= i < 2) -> Array2.get a i = None.
Proof.
  intros H. unfold Array2.get.
  destruct (Z.eqb_spec i 0); [lia |]. destruct (Z.eqb_spec i 1); [lia |].
  reflexivity.
Qed.

Lemma set_None {A} (a : arr2 A) (i : Z) (v : A) :
  ~ (0 <= i < 2) -> Array2.set a i v = None.
Proof.
  intros H. unfold Array2.set.
  destruct (Z.eqb_spec i 0); [lia |]. destruct (Z.eqb_spec i 1); [lia |].
  reflexivity.
Qed.

Lemma get_set_eq {A} (a a' : arr2 A) (i : Z) (v : A) :
  Array2.set a i v = Some a' -> Array2.get a' i = Some v.
Proof.
  unfold Array2.set, Array2.get.
  destruct (i =? 0); [intros [= <-]; reflexivity |].
  destruct (i =? 1); [intros [= <-]; reflexivity | discriminate].
Qed.

Lemma get_set_ne {A} (a a' : arr2 A) (i j : Z) (v : A) :
  Array2.set a i v = Some a' -> i <> j ->
  Array2.get a' j = Array2.get a j.
Proof.
  unfold Array2.set, Array2.get. intros H Hne.
  destruct (Z.eqb_spec i 0), (Z.eqb_spec i 1),
    (Z.eqb_spec j 0), (Z.eqb_spec j 1);
    try lia; try discriminate; inversion H; subst; reflexivity.
Qed.

(** Writing back the value that is already there changes nothing. *)
Lemma set_get_id {A} (a : arr2 A) (i : Z) (v : A) :
  Array2.get a i = Some v -> Array2.set a i v = Some a.
Proof.
  destruct a as [x y]. unfold Array2.set, Array2.get. cbn.
  destruct (i =? 0); [intros [= <-]; reflexivity |].
  destruct (i =? 1); [intros [= <-]; reflexivity | discriminate].
Qed.

Lemma set_is_Some {A} (a : arr2 A) (i : Z) (v : A) :
  valid_channel i = true -> exists a', Array2.set a i v = Some a'.
Proof.
  intros H. destruct (valid_channel_cases i H) as [-> | ->];
    eexists; reflexivity.
Qed.

End Array2Facts.

(** * Properties of the driver *)

(** Reduce the field reads of updated states, and the binds on known
    results. *)
Ltac fields :=
  cbn [uartReadyTx uartBufferedTx uartRxBuffer uartTxBuffer uartRxOverflow
       UartRxFunc hw app set_uartReadyTx set_uartBufferedTx set_uartRxBuffer
       set_uartTxBuffer set_uartRxOverflow set_UartRxFunc set_hw set_app].

Ltac fields_in H :=
  cbn [uartReadyTx uartBufferedTx uartRxBuffer uartTxBuffer uartRxOverflow
       UartRxFunc hw app set_uartReadyTx set_uartBufferedTx set_uartRxBuffer
       set_uartTxBuffer set_uartRxOverflow set_UartRxFunc set_hw set_app]
    in H.

Ltac binds := cbn [mbind option_bind].

Ltac binds_in H := cbn [mbind option_bind] in H.

Section DriverFacts.

Context {App : Type}.
Implicit Types (s : State App) (nUart : Z) (c : byte) (b : cBuffer).

(** ** Steps of the interrupt functions and of the queue functions *)

Lemma byte_to_int_range c : 0 <= byte_to_int c <= 255.
Proof.
  unfold byte_to_int. pose proof (Byte.to_N_bounded c). lia.
Qed.

(** A receive complete event on a channel without callback whose buffer
    has room stores the byte at the end of the queue. *)
Lemma receive_event_stored nUart c s b :
  valid_channel nUart = true ->
  Array2.get (UartRxFunc s) nUart = Some None ->
  Array2.get (uartRxBuffer s) nUart = Some b ->
  wf_buffer b = true ->
  datalength b < size b ->
  exists b' a,
    Array2.set (uartRxBuffer s) nUart b' = Some a /\
    receive_event nUart c s =
      Some (set_uartRxBuffer a (set_hw (latch_rx nUart c (hw s)) s)) /\
    wf_buffer b' = true /\
    contents b' = contents b ++ [c] /\
    size b' = size b /\
    datalength b' = datalength b + 1.
Proof.
  intros V F G W L.
  destruct (bufferAddToEnd_ok b c W L) as (b' & P & W' & C & S & D).
  destruct (Array2Facts.set_is_Some (uartRxBuffer s) nUart b' V) as [a Ha].
  exists b', a. repeat split; auto.
  unfold receive_event, uartReceiveService.
  cbn [UartRxFunc uartRxBuffer set_hw hw app].
  rewrite F. cbn [mbind option_bind]. rewrite G. cbn [mbind option_bind].
  replace (if truthy nUart then UDR1_rx (latch_rx nUart c (hw s))
           else UDR0_rx (latch_rx nUart c (hw s))) with c
    by (destruct (valid_channel_cases nUart V) as [-> | ->]; reflexivity).
  rewrite P, Ha. reflexivity.
Qed.

(** A receive complete event on a channel without callback whose buffer
    is full only advances the overflow counter, modulo 2^16. *)
Lemma receive_event_overflow nUart c s b v :
  valid_channel nUart = true ->
  Array2.get (UartRxFunc s) nUart = Some None ->
  Array2.get (uartRxBuffer s) nUart = Some b ->
  size b <= datalength b ->
  Array2.get (uartRxOverflow s) nUart = Some v ->
  exists o,
    Array2.set (uartRxOverflow s) nUart (u16 (v + 1)) = Some o /\
    receive_event nUart c s =
      Some (set_uartRxOverflow o (set_hw (latch_rx nUart c (hw s)) s)).
Proof.
  intros V F G L O.
  destruct (Array2Facts.set_is_Some (uartRxOverflow s) nUart (u16 (v + 1)) V)
    as [o Ho].
  exists o. split; [exact Ho |].
  unfold receive_event, uartReceiveService.
  cbn [UartRxFunc uartRxBuffer set_hw hw app].
  rewrite F. cbn [mbind option_bind]. rewrite G. cbn [mbind option_bind].
  rewrite (bufferAddToEnd_full b _ L).
  rewrite (Array2Facts.set_get_id _ _ _ G). cbn [mbind option_bind negb].
  fields. rewrite O. binds. rewrite Ho. reflexivity.
Qed.

(** Receive complete events for a run of bytes that fits into the buffer
    queue the bytes in the order of arrival. *)
Lemma receive_events_stored nUart (cs : list byte) :
  valid_channel nUart = true ->
  forall s b,
    Array2.get (UartRxFunc s) nUart = Some None ->
    Array2.get (uartRxBuffer s) nUart = Some b ->
    wf_buffer b = true ->
    datalength b + Z.of_nat (length cs) <= size b ->
    exists s' b',
      receive_events nUart cs s = Some s' /\
      Array2.get (uartRxBuffer s') nUart = Some b' /\
      wf_buffer b' = true /\
      contents b' = contents b ++ cs /\
      uartRxOverflow s' = uartRxOverflow s.
Proof.
  intros V. induction cs as [| c cs IH]; intros s b F G W L.
  - exists s, b. rewrite app_nil_r. auto.
  - cbn [length] in L.
    destruct (receive_event_stored nUart c s b V F G W ltac:(lia))
      as (b1 & a & Ha & E & W1 & C1 & S1 & D1).
    cbn [receive_events]. rewrite E. binds.
    destruct (IH (set_uartRxBuffer a (set_hw (latch_rx nUart c (hw s)) s)) b1)
      as (s' & b' & E' & G' & W' & C' & O'); auto.
    + fields. apply (Array2Facts.get_set_eq _ _ _ _ Ha).
    + lia.
    + exists s', b'. repeat split; auto.
      rewrite C', C1, <- app_assoc. reflexivity.
Qed.

(** A transmit complete event in buffered mode with bytes queued takes
    the oldest byte out of the transmit buffer and writes it to the data
    register of the channel; the flags stay as they are. *)
Lemma transmit_event_pop nUart s b f :
  valid_channel nUart = true ->
  Array2.get (uartBufferedTx s) nUart = Some f -> f <> 0 ->
  Array2.get (uartTxBuffer s) nUart = Some b ->
  wf_buffer b = true -> 0 < datalength b ->
  exists c b' s',
    uartTransmitService nUart s = Some s' /\
    contents b = c :: contents b' /\
    wf_buffer b' = true /\
    Array2.get (uartTxBuffer s') nUart = Some b' /\
    UDR_tx nUart (hw s') = UDR_tx nUart (hw s) ++ [c] /\
    uartReadyTx s' = uartReadyTx s /\
    uartBufferedTx s' = uartBufferedTx s.
Proof.
  intros V F Hf G W D.
  destruct (bufferGetFromFront_ok b W D) as (c & b' & P & W' & C & _).
  exists c, b'.
  destruct (valid_channel_cases nUart V) as [-> | ->].
  - eexists. split.
    { unfold uartTransmitService.
      rewrite F. binds. rewrite (truthy_true f Hf), G. binds.
      rewrite (truthy_true (datalength b)) by lia.
      change (truthy 0) with false. cbv iota. binds.
      rewrite P. binds. cbn [Array2.set Z.eqb]. binds. reflexivity. }
    fields. repeat split; auto.
  - eexists. split.
    { unfold uartTransmitService.
      rewrite F. binds. rewrite (truthy_true f Hf), G. binds.
      rewrite (truthy_true (datalength b)) by lia.
      change (truthy 1) with true. cbv iota. binds.
      rewrite P. binds. cbn [Array2.set Z.eqb]. binds. reflexivity. }
    fields. repeat split; auto.
Qed.

(** A transmit complete event in buffered mode with nothing queued ends
    the buffered transmission and marks the transmitter ready. *)
Lemma transmit_event_done nUart s b f :
  valid_channel nUart = true ->
  Array2.get (uartBufferedTx s) nUart = Some f -> f <> 0 ->
  Array2.get (uartTxBuffer s) nUart = Some b ->
  datalength b = 0 ->
  exists fl r,
    Array2.set (uartBufferedTx s) nUart 0 = Some fl /\
    Array2.set (uartReadyTx s) nUart 1 = Some r /\
    uartTransmitService nUart s
    = Some (set_uartReadyTx r (set_uartBufferedTx fl s)).
Proof.
  intros V F Hf G D.
  destruct (Array2Facts.set_is_Some (uartBufferedTx s) nUart 0 V) as [fl Hfl].
  destruct (Array2Facts.set_is_Some (uartReadyTx s) nUart 1 V) as [r Hr].
  exists fl, r. repeat split; auto.
  unfold uartTransmitService.
  rewrite F. binds. rewrite (truthy_true f Hf), G. binds.
  rewrite (proj2 (truthy_false _) D), Hfl. binds. fields.
  rewrite Hr. reflexivity.
Qed.

(** A transmit complete event in single-byte mode marks the transmitter
    ready and does nothing else. *)
Lemma transmit_event_single nUart s :
  valid_channel nUart = true ->
  Array2.get (uartBufferedTx s) nUart = Some 0 ->
  exists r,
    Array2.set (uartReadyTx s) nUart 1 = Some r /\
    uartTransmitService nUart s = Some (set_uartReadyTx r s).
Proof.
  intros V F.
  destruct (Array2Facts.set_is_Some (uartReadyTx s) nUart 1 V) as [r Hr].
  exists r. split; [exact Hr |].
  unfold uartTransmitService. rewrite F. binds.
  change (truthy 0) with false. cbv iota. rewrite Hr. reflexivity.
Qed.

Lemma transmit_events_snoc nUart (j : nat) :
  forall s,
    transmit_events (S j) nUart s
    = s1 ← transmit_events j nUart s; uartTransmitService nUart s1.
Proof.
  induction j as [| j IH]; intros s.
  - cbn [transmit_events]. binds.
    destruct (uartTransmitService nUart s); reflexivity.
  - change (transmit_events (S (S j)) nUart s)
      with (s1 ← uartTransmitService nUart s;
            transmit_events (S j) nUart s1).
    cbn [transmit_events].
    destruct (uartTransmitService nUart s) as [s1 |]; [| reflexivity].
    binds. apply IH.
Qed.

(** [j] transmit complete events in buffered mode send the [j] oldest
    queued bytes, oldest first. *)
Lemma transmit_events_drain nUart f (j : nat) :
  valid_channel nUart = true -> f <> 0 ->
  forall s b,
    Array2.get (uartBufferedTx s) nUart = Some f ->
    Array2.get (uartTxBuffer s) nUart = Some b ->
    wf_buffer b = true ->
    (j <= length (contents b))%nat ->
    exists s' b',
      transmit_events j nUart s = Some s' /\
      Array2.get (uartTxBuffer s') nUart = Some b' /\
      wf_buffer b' = true /\
      contents b' = drop j (contents b) /\
      UDR_tx nUart (hw s') = UDR_tx nUart (hw s) ++ take j (contents b) /\
      uartReadyTx s' = uartReadyTx s /\
      uartBufferedTx s' = uartBufferedTx s.
Proof.
  intros V Hf. induction j as [| j IH]; intros s b F G W L.
  - exists s, b. cbn [take drop]. rewrite app_nil_r. auto 10.
  - pose proof (length_contents b W) as Hl.
    destruct (transmit_event_pop nUart s b f V F Hf G W ltac:(lia))
      as (c & b1 & s1 & E & C & W1 & G1 & U & R & B).
    rewrite C in L. cbn [length] in L.
    destruct (IH s1 b1) as (s' & b' & E' & G' & W' & C' & U' & R' & B');
      auto; try lia.
    { rewrite B. exact F. }
    exists s', b'. cbn [transmit_events]. rewrite E. binds.
    repeat split; auto.
    + rewrite C. exact C'.
    + rewrite U', U, C, <- app_assoc. reflexivity.
    + congruence.
    + congruence.
Qed.

(** ** Transmitting *)
(** [uartSendByte] writes the byte to the data register of the channel
    and clears [uartReadyTx]. *)
Lemma uartSendByte_ok nUart c s :
  valid_channel nUart = true ->
  exists r,
    Array2.set (uartReadyTx s) nUart 0 = Some r /\
    uartSendByte nUart c s
    = Some (set_uartReadyTx r
              (set_hw (if truthy nUart then outb_UDR1 c (hw s)
                       else outb_UDR0 c (hw s)) s)) /\
    UDR_tx nUart (if truthy nUart then outb_UDR1 c (hw s)
                  else outb_UDR0 c (hw s))
    = UDR_tx nUart (hw s) ++ [c].
Proof.
  intros V.
  destruct (valid_channel_cases nUart V) as [-> | ->];
    eexists; repeat split; reflexivity.
Qed.

(** *** [uartSendBuffer] *)

(** A call that returns 0 has changed nothing. *)
Lemma uartSendBuffer_failure_unchanged nUart (buffer : list byte)
    (nBytes : Z) s s' :
  uartSendBuffer nUart buffer nBytes s = Some (0, s') -> s' = s.
Proof.
  unfold uartSendBuffer.
  destruct (Array2.get (uartTxBuffer s) nUart) as [b |]; [| discriminate].
  binds.
  destruct ((u16 (datalength b + nBytes) <? size b) && truthy nBytes).
  - destruct buffer as [| first rest]; [discriminate |].
    destruct (uartSendBuffer_loop _ _ _ _) as [s1 |]; [| discriminate].
    binds.
    destruct (Array2.set _ _ _) as [fl |]; [| discriminate]. binds.
    destruct (uartSendByte _ _ _) as [s2 |]; discriminate.
  - intros [= <-]. reflexivity.
Qed.

(** The test of [uartSendBuffer] decides the result: when it fails the
    call returns 0 and has changed nothing, whatever the buffer is. *)
Lemma uartSendBuffer_rejects nUart (buffer : list byte) (nBytes : Z) s b :
  Array2.get (uartTxBuffer s) nUart = Some b ->
  (u16 (datalength b + nBytes) <? size b) && truthy nBytes = false ->
  uartSendBuffer nUart buffer nBytes s = Some (0, s).
Proof.
  intros G H. unfold uartSendBuffer. rewrite G. binds. rewrite H.
  reflexivity.
Qed.

(** The copy loop queues its bytes in order while there is room. *)
Lemma uartSendBuffer_loop_ok nUart (k : nat) :
  valid_channel nUart = true ->
  forall (buffer : list byte) s b,
    Array2.get (uartTxBuffer s) nUart = Some b ->
    wf_buffer b = true ->
    datalength b + Z.of_nat k <= size b ->
    (k <= length buffer)%nat ->
    exists s' b' a,
      uartSendBuffer_loop k nUart buffer s = Some s' /\
      s' = set_uartTxBuffer a s /\
      Array2.get a nUart = Some b' /\
      Array2.get a (1 - nUart) = Array2.get (uartTxBuffer s) (1 - nUart) /\
      wf_buffer b' = true /\
      contents b' = contents b ++ take k buffer /\
      size b' = size b /\
      datalength b' = datalength b + Z.of_nat k.
Proof.
  intros V. induction k as [| k IH]; intros buffer s b G W L Hb.
  - exists s, b, (uartTxBuffer s). cbn [uartSendBuffer_loop take].
    rewrite app_nil_r, Z.add_0_r. repeat split; auto.
    destruct s; reflexivity.
  - destruct buffer as [| c rest]; [cbn in Hb; lia |].
    cbn [length] in Hb.
    destruct (bufferAddToEnd_ok b c W ltac:(lia))
      as (b1 & P & W1 & C1 & S1 & D1).
    destruct (Array2Facts.set_is_Some (uartTxBuffer s) nUart b1 V)
      as [a1 Ha1].
    destruct (IH rest (set_uartTxBuffer a1 s) b1)
      as (s' & b' & a & E & Es & Ga & Go & W' & C' & S' & D');
      try lia.
    { fields. apply (Array2Facts.get_set_eq _ _ _ _ Ha1). }
    { exact W1. }
    exists s', b', a. cbn [uartSendBuffer_loop]. rewrite G. binds.
    rewrite P. cbn [snd]. rewrite Ha1. binds.
    repeat split; auto; try lia.
    + rewrite Go. fields.
      apply (Array2Facts.get_set_ne _ _ _ _ _ Ha1).
      destruct (valid_channel_cases nUart V); lia.
    + rewrite C', C1, <- app_assoc. reflexivity.
Qed.

(** With headroom for [nBytes] bytes, [uartSendBuffer] returns 1: the
    bytes after the first are queued in order behind the bytes already
    queued, the first byte is written to the data register,
    [uartBufferedTx] is set and [uartReadyTx] is cleared. *)
Lemma uartSendBuffer_ok nUart (first : byte) (rest : list byte)
    (nBytes : Z) s b :
  valid_channel nUart = true ->
  Array2.get (uartTxBuffer s) nUart = Some b ->
  wf_buffer b = true ->
  0 < nBytes ->
  datalength b + nBytes < size b ->
  nBytes - 1 <= Z.of_nat (length rest) ->
  exists s' b',
    uartSendBuffer nUart (first :: rest) nBytes s = Some (1, s') /\
    Array2.get (uartTxBuffer s') nUart = Some b' /\
    wf_buffer b' = true /\
    contents b' = contents b ++ take (Z.to_nat (nBytes - 1)) rest /\
    datalength b' = datalength b + nBytes - 1 /\
    Array2.get (uartBufferedTx s') nUart = Some 1 /\
    Array2.get (uartReadyTx s') nUart = Some 0 /\
    UDR_tx nUart (hw s') = UDR_tx nUart (hw s) ++ [first] /\
    Array2.get (uartTxBuffer s') (1 - nUart)
    = Array2.get (uartTxBuffer s) (1 - nUart) /\
    uartRxBuffer s' = uartRxBuffer s /\
    uartRxOverflow s' = uartRxOverflow s.
Proof.
  intros V G W Hn Hroom Hlen.
  pose proof (proj1 (wf_buffer_iff b) W) as (Hs & _ & Hd & _).
  destruct (uartSendBuffer_loop_ok nUart (Z.to_nat (nBytes - 1)) V rest s b
              G W ltac:(lia) ltac:(lia))
    as (s1 & b' & a & E & Es & Ga & Go & W' & C' & S' & D').
  destruct (Array2Facts.set_is_Some (uartBufferedTx s1) nUart 1 V)
    as [fl Hfl].
  destruct (uartSendByte_ok nUart first (set_uartBufferedTx fl s1) V)
    as (r & Hr & Eb & U).
  eexists. exists b'. split.
  { unfold uartSendBuffer. rewrite G. binds.
    rewrite u16_small by lia.
    destruct (Z.ltb_spec (datalength b + nBytes) (size b)); [| lia].
    rewrite truthy_true by lia. cbn [andb].
    rewrite E. binds. rewrite Hfl. binds. rewrite Eb. binds.
    reflexivity. }
  subst s1. fields. fields_in Hfl. fields_in Hr. fields_in U.
  repeat split; auto; try lia.
  - apply (Array2Facts.get_set_eq _ _ _ _ Hfl).
  - apply (Array2Facts.get_set_eq _ _ _ _ Hr).
Qed.

(** As long as the sum of the occupancy and [nBytes] stays below 2^16,
    [uartSendBuffer] returns 1 exactly when the occupancy plus [nBytes]
    is below the capacity and [nBytes] is not zero, and returns 0
    otherwise. *)
Lemma uartSendBuffer_success_iff nUart (buffer : list byte) (nBytes : Z)
    s b :
  valid_channel nUart = true ->
  Array2.get (uartTxBuffer s) nUart = Some b ->
  wf_buffer b = true ->
  0 <= nBytes ->
  datalength b + nBytes < 2 ^ 16 ->
  nBytes <= Z.of_nat (length buffer) ->
  exists r s',
    uartSendBuffer nUart buffer nBytes s = Some (r, s') /\
    (r = 0 \/ r = 1) /\
    (r = 1 <-> datalength b + nBytes < size b /\ 0 < nBytes) /\
    (r = 0 -> s' = s).
Proof.
  intros V G W Hn Hsum Hlen.
  pose proof (proj1 (wf_buffer_iff b) W) as (Hs & _ & Hd & _).
  destruct (Z.lt_ge_cases (datalength b + nBytes) (size b)) as [L | L];
    [destruct (Z.eq_dec nBytes 0) as [N | N] |].
  - exists 0, s. split; [| repeat split; auto; lia].
    apply (uartSendBuffer_rejects _ _ _ _ b G).
    rewrite (proj2 (truthy_false _) N). apply andb_false_r.
  - destruct buffer as [| first rest]; [cbn in Hlen; lia |].
    cbn [length] in Hlen.
    destruct (uartSendBuffer_ok nUart first rest nBytes s b V G W
                ltac:(lia) L ltac:(lia)) as (s' & b' & E & _).
    exists 1, s'. split; [exact E |]. repeat split; auto; lia.
  - exists 0, s. split; [| repeat split; auto; lia].
    apply (uartSendBuffer_rejects _ _ _ _ b G).
    rewrite u16_small by lia.
    destruct (Z.ltb_spec (datalength b + nBytes) (size b)); [lia |].
    reflexivity.
Qed.

(** C1. The transmit ring and the caller's array are objects in the data
    space of the target, which has 2^16 addresses, and the array holds the
    [nBytes] bytes the caller asks to send.  Then [uartSendBuffer] returns
    1 exactly when the occupancy plus [nBytes] is below the capacity and
    [nBytes] is not zero, and returns 0 otherwise; when it returns 0 the
    whole state (buffers, occupancy, both flags) is as before.  With
    capacity 8 and occupancy 3 a request for 4 bytes is accepted and a
    request for 5 bytes is refused; a request for no bytes is always
    refused. *)
Theorem uartSendBuffer_headroom nUart (buffer : list byte) (nBytes : Z) s b :
  valid_channel nUart = true ->
  Array2.get (uartTxBuffer s) nUart = Some b ->
  wf_buffer b = true ->
  0 <= nBytes <= Z.of_nat (length buffer) ->
  Z.of_nat (length (dataptr b)) + Z.of_nat (length buffer) < 2 ^ 16 ->
  exists r s',
    uartSendBuffer nUart buffer nBytes s = Some (r, s') /\
    (r = 0 \/ r = 1) /\
    (r = 1 <-> datalength b + nBytes < size b /\ 0 < nBytes) /\
    (r = 0 -> s' = s) /\
    (size b = 8 -> datalength b = 3 ->
     (nBytes = 4 -> r = 1) /\ (nBytes = 5 -> r = 0)) /\
    (nBytes = 0 -> r = 0).
Proof.
  intros V G W Hn Hmem.
  pose proof (proj1 (wf_buffer_iff b) W) as (Hs & Hl & Hd & _).
  destruct (uartSendBuffer_success_iff nUart buffer nBytes s b V G W
              ltac:(lia) ltac:(lia) ltac:(lia))
    as (r & s' & E & R01 & R1 & R0).
  exists r, s'. repeat split; auto; try tauto; try lia.
Qed.

(** C2. Under the premises of C1, a call of [uartSendBuffer] that returns
    1 has written the first byte of the block to the data register of the
    channel, and only that byte; has queued the other [nBytes - 1] bytes,
    in order, behind the bytes queued before, so that the occupancy is the
    old one plus [nBytes - 1]; and has set [uartBufferedTx] and cleared
    [uartReadyTx].  The other transmit buffer, the receive buffers and the
    overflow counters are as before. *)
Theorem uartSendBuffer_success nUart (buffer : list byte) (nBytes : Z) s b
    s' :
  valid_channel nUart = true ->
  Array2.get (uartTxBuffer s) nUart = Some b ->
  wf_buffer b = true ->
  0 <= nBytes <= Z.of_nat (length buffer) ->
  Z.of_nat (length (dataptr b)) + Z.of_nat (length buffer) < 2 ^ 16 ->
  uartSendBuffer nUart buffer nBytes s = Some (1, s') ->
  exists first rest b',
    buffer = first :: rest /\
    Array2.get (uartTxBuffer s') nUart = Some b' /\
    wf_buffer b' = true /\
    contents b' = contents b ++ take (Z.to_nat (nBytes - 1)) rest /\
    datalength b' = datalength b + nBytes - 1 /\
    Array2.get (uartBufferedTx s') nUart = Some 1 /\
    Array2.get (uartReadyTx s') nUart = Some 0 /\
    UDR_tx nUart (hw s') = UDR_tx nUart (hw s) ++ [first] /\
    Array2.get (uartTxBuffer s') (1 - nUart)
    = Array2.get (uartTxBuffer s) (1 - nUart) /\
    uartRxBuffer s' = uartRxBuffer s /\
    uartRxOverflow s' = uartRxOverflow s.
Proof.
  intros V G W Hn Hmem E.
  pose proof (proj1 (wf_buffer_iff b) W) as (Hs & Hl & Hd & _).
  destruct (uartSendBuffer_success_iff nUart buffer nBytes s b V G W
              ltac:(lia) ltac:(lia) ltac:(lia))
    as (r & s1 & E1 & _ & R1 & _).
  rewrite E in E1. injection E1 as <- <-.
  destruct (proj1 R1 eq_refl) as [Hroom Hpos].
  destruct buffer as [| first rest]; [cbn in Hn; lia |].
  cbn [length] in Hn.
  destruct (uartSendBuffer_ok nUart first rest nBytes s b V G W Hpos Hroom
              ltac:(lia))
    as (s2 & b' & E2 & G2 & W2 & C2 & D2 & F2 & Rd2 & U2 & O2 & Rx2 & Ov2).
  rewrite E in E2. injection E2 as <-.
  exists first, rest, b'. repeat split; auto.
Qed.


(** C3. From a state with [uartBufferedTx] set and the bytes [contents b]
    queued, transmit complete events write the queued bytes to the data
    register of the channel oldest first: after [j] events the first [j]
    of them have been written, the rest is still queued and both flags
    are as at the start.  The event after the last byte finds the buffer
    empty, clears [uartBufferedTx] and sets [uartReadyTx].  With
    [uartBufferedTx] clear an event sets [uartReadyTx] and does nothing
    else. *)
Theorem transmit_events_fifo nUart s b f :
  valid_channel nUart = true ->
  Array2.get (uartBufferedTx s) nUart = Some f ->
  Array2.get (uartTxBuffer s) nUart = Some b ->
  wf_buffer b = true ->
  (f <> 0 ->
   (forall j : nat, (j <= length (contents b))%nat ->
      exists s' b',
        transmit_events j nUart s = Some s' /\
        UDR_tx nUart (hw s') = UDR_tx nUart (hw s) ++ take j (contents b) /\
        Array2.get (uartTxBuffer s') nUart = Some b' /\
        contents b' = drop j (contents b) /\
        uartReadyTx s' = uartReadyTx s /\
        uartBufferedTx s' = uartBufferedTx s) /\
   (exists s' b',
      transmit_events (S (length (contents b))) nUart s = Some s' /\
      UDR_tx nUart (hw s') = UDR_tx nUart (hw s) ++ contents b /\
      Array2.get (uartTxBuffer s') nUart = Some b' /\
      contents b' = [] /\
      Array2.get (uartReadyTx s') nUart = Some 1 /\
      Array2.get (uartBufferedTx s') nUart = Some 0)) /\
  (f = 0 ->
   exists r,
     Array2.set (uartReadyTx s) nUart 1 = Some r /\
     uartTransmitService nUart s = Some (set_uartReadyTx r s)).
Proof.
  intros V F G W. split.
  - intros Hf. split.
    + intros j L.
      destruct (transmit_events_drain nUart f j V Hf s b F G W L)
        as (s' & b' & E & G' & _ & C & U & R & B).
      exists s', b'. auto 10.
    + destruct (transmit_events_drain nUart f (length (contents b)) V Hf
                  s b F G W ltac:(lia))
        as (s1 & b1 & E & G1 & W1 & C1 & U & R & B).
      rewrite drop_all in C1. rewrite firstn_all in U.
      assert (F1 : Array2.get (uartBufferedTx s1) nUart = Some f)
        by (rewrite B; exact F).
      destruct (transmit_event_done nUart s1 b1 f V F1 Hf G1
                  (proj1 (contents_nil_iff b1 W1) C1))
        as (fl & r & Hfl & Hr & E1).
      exists (set_uartReadyTx r (set_uartBufferedTx fl s1)), b1.
      rewrite transmit_events_snoc, E. binds.
      split; [exact E1 |]. fields. repeat split; auto.
      * apply (Array2Facts.get_set_eq _ _ _ _ Hr).
      * apply (Array2Facts.get_set_eq _ _ _ _ Hfl).
  - intros ->. apply transmit_event_single; auto.
Qed.

(** ** Receiving *)

(** C5. With a receive callback installed on the channel, a receive
    complete event calls the callback once, with the byte the hardware
    has latched, and does nothing else: the receive buffers and the
    overflow counters are as before. *)
Theorem receive_event_callback nUart c s (rx_func : byte -> App -> App) :
  valid_channel nUart = true ->
  Array2.get (UartRxFunc s) nUart = Some (Some rx_func) ->
  exists s',
    receive_event nUart c s = Some s' /\
    s' = set_app (rx_func c (app s)) (set_hw (latch_rx nUart c (hw s)) s) /\
    app s' = rx_func c (app s) /\
    uartRxBuffer s' = uartRxBuffer s /\
    uartRxOverflow s' = uartRxOverflow s.
Proof.
  intros V F. eexists. split; [| repeat split].
  unfold receive_event, uartReceiveService.
  cbn [UartRxFunc set_hw hw app]. rewrite F. cbn [mbind option_bind].
  destruct (valid_channel_cases nUart V) as [-> | ->]; reflexivity.
Qed.

(** C4 (amended). On a channel without receive callback a receive
    complete event always returns.  While the buffer has room it appends
    the byte, so a run of events queues the bytes in the order of
    arrival.  When the buffer is full the byte is dropped, the buffer is
    as before, and the overflow counter advances by one modulo 2^16: by
    exactly one below 65535, and from 65535 to 0. *)
Theorem receive_event_default nUart c s b v :
  valid_channel nUart = true ->
  Array2.get (UartRxFunc s) nUart = Some None ->
  Array2.get (uartRxBuffer s) nUart = Some b ->
  wf_buffer b = true ->
  Array2.get (uartRxOverflow s) nUart = Some v ->
  (exists s', receive_event nUart c s = Some s') /\
  (datalength b < size b ->
   exists s' b',
     receive_event nUart c s = Some s' /\
     Array2.get (uartRxBuffer s') nUart = Some b' /\
     wf_buffer b' = true /\
     contents b' = contents b ++ [c] /\
     uartRxOverflow s' = uartRxOverflow s) /\
  (forall cs : list byte,
     datalength b + Z.of_nat (length cs) <= size b ->
     exists s' b',
       receive_events nUart cs s = Some s' /\
       Array2.get (uartRxBuffer s') nUart = Some b' /\
       contents b' = contents b ++ cs /\
       uartRxOverflow s' = uartRxOverflow s) /\
  (datalength b = size b ->
   exists s',
     receive_event nUart c s = Some s' /\
     uartRxBuffer s' = uartRxBuffer s /\
     Array2.get (uartRxOverflow s') nUart = Some (u16 (v + 1)) /\
     (0 <= v < 65535 -> u16 (v + 1) = v + 1) /\
     (v = 65535 -> u16 (v + 1) = 0)).
Proof.
  intros V F G W O.
  assert (Hroom : datalength b < size b ->
    exists s' b',
      receive_event nUart c s = Some s' /\
      Array2.get (uartRxBuffer s') nUart = Some b' /\
      wf_buffer b' = true /\
      contents b' = contents b ++ [c] /\
      uartRxOverflow s' = uartRxOverflow s).
  { intros L.
    destruct (receive_event_stored nUart c s b V F G W L)
      as (b' & a & Ha & E & W' & C & _).
    exists (set_uartRxBuffer a (set_hw (latch_rx nUart c (hw s)) s)), b'.
    repeat split; auto. fields.
    apply (Array2Facts.get_set_eq _ _ _ _ Ha). }
  assert (Hfull : datalength b = size b ->
    exists s',
      receive_event nUart c s = Some s' /\
      uartRxBuffer s' = uartRxBuffer s /\
      Array2.get (uartRxOverflow s') nUart = Some (u16 (v + 1)) /\
      (0 <= v < 65535 -> u16 (v + 1) = v + 1) /\
      (v = 65535 -> u16 (v + 1) = 0)).
  { intros L.
    destruct (receive_event_overflow nUart c s b v V F G ltac:(lia) O)
      as (o & Ho & E).
    eexists. split; [exact E |]. fields. repeat split.
    - apply (Array2Facts.get_set_eq _ _ _ _ Ho).
    - intros R. apply u16_small. lia.
    - intros ->. reflexivity. }
  repeat split; auto.
  - pose proof (proj1 (wf_buffer_iff b) W) as (_ & _ & Hd & _).
    destruct (Z.eq_dec (datalength b) (size b)) as [L | L].
    + destruct (Hfull L) as (s' & E & _). eauto.
    + destruct (Hroom ltac:(lia)) as (s' & b' & E & _). eauto.
  - intros cs L.
    destruct (receive_events_stored nUart cs V s b F G W L)
      as (s' & b' & E & G' & _ & C & O').
    exists s', b'. auto.
Qed.

(** C6. [uartReceiveByte] returns 0 when the receive buffer has capacity
    zero or is empty, and otherwise takes the oldest byte out of the
    buffer and returns 1.  [uart0GetByte] and [uart1GetByte] return -1,
    which is no byte value, when the buffer is empty; after one receive
    complete event on an empty buffer they return the byte of that event
    and then -1 again. *)
Theorem receive_byte_or_sentinel nUart s b :
  valid_channel nUart = true ->
  Array2.get (uartRxBuffer s) nUart = Some b ->
  wf_buffer b = true ->
  let getByte := if nUart =? 0 then @uart0GetByte App else uart1GetByte in
  (size b = 0 \/ datalength b = 0 ->
   forall rxData, uartReceiveByte nUart rxData s = Some (0, rxData, s)) /\
  (size b <> 0 -> datalength b <> 0 ->
   exists c b' a,
     contents b = c :: contents b' /\
     wf_buffer b' = true /\
     Array2.set (uartRxBuffer s) nUart b' = Some a /\
     forall rxData,
       uartReceiveByte nUart rxData s
       = Some (1, Some c, set_uartRxBuffer a s)) /\
  (datalength b = 0 -> getByte s = Some (-1, s)) /\
  (forall c, byte_to_int c <> -1 /\ 0 <= byte_to_int c <= 255) /\
  (datalength b = 0 -> 0 < size b ->
   Array2.get (UartRxFunc s) nUart = Some None ->
   forall c, exists s1 s2,
     receive_event nUart c s = Some s1 /\
     getByte s1 = Some (byte_to_int c, s2) /\
     getByte s2 = Some (-1, s2)).
Proof.
  intros V G W getByte.
  pose proof (proj1 (wf_buffer_iff b) W) as (Hs & _ & Hd & _).
  assert (Hnone : forall s0 b0,
    Array2.get (uartRxBuffer s0) nUart = Some b0 ->
    size b0 = 0 \/ datalength b0 = 0 ->
    forall rxData, uartReceiveByte nUart rxData s0 = Some (0, rxData, s0)).
  { intros s0 b0 G0 H rxData. unfold uartReceiveByte. rewrite G0. binds.
    destruct (Z.eq_dec (size b0) 0) as [E | E].
    - rewrite (proj2 (truthy_false _) E). reflexivity.
    - rewrite (truthy_true _ E).
      rewrite (proj2 (truthy_false (datalength b0)) ltac:(lia)).
      reflexivity. }
  assert (Hsome : forall s0 b0,
    Array2.get (uartRxBuffer s0) nUart = Some b0 ->
    wf_buffer b0 = true -> size b0 <> 0 -> datalength b0 <> 0 ->
    exists c b' a,
      contents b0 = c :: contents b' /\
      wf_buffer b' = true /\
      Array2.set (uartRxBuffer s0) nUart b' = Some a /\
      forall rxData,
        uartReceiveByte nUart rxData s0
        = Some (1, Some c, set_uartRxBuffer a s0)).
  { intros s0 b0 G0 W0 E D.
    pose proof (proj1 (wf_buffer_iff b0) W0) as (_ & _ & Hd0 & _).
    destruct (bufferGetFromFront_ok b0 W0 ltac:(lia))
      as (c & b' & P & W' & C & _).
    destruct (Array2Facts.set_is_Some (uartRxBuffer s0) nUart b' V)
      as [a Ha].
    exists c, b', a. repeat split; auto.
    intros rxData. unfold uartReceiveByte. rewrite G0. binds.
    rewrite (truthy_true _ E), (truthy_true _ D), P. binds.
    rewrite Ha. reflexivity. }
  assert (Hget : forall s0 r (rx : option byte) s1,
    uartReceiveByte nUart None s0 = Some (r, rx, s1) ->
    getByte s0 = if truthy r then c1 ← rx; Some (byte_to_int c1, s1)
                 else Some (-1, s1)).
  { intros s0 r rx s1 E. subst getByte.
    destruct (valid_channel_cases nUart V) as [-> | ->];
      cbn [Z.eqb]; unfold uart0GetByte, uart1GetByte; rewrite E;
      reflexivity. }
  split; [eauto |]. split; [eauto |].
  split; [intros D; rewrite (Hget _ _ _ _ (Hnone s b G (or_intror D) None));
          reflexivity |].
  split; [intros c; pose proof (byte_to_int_range c); lia |].
  intros D S F c.
  destruct (receive_event_stored nUart c s b V F G W ltac:(lia))
    as (b1 & a & Ha & E & W1 & C1 & S1 & D1).
  rewrite E.
  set (s1 := set_uartRxBuffer a (set_hw (latch_rx nUart c (hw s)) s)).
  assert (G1 : Array2.get (uartRxBuffer s1) nUart = Some b1)
    by (apply (Array2Facts.get_set_eq _ _ _ _ Ha)).
  destruct (Hsome s1 b1 G1 W1 ltac:(lia) ltac:(lia))
    as (c' & b2 & a2 & C2 & W2 & Ha2 & R).
  rewrite (proj2 (contents_nil_iff b W) D) in C1. cbn [app] in C1.
  rewrite C1 in C2. injection C2 as <- N.
  exists s1, (set_uartRxBuffer a2 s1). split; [reflexivity |].
  split.
  - rewrite (Hget _ _ _ _ (R None)). reflexivity.
  - apply (Hget _ 0 None). apply (Hnone _ b2).
    + fields. apply (Array2Facts.get_set_eq _ _ _ _ Ha2).
    + right. apply (contents_nil_iff b2 W2). auto.
Qed.

(** C7. Whatever the receive buffer holds, after [uartFlushReceiveBuffer]
    the function [uartReceiveBufferIsEmpty] returns true. *)
Theorem flush_then_empty nUart s :
  valid_channel nUart = true ->
  exists s',
    uartFlushReceiveBuffer nUart s = Some s' /\
    uartReceiveBufferIsEmpty nUart s' = Some 1.
Proof.
  intros V.
  destruct (valid_channel_cases nUart V) as [-> | ->];
    eexists; split; reflexivity.
Qed.

(** C10. [uartReceiveByte] returns 0 or 1.  When it returns 0 the variable
    behind [rxData] and the driver state are as before the call; when it
    returns 1 the variable holds the byte taken from the buffer. *)
Theorem uartReceiveByte_writes_on_success nUart (rxData : option byte) s b :
  valid_channel nUart = true ->
  Array2.get (uartRxBuffer s) nUart = Some b ->
  wf_buffer b = true ->
  exists r rxData' s',
    uartReceiveByte nUart rxData s = Some (r, rxData', s') /\
    (r = 0 \/ r = 1) /\
    (r = 0 <-> size b = 0 \/ datalength b = 0) /\
    (r = 0 -> rxData' = rxData /\ s' = s) /\
    (r = 1 -> exists c, rxData' = Some c /\ contents b !! 0%nat = Some c).
Proof.
  intros V G W. unfold uartReceiveByte. rewrite G. cbn [mbind option_bind].
  destruct (Z.eqb_spec (size b) 0) as [E | E].
  { rewrite (proj2 (truthy_false _) E).
    exists 0, rxData, s. repeat split; auto; try lia; try discriminate. }
  rewrite (truthy_true _ E).
  destruct (Z.eqb_spec (datalength b) 0) as [D | D].
  { rewrite (proj2 (truthy_false _) D).
    exists 0, rxData, s. repeat split; auto; try lia; try discriminate. }
  rewrite (truthy_true _ D).
  pose proof (proj1 (wf_buffer_iff b) W) as (_ & _ & Hd & _).
  destruct (bufferGetFromFront_ok b W ltac:(lia))
    as (c & b' & P & _ & C & _).
  rewrite P. cbn [mbind option_bind].
  destruct (Array2Facts.set_is_Some (uartRxBuffer s) nUart b' V) as [a Ha].
  rewrite Ha. cbn [mbind option_bind].
  exists 1, (Some c), (set_uartRxBuffer a s).
  repeat split; auto; try lia; try discriminate.
  intros _. exists c. rewrite C. auto.
Qed.

(** ** The channel number *)

(** C8. [uartSetRxHandler] checks its channel number.  For a number
    below 2 it stores the callback (or the null pointer) in the slot of
    that channel and leaves the other slot alone; for a number from 2 on
    it returns with the whole state as it was.  No other function that
    takes a channel number does that: from 2 on each of them indexes a
    global array out of its bounds, except [uartSetBaudRate], which
    writes the baud rate registers of channel 1. *)
Theorem uartSetRxHandler_guards (cfg : Config) nUart
    (rx_func : option (byte -> App -> App)) s :
  0 <= nUart < 256 ->
  (nUart < 2 ->
   exists a,
     Array2.set (UartRxFunc s) nUart rx_func = Some a /\
     uartSetRxHandler nUart rx_func s = Some (set_UartRxFunc a s) /\
     Array2.get a nUart = Some rx_func /\
     Array2.get a (1 - nUart) = Array2.get (UartRxFunc s) (1 - nUart)) /\
  (2 <= nUart ->
   uartSetRxHandler nUart rx_func s = Some s /\
   uartGetRxBuffer nUart s = None /\
   uartGetTxBuffer nUart s = None /\
   (forall c, uartSendByte nUart c s = None) /\
   (forall rxData, uartReceiveByte nUart rxData s = None) /\
   uartFlushReceiveBuffer nUart s = None /\
   uartReceiveBufferIsEmpty nUart s = None /\
   uartTransmitPending nUart s = None /\
   (forall c, uartAddToTxBuffer nUart c s = None) /\
   uartSendTxBuffer nUart s = None /\
   (forall buffer nBytes, uartSendBuffer nUart buffer nBytes s = None) /\
   uartTransmitService nUart s = None /\
   uartReceiveService nUart s = None /\
   (forall baudrate,
      uartSetBaudRate cfg nUart baudrate s
      = uartSetBaudRate cfg 1 baudrate s)).
Proof.
  intros R. split.
  - intros L. assert (V : valid_channel nUart = true).
    { unfold valid_channel. apply andb_true_iff.
      rewrite Z.leb_le, Z.ltb_lt. lia. }
    destruct (Array2Facts.set_is_Some (UartRxFunc s) nUart rx_func V)
      as [a Ha].
    exists a. split; [exact Ha |]. split; [| split].
    + unfold uartSetRxHandler.
      destruct (Z.ltb_spec nUart 2); [| lia]. rewrite Ha. reflexivity.
    + apply (Array2Facts.get_set_eq _ _ _ _ Ha).
    + apply (Array2Facts.get_set_ne _ _ _ _ _ Ha). lia.
  - intros L.
    assert (N : ~ (0 <= nUart < 2)) by lia.
    assert (T : truthy nUart = true) by (apply truthy_true; lia).
    unfold uartSetRxHandler, uartGetRxBuffer, uartGetTxBuffer, uartSendByte,
      uartReceiveByte, uartFlushReceiveBuffer, uartReceiveBufferIsEmpty,
      uartTransmitPending, uartAddToTxBuffer, uartSendTxBuffer,
      uartSendBuffer, uartTransmitService, uartReceiveService,
      uartSetBaudRate.
    destruct (Z.ltb_spec nUart 2); [lia |].
    rewrite T. fields.
    rewrite !(Array2Facts.get_None _ nUart N).
    rewrite !(Array2Facts.set_None _ nUart _ N).
    repeat split.
Qed.

(** ** The invariant of the ring buffers *)

Lemma bufferAddToEnd_wf b c :
  wf_buffer b = true -> wf_buffer (bufferAddToEnd b c).2 = true.
Proof.
  intros W. pose proof (proj1 (wf_buffer_iff b) W) as (_ & _ & Hd & _).
  destruct (Z.lt_ge_cases (datalength b) (size b)) as [L | L].
  - destruct (bufferAddToEnd_ok b c W L) as (b' & -> & W' & _). exact W'.
  - rewrite (bufferAddToEnd_full b c L). exact W.
Qed.

Lemma bufferGetFromFront_wf b c b' :
  wf_buffer b = true -> bufferGetFromFront b = Some (c, b') ->
  wf_buffer b' = true.
Proof.
  intros W H.
  destruct (Z.lt_ge_cases 0 (datalength b)) as [L | L].
  - destruct (bufferGetFromFront_ok b W L) as (c1 & b1 & E & W1 & _).
    rewrite E in H. injection H as _ <-. exact W1.
  - unfold bufferGetFromFront in H.
    destruct (Z.ltb_spec 0 (datalength b)); [lia | discriminate].
Qed.

Lemma wf_buffers_get (a : arr2 cBuffer) (i : Z) b :
  wf_buffers a = true -> Array2.get a i = Some b -> wf_buffer b = true.
Proof.
  unfold wf_buffers, Array2.get. rewrite andb_true_iff. intros [W0 W1].
  destruct (i =? 0); [intros [= <-]; exact W0 |].
  destruct (i =? 1); [intros [= <-]; exact W1 | discriminate].
Qed.

Lemma wf_buffers_set (a a' : arr2 cBuffer) (i : Z) b :
  wf_buffers a = true -> wf_buffer b = true ->
  Array2.set a i b = Some a' -> wf_buffers a' = true.
Proof.
  unfold wf_buffers, Array2.set. rewrite andb_true_iff. intros [W0 W1] W.
  destruct (i =? 0);
    [intros [= <-]; cbn; rewrite W, W1; reflexivity |].
  destruct (i =? 1);
    [intros [= <-]; cbn; rewrite W, W0; reflexivity | discriminate].
Qed.

Lemma uartSendBuffer_loop_wf nUart (k : nat) :
  forall (buffer : list byte) s s',
    wf_state s = true ->
    uartSendBuffer_loop k nUart buffer s = Some s' ->
    wf_state s' = true.
Proof.
  induction k as [| k IH]; intros buffer s s' W H.
  - injection H as <-. exact W.
  - cbn [uartSendBuffer_loop] in H.
    destruct buffer as [| c rest]; [discriminate |].
    destruct (Array2.get (uartTxBuffer s) nUart) as [b |] eqn:G;
      [| discriminate].
    binds_in H.
    destruct (Array2.set (uartTxBuffer s) nUart (bufferAddToEnd b c).2)
      as [a |] eqn:Ha; [| discriminate].
    binds_in H. apply (IH _ _ _) in H; [exact H |].
    unfold wf_state in *. fields. apply andb_true_iff in W as [Wr Wt].
    rewrite Wr. cbn [andb].
    apply (wf_buffers_set _ _ _ _ Wt (bufferAddToEnd_wf b c
             (wf_buffers_get _ _ _ Wt G)) Ha).
Qed.

Lemma wf_state_rx s (a : arr2 cBuffer) :
  wf_state s = true -> wf_buffers a = true ->
  wf_state (set_uartRxBuffer a s) = true.
Proof.
  unfold wf_state. fields. rewrite !andb_true_iff. tauto.
Qed.

Lemma wf_state_tx s (a : arr2 cBuffer) :
  wf_state s = true -> wf_buffers a = true ->
  wf_state (set_uartTxBuffer a s) = true.
Proof.
  unfold wf_state. fields. rewrite !andb_true_iff. tauto.
Qed.

Lemma wf_state_buffers s :
  wf_state s = true ->
  wf_buffers (uartRxBuffer s) = true /\ wf_buffers (uartTxBuffer s) = true.
Proof. unfold wf_state. apply andb_true_iff. Qed.

(** A state with the same buffers is well formed as well. *)
Lemma wf_state_same s s' :
  uartRxBuffer s' = uartRxBuffer s -> uartTxBuffer s' = uartTxBuffer s ->
  wf_state s = true -> wf_state s' = true.
Proof. unfold wf_state. intros -> ->. auto. Qed.

Lemma cfg_ok_iff (cfg : Config) :
  cfg_ok cfg = true <->
  (Z.of_nat (length (uart0RxData cfg)) = UART0_RX_BUFFER_SIZE cfg /\
   Z.of_nat (length (uart0TxData cfg)) = UART0_TX_BUFFER_SIZE cfg /\
   Z.of_nat (length (uart1RxData cfg)) = UART1_RX_BUFFER_SIZE cfg /\
   Z.of_nat (length (uart1TxData cfg)) = UART1_TX_BUFFER_SIZE cfg) /\
  (UART0_RX_BUFFER_SIZE cfg < 2 ^ 16 /\
   UART0_TX_BUFFER_SIZE cfg < 2 ^ 16 /\
   UART1_RX_BUFFER_SIZE cfg < 2 ^ 16 /\
   UART1_TX_BUFFER_SIZE cfg < 2 ^ 16).
Proof.
  unfold cfg_ok. rewrite !andb_true_iff, !Z.eqb_eq, !Z.ltb_lt. tauto.
Qed.

Lemma uart0InitBuffers_wf (cfg : Config) s s' :
  cfg_ok cfg = true -> wf_state s = true ->
  uart0InitBuffers cfg s = Some s' -> wf_state s' = true.
Proof.
  intros K W H.
  apply cfg_ok_iff in K as ((L0r & L0t & _ & _) & (S0r & S0t & _ & _)).
  apply wf_state_buffers in W as [Wr Wt].
  unfold wf_buffers in Wr, Wt.
  apply andb_true_iff in Wr as [_ Wr]. apply andb_true_iff in Wt as [_ Wt].
  unfold uart0InitBuffers in H. cbn [Array2.set Z.eqb] in H. binds_in H.
  injection H as <-. unfold wf_state, wf_buffers. fields.
  cbn [Array2.elt0 Array2.elt1].
  rewrite Wr, Wt.
  rewrite (proj1 (bufferInit_ok (uart0RxData cfg) _ L0r S0r)).
  rewrite (proj1 (bufferInit_ok (uart0TxData cfg) _ L0t S0t)).
  reflexivity.
Qed.

Lemma uart1InitBuffers_wf (cfg : Config) s s' :
  cfg_ok cfg = true -> wf_state s = true ->
  uart1InitBuffers cfg s = Some s' -> wf_state s' = true.
Proof.
  intros K W H.
  apply cfg_ok_iff in K as ((_ & _ & L1r & L1t) & (_ & _ & S1r & S1t)).
  apply wf_state_buffers in W as [Wr Wt].
  unfold wf_buffers in Wr, Wt.
  apply andb_true_iff in Wr as [Wr _]. apply andb_true_iff in Wt as [Wt _].
  unfold uart1InitBuffers in H. cbn [Array2.set Z.eqb] in H. binds_in H.
  injection H as <-. unfold wf_state, wf_buffers. fields.
  cbn [Array2.elt0 Array2.elt1].
  rewrite Wr, Wt.
  rewrite (proj1 (bufferInit_ok (uart1RxData cfg) _ L1r S1r)).
  rewrite (proj1 (bufferInit_ok (uart1TxData cfg) _ L1t S1t)).
  reflexivity.
Qed.

Lemma uart0Init_wf (cfg : Config) s s' :
  cfg_ok cfg = true -> wf_state s = true ->
  uart0Init cfg s = Some s' -> wf_state s' = true.
Proof.
  intros K W H. unfold uart0Init in H.
  destruct (uart0InitBuffers cfg s) as [s1 |] eqn:E; [| discriminate].
  apply (uart0InitBuffers_wf cfg s s1 K W) in E.
  unfold uartSetBaudRate in H.
  repeat (simplify_option_eq || case_match); exact E.
Qed.

Lemma uart1Init_wf (cfg : Config) s s' :
  cfg_ok cfg = true -> wf_state s = true ->
  uart1Init cfg s = Some s' -> wf_state s' = true.
Proof.
  intros K W H. unfold uart1Init in H.
  destruct (uart1InitBuffers cfg s) as [s1 |] eqn:E; [| discriminate].
  apply (uart1InitBuffers_wf cfg s s1 K W) in E.
  unfold uartSetBaudRate in H.
  repeat (simplify_option_eq || case_match); exact E.
Qed.

Lemma uartSendByte_wf nUart c s s' :
  wf_state s = true -> uartSendByte nUart c s = Some s' ->
  wf_state s' = true.
Proof.
  intros W H. unfold uartSendByte in H.
  repeat (simplify_option_eq || case_match); exact W.
Qed.

Lemma uartReceiveByte_wf nUart (rxData : option byte) s r rxData' s' :
  wf_state s = true ->
  uartReceiveByte nUart rxData s = Some (r, rxData', s') ->
  wf_state s' = true.
Proof.
  intros W H. unfold uartReceiveByte in H.
  destruct (Array2.get (uartRxBuffer s) nUart) as [b |] eqn:G;
    [| discriminate].
  binds_in H.
  destruct (truthy (size b)); [| injection H as <- <- <-; exact W].
  destruct (truthy (datalength b)); [| injection H as <- <- <-; exact W].
  destruct (bufferGetFromFront b) as [[c b'] |] eqn:P; [| discriminate].
  binds_in H.
  destruct (Array2.set (uartRxBuffer s) nUart b') as [a |] eqn:Ha;
    [| discriminate].
  injection H as <- <- <-.
  destruct (wf_state_buffers s W) as [Wr _].
  apply (wf_state_rx s a W).
  apply (wf_buffers_set _ _ _ _ Wr
           (bufferGetFromFront_wf _ _ _ (wf_buffers_get _ _ _ Wr G) P) Ha).
Qed.

Lemma uartAddToTxBuffer_wf nUart c s s' :
  wf_state s = true -> uartAddToTxBuffer nUart c s = Some s' ->
  wf_state s' = true.
Proof.
  intros W H. apply (uartSendBuffer_loop_wf nUart 1 [c] s s' W).
  cbn [uartSendBuffer_loop]. unfold uartAddToTxBuffer in H.
  destruct (Array2.get (uartTxBuffer s) nUart) as [b |]; [| discriminate].
  binds. binds_in H.
  destruct (Array2.set _ _ _) as [a |]; [| discriminate]. exact H.
Qed.

Lemma uartTransmitService_wf nUart s s' :
  wf_state s = true -> uartTransmitService nUart s = Some s' ->
  wf_state s' = true.
Proof.
  intros W H. destruct (wf_state_buffers s W) as [_ Wt].
  unfold uartTransmitService in H.
  destruct (Array2.get (uartBufferedTx s) nUart) as [f |]; [| discriminate].
  binds_in H.
  destruct (truthy f).
  - destruct (Array2.get (uartTxBuffer s) nUart) as [b |]; [| discriminate].
    binds_in H.
    destruct (truthy (datalength b)).
    + destruct (truthy nUart).
      * destruct (Array2.get (uartTxBuffer s) 1) as [b1 |] eqn:G;
          [| discriminate].
        binds_in H.
        destruct (bufferGetFromFront b1) as [[c b'] |] eqn:P;
          [| discriminate].
        binds_in H.
        destruct (Array2.set (uartTxBuffer s) 1 b') as [a |] eqn:Ha;
          [| discriminate].
        injection H as <-.
        apply (wf_state_same (set_uartTxBuffer a s)); try reflexivity.
        apply (wf_state_tx s a W).
        apply (wf_buffers_set _ _ _ _ Wt
                 (bufferGetFromFront_wf _ _ _ (wf_buffers_get _ _ _ Wt G) P)
                 Ha).
      * destruct (Array2.get (uartTxBuffer s) 0) as [b0 |] eqn:G;
          [| discriminate].
        binds_in H.
        destruct (bufferGetFromFront b0) as [[c b'] |] eqn:P;
          [| discriminate].
        binds_in H.
        destruct (Array2.set (uartTxBuffer s) 0 b') as [a |] eqn:Ha;
          [| discriminate].
        injection H as <-.
        apply (wf_state_same (set_uartTxBuffer a s)); try reflexivity.
        apply (wf_state_tx s a W).
        apply (wf_buffers_set _ _ _ _ Wt
                 (bufferGetFromFront_wf _ _ _ (wf_buffers_get _ _ _ Wt G) P)
                 Ha).
    + repeat (simplify_option_eq || case_match); exact W.
  - repeat (simplify_option_eq || case_match); exact W.
Qed.

Lemma uartReceiveService_wf nUart s s' :
  wf_state s = true -> uartReceiveService nUart s = Some s' ->
  wf_state s' = true.
Proof.
  intros W H. destruct (wf_state_buffers s W) as [Wr _].
  unfold uartReceiveService in H.
  destruct (Array2.get (UartRxFunc s) nUart) as [[f |] |]; [| | discriminate];
    binds_in H.
  - injection H as <-. exact W.
  - destruct (Array2.get (uartRxBuffer s) nUart) as [b |] eqn:G;
      [| discriminate].
    binds_in H.
    pose proof (bufferAddToEnd_wf b
      (if truthy nUart then UDR1_rx (hw s) else UDR0_rx (hw s))
      (wf_buffers_get _ _ _ Wr G)) as Wb.
    destruct (bufferAddToEnd b _) as [ok b'].
    cbn [snd] in Wb.
    destruct (Array2.set (uartRxBuffer s) nUart b') as [a |] eqn:Ha;
      [| discriminate].
    binds_in H.
    pose proof (wf_state_rx s a W (wf_buffers_set _ _ _ _ Wr Wb Ha)) as W'.
    destruct ok; cbn [negb] in H.
    + injection H as <-. exact W'.
    + repeat (simplify_option_eq || case_match); exact W'.
Qed.

Lemma uartSendBuffer_wf nUart (buffer : list byte) (nBytes : Z) s r s' :
  wf_state s = true ->
  uartSendBuffer nUart buffer nBytes s = Some (r, s') ->
  wf_state s' = true.
Proof.
  intros W H. unfold uartSendBuffer in H.
  destruct (Array2.get (uartTxBuffer s) nUart) as [b |]; [| discriminate].
  binds_in H.
  destruct ((u16 (datalength b + nBytes) <? size b) && truthy nBytes).
  - destruct buffer as [| first rest]; [discriminate |].
    destruct (uartSendBuffer_loop _ _ _ _) as [s1 |] eqn:E; [| discriminate].
    apply (uartSendBuffer_loop_wf _ _ _ _ _ W) in E.
    binds_in H.
    destruct (Array2.set (uartBufferedTx s1) nUart 1) as [fl |];
      [| discriminate].
    binds_in H.
    destruct (uartSendByte _ _ _) as [s2 |] eqn:E2; [| discriminate].
    injection H as <- <-.
    apply (uartSendByte_wf _ _ (set_uartBufferedTx fl s1) _ E E2).
  - injection H as <- <-. exact W.
Qed.

Lemma uartGetByte_wf nUart s s' :
  wf_state s = true ->
  snd <$> ('(r, c, s1) ← uartReceiveByte nUart None s;
           if truthy r then c ← c; Some (byte_to_int c, s1)
           else Some (-1, s1)) = Some s' ->
  wf_state s' = true.
Proof.
  intros W H.
  destruct (uartReceiveByte nUart None s) as [[[r rx] s1] |] eqn:E;
    [| discriminate].
  apply (uartReceiveByte_wf _ _ _ _ _ _ W) in E. binds_in H.
  destruct (truthy r); [destruct rx as [c |]; [| discriminate] |];
    injection H as <-; exact E.
Qed.

Lemma uartSendTxBuffer_wf nUart s s' :
  wf_state s = true -> uartSendTxBuffer nUart s = Some s' ->
  wf_state s' = true.
Proof.
  intros W H. destruct (wf_state_buffers s W) as [_ Wt].
  unfold uartSendTxBuffer in H.
  destruct (Array2.set (uartBufferedTx s) nUart 1) as [fl |];
    [| discriminate].
  binds_in H. fields_in H.
  destruct (Array2.get (uartTxBuffer s) nUart) as [b |] eqn:G;
    [| discriminate].
  binds_in H.
  destruct (bufferGetFromFront b) as [[c b'] |] eqn:P; [| discriminate].
  binds_in H.
  destruct (Array2.set (uartTxBuffer s) nUart b') as [a |] eqn:Ha;
    [| discriminate].
  binds_in H.
  apply (uartSendByte_wf _ _ _ _) in H; [exact H |].
  apply (wf_state_tx (set_uartBufferedTx fl s) a W).
  apply (wf_buffers_set _ _ _ _ Wt
           (bufferGetFromFront_wf _ _ _ (wf_buffers_get _ _ _ Wt G) P) Ha).
Qed.

Lemma uartFlushReceiveBuffer_wf nUart s s' :
  wf_state s = true -> uartFlushReceiveBuffer nUart s = Some s' ->
  wf_state s' = true.
Proof.
  intros W H. destruct (wf_state_buffers s W) as [Wr _].
  unfold uartFlushReceiveBuffer in H.
  destruct (Array2.get (uartRxBuffer s) nUart) as [b |] eqn:G;
    [| discriminate].
  binds_in H.
  destruct (Array2.set (uartRxBuffer s) nUart (bufferFlush b)) as [a |] eqn:Ha;
    [| discriminate].
  injection H as <-. apply (wf_state_rx s a W).
  apply (wf_buffers_set _ _ _ _ Wr
           (proj1 (bufferFlush_ok b (wf_buffers_get _ _ _ Wr G))) Ha).
Qed.

(** Every step keeps the ring buffers well formed. *)
Lemma run_wf (cfg : Config) (c : call App) s s' :
  cfg_ok cfg = true -> wf_state s = true ->
  run cfg c s = Some s' -> wf_state s' = true.
Proof.
  intros K W H.
  destruct c; cbn [run] in H;
    unfold uart0SendByte, uart1SendByte, uart0AddToTxBuffer,
      uart1AddToTxBuffer, SIG_UART0_TRANS, SIG_UART1_TRANS, SIG_UART0_RECV,
      SIG_UART1_RECV in H.
  all: try (unfold uartSetRxHandler,
      uartSetBaudRate, uartGetRxBuffer, uartGetTxBuffer,
      uartReceiveBufferIsEmpty, uartTransmitPending in H;
      repeat (simplify_option_eq || case_match); exact W).
  - unfold uartInit in H.
    destruct (uart0Init cfg s) as [s1 |] eqn:E; [| discriminate].
    apply (uart1Init_wf cfg s1 s' K (uart0Init_wf cfg s s1 K W E) H).
  - apply (uart0Init_wf cfg s s' K W H).
  - apply (uart1Init_wf cfg s s' K W H).
  - apply (uart0InitBuffers_wf cfg s s' K W H).
  - apply (uart1InitBuffers_wf cfg s s' K W H).
  - apply (uartSendByte_wf _ _ _ _ W H).
  - apply (uartSendByte_wf _ _ _ _ W H).
  - apply (uartSendByte_wf _ _ _ _ W H).
  - apply (uartGetByte_wf 0 s s' W H).
  - apply (uartGetByte_wf 1 s s' W H).
  - destruct (uartReceiveByte nUart rxData s) as [[[r rx] s1] |] eqn:E;
      [| discriminate].
    injection H as <-. apply (uartReceiveByte_wf _ _ _ _ _ _ W E).
  - apply (uartFlushReceiveBuffer_wf _ _ _ W H).
  - apply (uartAddToTxBuffer_wf _ _ _ _ W H).
  - apply (uartAddToTxBuffer_wf _ _ _ _ W H).
  - apply (uartAddToTxBuffer_wf _ _ _ _ W H).
  - apply (uartSendTxBuffer_wf _ _ _ W H).
  - destruct (uartSendBuffer nUart buffer nBytes s) as [[r s1] |] eqn:E;
      [| discriminate].
    injection H as <-. apply (uartSendBuffer_wf _ _ _ _ _ _ W E).
  - apply (uartTransmitService_wf _ _ _ W H).
  - apply (uartReceiveService_wf _ _ _ W H).
  - apply (uartTransmitService_wf _ _ _ W H).
  - apply (uartTransmitService_wf _ _ _ W H).
  - apply (uartReceiveService_wf _ _ _ W H).
  - apply (uartReceiveService_wf _ _ _ W H).
Qed.

(** The ring buffers are well formed in every state the driver reaches
    from program start. *)
Lemma reachable_wf (cfg : Config) (x : App) s :
  cfg_ok cfg = true -> reachable cfg x s -> wf_state s = true.
Proof.
  intros K R. induction R as [| c s s' R IH H].
  - reflexivity.
  - apply (run_wf cfg c s s' K IH H).
Qed.

(** ** The overflow counter *)

Lemma uartSendBuffer_loop_overflow nUart (k : nat) :
  forall (buffer : list byte) s s',
    uartSendBuffer_loop k nUart buffer s = Some s' ->
    uartRxOverflow s' = uartRxOverflow s.
Proof.
  induction k as [| k IH]; intros buffer s s' H.
  - injection H as <-. reflexivity.
  - cbn [uartSendBuffer_loop] in H.
    destruct buffer as [| c rest]; [discriminate |].
    destruct (Array2.get (uartTxBuffer s) nUart) as [b |]; [| discriminate].
    binds_in H.
    destruct (Array2.set (uartTxBuffer s) nUart (bufferAddToEnd b c).2)
      as [a |]; [| discriminate].
    binds_in H. apply IH in H. exact H.
Qed.

Lemma uartSendBuffer_overflow nUart (buffer : list byte) (nBytes : Z) s r s' :
  uartSendBuffer nUart buffer nBytes s = Some (r, s') ->
  uartRxOverflow s' = uartRxOverflow s.
Proof.
  unfold uartSendBuffer. intros H.
  destruct (Array2.get (uartTxBuffer s) nUart) as [b |]; [| discriminate].
  binds_in H.
  destruct ((u16 (datalength b + nBytes) <? size b) && truthy nBytes).
  - destruct buffer as [| first rest]; [discriminate |].
    destruct (uartSendBuffer_loop _ _ _ _) as [s1 |] eqn:E; [| discriminate].
    apply uartSendBuffer_loop_overflow in E.
    unfold uartSendByte in H.
    repeat (simplify_option_eq || case_match); exact E.
  - injection H as <- <-. reflexivity.
Qed.

(** The receive interrupt function leaves the overflow counters alone or
    advances the counter of its channel by one, modulo 2^16; the latter
    when no callback is installed and the push has failed. *)
Lemma uartReceiveService_overflow nUart s s' :
  uartReceiveService nUart s = Some s' ->
  uartRxOverflow s' = uartRxOverflow s \/
  exists v o b,
    Array2.get (UartRxFunc s) nUart = Some None /\
    Array2.get (uartRxBuffer s) nUart = Some b /\
    size b <= datalength b /\
    Array2.get (uartRxOverflow s) nUart = Some v /\
    Array2.set (uartRxOverflow s) nUart (u16 (v + 1)) = Some o /\
    uartRxOverflow s' = o.
Proof.
  unfold uartReceiveService. intros H.
  destruct (Array2.get (UartRxFunc s) nUart) as [[f |] |] eqn:F;
    [| | discriminate]; binds_in H.
  - injection H as <-. left. reflexivity.
  - destruct (Array2.get (uartRxBuffer s) nUart) as [b |] eqn:G;
      [| discriminate].
    binds_in H. unfold bufferAddToEnd in H.
    destruct (Z.ltb_spec (datalength b) (size b)) as [L | L].
    + destruct (Array2.set _ _ _) as [a |]; [| discriminate].
      injection H as <-. left. reflexivity.
    + destruct (Array2.set _ _ _) as [a |]; [| discriminate].
      binds_in H. cbn [negb] in H. fields_in H.
      destruct (Array2.get (uartRxOverflow s) nUart) as [v |] eqn:O;
        [| discriminate].
      binds_in H.
      destruct (Array2.set (uartRxOverflow s) nUart (u16 (v + 1)))
        as [o |] eqn:Ho; [| discriminate].
      injection H as <-. right. exists v, o, b. auto 10.
Qed.

(** A receive interrupt on a channel without callback whose buffer is full
    leaves the buffers alone and advances the overflow counter of the
    channel by one, modulo 2^16. *)
Lemma uartReceiveService_full nUart s s' b v :
  Array2.get (UartRxFunc s) nUart = Some None ->
  Array2.get (uartRxBuffer s) nUart = Some b ->
  size b <= datalength b ->
  Array2.get (uartRxOverflow s) nUart = Some v ->
  uartReceiveService nUart s = Some s' ->
  uartRxBuffer s' = uartRxBuffer s /\
  Array2.get (uartRxOverflow s') nUart = Some (u16 (v + 1)).
Proof.
  intros F G L O H. unfold uartReceiveService in H.
  rewrite F in H. binds_in H. rewrite G in H. binds_in H.
  rewrite (bufferAddToEnd_full b _ L) in H.
  rewrite (Array2Facts.set_get_id _ _ _ G) in H. binds_in H.
  cbn [negb] in H. fields_in H. rewrite O in H. binds_in H.
  destruct (Array2.set (uartRxOverflow s) nUart (u16 (v + 1))) as [o |] eqn:Ho;
    [| discriminate].
  injection H as <-. fields. split; [reflexivity |].
  apply (Array2Facts.get_set_eq _ _ _ _ Ho).
Qed.

(** The steps that run the receive interrupt function of channel [n] are
    that function. *)
Lemma is_receive_service_run (cfg : Config) (c : call App) (n : Z) s :
  is_receive_service n c = true ->
  run cfg c s = uartReceiveService n s.
Proof.
  destruct c; cbn [is_receive_service]; try discriminate; intros H.
  - apply Z.eqb_eq in H. subst. reflexivity.
  - apply Z.eqb_eq in H. subst. reflexivity.
  - apply Z.eqb_eq in H. subst. reflexivity.
Qed.

(** C9 (amended). [uartRxOverflow] is written by the initialization of a
    channel, which sets the counter of that channel to 0, and by the
    receive interrupt function when no callback is installed and the push
    into the full receive buffer fails, which advances the counter of its
    channel by one modulo 2^16; every other step, and the receive
    interrupt function in every other case, leaves both counters as they
    are.  So under every step other than an initialization a counter
    below 65535 does not decrease; at 65535 the next failed push takes it
    to 0. *)
Theorem uartRxOverflow_steps (cfg : Config) (c : call App) s s' :
  run cfg c s = Some s' ->
  (is_init c = false ->
   uartRxOverflow s' = uartRxOverflow s \/
   exists n v o b,
     is_receive_service n c = true /\
     Array2.get (UartRxFunc s) n = Some None /\
     Array2.get (uartRxBuffer s) n = Some b /\
     size b <= datalength b /\
     (forall x, (bufferAddToEnd b x).1 = false) /\
     Array2.get (uartRxOverflow s) n = Some v /\
     Array2.set (uartRxOverflow s) n (u16 (v + 1)) = Some o /\
     uartRxOverflow s' = o) /\
  (is_init c = false ->
   forall n b v,
     is_receive_service n c = true ->
     Array2.get (UartRxFunc s) n = Some None ->
     Array2.get (uartRxBuffer s) n = Some b ->
     size b <= datalength b ->
     Array2.get (uartRxOverflow s) n = Some v ->
     Array2.get (uartRxOverflow s') n = Some (u16 (v + 1)) /\
     (0 <= v < 65535 -> u16 (v + 1) = v + 1) /\
     (v = 65535 -> u16 (v + 1) = 0)) /\
  (is_init c = false ->
   forall n v v',
     Array2.get (uartRxOverflow s) n = Some v ->
     Array2.get (uartRxOverflow s') n = Some v' ->
     (v' = v \/ v' = u16 (v + 1)) /\
     (0 <= v < 65535 -> v <= v')) /\
  (is_init c = true ->
   (c <> call_uart1Init -> Array2.get (uartRxOverflow s') 0 = Some 0) /\
   (c <> call_uart0Init -> Array2.get (uartRxOverflow s') 1 = Some 0)).
Proof.
  intros H.
  assert (P1 : is_init c = false ->
    uartRxOverflow s' = uartRxOverflow s \/
    exists n v o b,
      is_receive_service n c = true /\
      Array2.get (UartRxFunc s) n = Some None /\
      Array2.get (uartRxBuffer s) n = Some b /\
      size b <= datalength b /\
      (forall x, (bufferAddToEnd b x).1 = false) /\
      Array2.get (uartRxOverflow s) n = Some v /\
      Array2.set (uartRxOverflow s) n (u16 (v + 1)) = Some o /\
      uartRxOverflow s' = o).
  { intros I. destruct c; cbn [run is_init] in *; try discriminate.
    all: try (unfold uart0InitBuffers, uart1InitBuffers, uartSetRxHandler,
      uartSetBaudRate, uartGetRxBuffer, uartGetTxBuffer, uart0SendByte,
      uart1SendByte, uartSendByte, uart0GetByte, uart1GetByte, uartReceiveByte,
      uartFlushReceiveBuffer, uartReceiveBufferIsEmpty, uartTransmitPending,
      uart0AddToTxBuffer, uart1AddToTxBuffer, uartAddToTxBuffer,
      uartSendTxBuffer, SIG_UART0_TRANS, SIG_UART1_TRANS, uartTransmitService,
      uartSendByte in H;
      left; repeat (simplify_option_eq || case_match); reflexivity).
    - destruct (uartSendBuffer nUart buffer nBytes s) as [[r s1] |] eqn:E;
        [| discriminate].
      injection H as <-. left. apply (uartSendBuffer_overflow _ _ _ _ _ _ E).
    - destruct (uartReceiveService_overflow _ _ _ H)
        as [E | (v & o & b & F & G & L & O & Ho & E)]; [left; exact E |].
      right. exists nUart, v, o, b. cbn [is_receive_service].
      rewrite Z.eqb_refl. repeat split; auto.
      intros x. rewrite (bufferAddToEnd_full b x L). reflexivity.
    - unfold SIG_UART0_RECV in H.
      destruct (uartReceiveService_overflow _ _ _ H)
        as [E | (v & o & b & F & G & L & O & Ho & E)]; [left; exact E |].
      right. exists 0, v, o, b. repeat split; auto.
      intros x. rewrite (bufferAddToEnd_full b x L). reflexivity.
    - unfold SIG_UART1_RECV in H.
      destruct (uartReceiveService_overflow _ _ _ H)
        as [E | (v & o & b & F & G & L & O & Ho & E)]; [left; exact E |].
      right. exists 1, v, o, b. repeat split; auto.
      intros x. rewrite (bufferAddToEnd_full b x L). reflexivity. }
  split; [exact P1 |]. split; [| split].
  - intros I n b v R F G L O.
    rewrite (is_receive_service_run cfg c n s R) in H.
    destruct (uartReceiveService_full n s s' b v F G L O H) as [_ O'].
    split; [exact O' |]. split.
    + intros Rv. apply u16_small. lia.
    + intros ->. reflexivity.
  - intros I n v v' G G'.
    destruct (P1 I) as [E | (m & w & o & b & _ & _ & _ & _ & _ & O & Ho & E)].
    + rewrite E, G in G'. injection G' as <-. split; [auto | lia].
    + rewrite E in G'. destruct (Z.eq_dec m n) as [-> | N].
      * rewrite (Array2Facts.get_set_eq _ _ _ _ Ho) in G'.
        rewrite G in O. injection O as <-. injection G' as <-.
        split; [auto |]. intros R; rewrite u16_small by lia; lia.
      * rewrite (Array2Facts.get_set_ne _ _ _ _ _ Ho N), G in G'.
        injection G' as <-. split; [auto | lia].
  - intros I. destruct c; cbn [run is_init] in *; try discriminate.
    + unfold uartInit, uart0Init, uart1Init, uart0InitBuffers,
        uart1InitBuffers, uartSetBaudRate in H.
      repeat (simplify_option_eq || case_match); split; reflexivity.
    + unfold uart0Init, uart0InitBuffers, uartSetBaudRate in H.
      repeat (simplify_option_eq || case_match);
        (split; [reflexivity | congruence]).
    + unfold uart1Init, uart1InitBuffers, uartSetBaudRate in H.
      repeat (simplify_option_eq || case_match);
        (split; [congruence | reflexivity]).
Qed.

End DriverFacts.

(** * The statements at concrete inputs *)

(** The boundary of the headroom test: with capacity 8 and occupancy 3 a
    request for 4 bytes is accepted, a request for 5 bytes is refused, and
    a request for no bytes is refused; a refused request changes nothing. *)
Example uartSendBuffer_boundary :
  datalength <$> Array2.get (uartTxBuffer tx_8_3) 0 = Some 3 /\
  size <$> Array2.get (uartTxBuffer tx_8_3) 0 = Some 8 /\
  fst <$> uartSendBuffer 0 [x31; x32; x33; x34] 4 tx_8_3 = Some 1 /\
  uartSendBuffer 0 [x31; x32; x33; x34; x35] 5 tx_8_3 = Some (0, tx_8_3) /\
  uartSendBuffer 0 [x31] 0 tx_8_3 = Some (0, tx_8_3).
Proof. repeat split; vm_compute; reflexivity. Qed.

(** ** Counterexamples to the statements as they were written *)

(** C4 as written ("incremented by exactly 1") fails at the largest value
    of the counter: the next lost byte takes it from 65535 to 0. *)
Lemma receive_overflow_increment_counterexample :
  ~ (forall (s : State (list byte)) (nUart : Z) (c : byte) (b : cBuffer)
       (v : Z),
       valid_channel nUart = true ->
       Array2.get (UartRxFunc s) nUart = Some None ->
       Array2.get (uartRxBuffer s) nUart = Some b ->
       wf_buffer b = true ->
       datalength b = size b ->
       Array2.get (uartRxOverflow s) nUart = Some v ->
       exists s',
         receive_event nUart c s = Some s' /\
         Array2.get (uartRxOverflow s') nUart = Some (v + 1)).
Proof.
  intros H.
  destruct (H rx_full_max 0 x63 (queue_of 2 [x61; x62]) 65535)
    as (s' & E & O); try reflexivity.
  vm_compute in E. injection E as <-. vm_compute in O. discriminate.
Qed.

Lemma run_all_reachable {App : Type} (cfg : Config) (x : App)
    (cs : list (call App)) :
  forall s s',
    reachable cfg x s -> run_all cfg cs s = Some s' -> reachable cfg x s'.
Proof.
  induction cs as [| c cs IH]; intros s s' R H.
  - injection H as <-. exact R.
  - cbn [run_all] in H.
    destruct (run cfg c s) as [s1 |] eqn:E; [| discriminate].
    apply (IH s1 s' (reachable_step cfg x c s s1 R E) H).
Qed.

(** C9 as written ("no reachable step decreases it") fails in a state the
    driver reaches from program start: after 65535 lost bytes on channel 0
    the next receive complete event takes the counter from 65535 to 0. *)
Lemma uartRxOverflow_monotone_counterexample :
  ~ (forall (c : call (list byte)) (s s' : State (list byte)) (n v v' : Z),
       reachable demo_cfg [] s ->
       is_init c = false ->
       run demo_cfg c s = Some s' ->
       Array2.get (uartRxOverflow s) n = Some v ->
       Array2.get (uartRxOverflow s') n = Some v' ->
       v <= v').
Proof.
  intros H.
  destruct (run_all demo_cfg overflow_run (boot_state [])) as [s |] eqn:E;
    [| vm_compute in E; discriminate].
  assert (O : (s0 ← run_all demo_cfg overflow_run (boot_state []);
               Array2.get (uartRxOverflow s0) 0) = Some 65535)
    by (vm_compute; reflexivity).
  assert (O' : (s0 ← run_all demo_cfg overflow_run (boot_state []);
                s1 ← run demo_cfg call_SIG_UART0_RECV s0;
                Array2.get (uartRxOverflow s1) 0) = Some 0)
    by (vm_compute; reflexivity).
  rewrite E in O, O'. cbn [mbind option_bind] in O, O'.
  destruct (run demo_cfg call_SIG_UART0_RECV s) as [s' |] eqn:E';
    [| discriminate].
  cbn [mbind option_bind] in O'.
  pose proof (H call_SIG_UART0_RECV s s' 0 65535 0
                (run_all_reachable demo_cfg [] overflow_run _ _
                   (reachable_boot demo_cfg []) E)
                eq_refl E' O O').
  lia.
Qed.

(** ** The theorems at concrete inputs *)

(** C1 at the boundary: capacity 8, occupancy 3, four bytes. *)
Lemma uartSendBuffer_headroom_witness :
  exists r s',
    uartSendBuffer 0 [x31; x32; x33; x34] 4 tx_8_3 = Some (r, s') /\
    (r = 0 \/ r = 1) /\
    (r = 1 <-> 3 + 4 < 8 /\ 0 < 4).
Proof.
  destruct (uartSendBuffer_headroom 0 [x31; x32; x33; x34] 4 tx_8_3
              (queue_of 8 [x61; x62; x63]))
    as (r & s' & E & R01 & R1 & _);
    [reflexivity | reflexivity | reflexivity
    | split; [lia | vm_compute; discriminate] | vm_compute; reflexivity |].
  exists r, s'. split; [exact E |]. split; [exact R01 | exact R1].
Defined.

(** C2 for the same call: "1" goes to the data register and "234" is
    queued behind "abc". *)
Lemma uartSendBuffer_success_witness :
  exists s' b',
    uartSendBuffer 0 [x31; x32; x33; x34] 4 tx_8_3 = Some (1, s') /\
    Array2.get (uartTxBuffer s') 0 = Some b' /\
    contents b' = [x61; x62; x63; x32; x33; x34] /\
    datalength b' = 6 /\
    UDR_tx 0 (hw s') = [x31] /\
    Array2.get (uartBufferedTx s') 0 = Some 1.
Proof.
  destruct (uartSendBuffer_ok 0 x31 [x32; x33; x34] 4 tx_8_3
              (queue_of 8 [x61; x62; x63]))
    as (s' & _ & E & _);
    [reflexivity | reflexivity | reflexivity | lia | vm_compute; reflexivity
    | vm_compute; discriminate |].
  destruct (uartSendBuffer_success 0 [x31; x32; x33; x34] 4 tx_8_3
              (queue_of 8 [x61; x62; x63]) s')
    as (first & rest & b' & B & G & _ & C & D & F & _ & U & _);
    [reflexivity | reflexivity | reflexivity
    | split; [lia | vm_compute; discriminate] | vm_compute; reflexivity
    | exact E |].
  injection B as <- <-.
  exists s', b'. split; [exact E |]. split; [exact G |].
  split; [exact C |]. split; [exact D |]. split; [exact U | exact F].
Defined.

(** C3 on channel 0 with the bytes "abc" queued: four transmit complete
    events send the three bytes and end the buffered transmission. *)
Lemma transmit_events_fifo_witness :
  valid_channel 0 = true /\
  wf_buffer (queue_of 8 [x61; x62; x63]) = true /\
  exists s' b',
    transmit_events 4 0 tx_busy = Some s' /\
    UDR_tx 0 (hw s') = UDR_tx 0 (hw tx_busy) ++ [x61; x62; x63] /\
    Array2.get (uartTxBuffer s') 0 = Some b' /\
    contents b' = [] /\
    Array2.get (uartReadyTx s') 0 = Some 1 /\
    Array2.get (uartBufferedTx s') 0 = Some 0.
Proof.
  split; [reflexivity |]. split; [reflexivity |].
  apply (transmit_events_fifo 0 tx_busy (queue_of 8 [x61; x62; x63]) 1);
    [reflexivity | reflexivity | reflexivity | reflexivity | discriminate].
Defined.

(** C4 on channel 0 with a full buffer and the counter at 41. *)
Lemma receive_event_default_witness :
  valid_channel 0 = true /\
  wf_buffer (queue_of 2 [x61; x62]) = true /\
  exists s',
    receive_event 0 x63
      (demo_state (queue_of 2 [x61; x62]) (queue_of 8 []) 41 0 None)
    = Some s'.
Proof.
  split; [reflexivity |]. split; [reflexivity |].
  apply (receive_event_default 0 x63
           (demo_state (queue_of 2 [x61; x62]) (queue_of 8 []) 41 0 None)
           (queue_of 2 [x61; x62]) 41);
    reflexivity.
Defined.

(** C5 on channel 1 with the recording callback. *)
Lemma receive_event_callback_witness :
  valid_channel 1 = true /\
  exists s',
    receive_event 1 x7a rx_callback = Some s' /\
    s' = set_app (log_byte x7a (app rx_callback))
           (set_hw (latch_rx 1 x7a (hw rx_callback)) rx_callback) /\
    app s' = log_byte x7a (app rx_callback) /\
    uartRxBuffer s' = uartRxBuffer rx_callback /\
    uartRxOverflow s' = uartRxOverflow rx_callback.
Proof.
  split; [reflexivity |].
  apply (receive_event_callback 1 x7a rx_callback log_byte); reflexivity.
Defined.

(** C6 on channel 0 with an empty buffer of capacity 4. *)
Lemma receive_byte_or_sentinel_witness :
  valid_channel 0 = true /\
  wf_buffer (queue_of 4 []) = true /\
  (forall c, exists s1 s2,
     receive_event 0 c rx_none = Some s1 /\
     uart0GetByte s1 = Some (byte_to_int c, s2) /\
     uart0GetByte s2 = Some (-1, s2)).
Proof.
  split; [reflexivity |]. split; [reflexivity |].
  apply (receive_byte_or_sentinel 0 rx_none (queue_of 4 []));
    reflexivity.
Defined.

(** C7 on channel 1 with one byte waiting. *)
Lemma flush_then_empty_witness :
  valid_channel 1 = true /\
  exists s',
    uartFlushReceiveBuffer 1 rx_one = Some s' /\
    uartReceiveBufferIsEmpty 1 s' = Some 1.
Proof.
  split; [reflexivity |].
  apply (flush_then_empty 1 rx_one). reflexivity.
Defined.

(** C8 at channel number 2. *)
Lemma uartSetRxHandler_guards_witness :
  0 <= 2 < 256 /\
  uartSetRxHandler 2 (Some log_byte) rx_none = Some rx_none /\
  uartReceiveService 2 rx_none = None.
Proof.
  split; [lia |].
  destruct (uartSetRxHandler_guards demo_cfg 2 (Some log_byte) rx_none)
    as [_ H]; [lia |].
  destruct (H ltac:(lia)) as (H1 & _ & _ & _ & _ & _ & _ & _ & _ & _ & _
                               & _ & H2 & _).
  split; [exact H1 | exact H2].
Defined.

(** C9 at the receive complete event that wraps the counter. *)
Lemma uartRxOverflow_steps_witness :
  run demo_cfg call_SIG_UART0_RECV rx_full_max = Some rx_full_wrapped /\
  Array2.get (uartRxOverflow rx_full_max) 0 = Some 65535 /\
  Array2.get (uartRxOverflow rx_full_wrapped) 0 = Some 0 /\
  uartRxOverflow rx_full_wrapped
  <> uartRxOverflow rx_full_max.
Proof.
  split; [reflexivity |]. split; [reflexivity |].
  destruct (uartRxOverflow_steps demo_cfg call_SIG_UART0_RECV rx_full_max
              rx_full_wrapped eq_refl) as (_ & H & _).
  split; [| discriminate].
  apply (H eq_refl 0 (queue_of 2 [x61; x62]) 65535);
    [reflexivity | reflexivity | reflexivity | vm_compute; discriminate
    | reflexivity].
Defined.

(** C10 on channel 0 with one byte waiting. *)
Lemma uartReceiveByte_writes_on_success_witness :
  valid_channel 0 = true /\
  wf_buffer (queue_of 4 [x61]) = true /\
  exists r rxData' s',
    uartReceiveByte 0 (Some x00) rx_one = Some (r, rxData', s') /\
    (r = 0 \/ r = 1) /\
    (r = 0 <-> size (queue_of 4 [x61]) = 0 \/
               datalength (queue_of 4 [x61]) = 0) /\
    (r = 0 -> rxData' = Some x00 /\ s' = rx_one) /\
    (r = 1 -> exists c, rxData' = Some c /\
                        contents (queue_of 4 [x61]) !! 0%nat = Some c).
Proof.
  split; [reflexivity |]. split; [reflexivity |].
  apply (uartReceiveByte_writes_on_success 0 (Some x00) rx_one
           (queue_of 4 [x61]));
    reflexivity.
Defined.

(** * Further properties of the driver *)

Section DriverExtras.
Context {App : Type}.
Implicit Types (s : State App) (nUart : Z) (c : byte) (b : cBuffer).

Ltac unfold_calls H :=
  unfold uartInit, uart0Init, uart1Init, uart0InitBuffers, uart1InitBuffers,
    uartSetRxHandler, uartSetBaudRate, uartGetRxBuffer, uartGetTxBuffer,
    uart0SendByte, uart1SendByte, uartSendByte, uart0GetByte, uart1GetByte,
    uartReceiveByte, uartFlushReceiveBuffer, uartReceiveBufferIsEmpty,
    uartTransmitPending, uart0AddToTxBuffer, uart1AddToTxBuffer,
    uartAddToTxBuffer, uartSendTxBuffer, SIG_UART0_TRANS, SIG_UART1_TRANS,
    uartTransmitService, SIG_UART0_RECV, SIG_UART1_RECV, uartReceiveService,
    uartSendByte in H.


Lemma uartSendBuffer_loop_frame nUart (k : nat) :
  forall (buffer : list byte) s s',
    uartSendBuffer_loop k nUart buffer s = Some s' ->
    exists a,
      s' = set_uartTxBuffer a s /\
      forall m, m <> nUart ->
        Array2.get a m = Array2.get (uartTxBuffer s) m.
Proof.
  induction k as [| k IH]; intros buffer s s' H.
  - injection H as <-. exists (uartTxBuffer s). split; [| auto].
    destruct s; reflexivity.
  - cbn [uartSendBuffer_loop] in H.
    destruct buffer as [| c rest]; [discriminate |].
    destruct (Array2.get (uartTxBuffer s) nUart) as [b |]; [| discriminate].
    binds_in H.
    destruct (Array2.set (uartTxBuffer s) nUart (bufferAddToEnd b c).2)
      as [a1 |] eqn:Ha1; [| discriminate].
    binds_in H. destruct (IH _ _ _ H) as (a & -> & Ho).
    exists a. split; [reflexivity |].
    intros m Hm. rewrite (Ho m Hm). fields.
    apply (Array2Facts.get_set_ne _ _ _ _ _ Ha1). auto.
Qed.

Lemma uartSendBuffer_other nUart (buffer : list byte) (nBytes : Z) s r s'
    (m : Z) :
  uartSendBuffer nUart buffer nBytes s = Some (r, s') ->
  valid_channel nUart = true -> valid_channel m = true -> m <> nUart ->
  channel_vars m s' = channel_vars m s /\
  channel_regs m (hw s') = channel_regs m (hw s).
Proof.
  intros H Vn Vm Hm. unfold uartSendBuffer in H.
  destruct (Array2.get (uartTxBuffer s) nUart) as [b |]; [| discriminate].
  binds_in H.
  destruct ((u16 (datalength b + nBytes) <? size b) && truthy nBytes);
    [| injection H as <- <-; split; reflexivity].
  destruct buffer as [| first rest]; [discriminate |].
  destruct (uartSendBuffer_loop _ _ _ _) as [s1 |] eqn:E; [| discriminate].
  destruct (uartSendBuffer_loop_frame _ _ _ _ _ E) as (a & -> & Ho).
  specialize (Ho m Hm). binds_in H. unfold uartSendByte in H.
  unfold channel_vars.
  destruct (valid_channel_cases nUart Vn) as [-> | ->];
    destruct (valid_channel_cases m Vm) as [-> | ->]; try lia;
    repeat (simplify_option_eq || case_match); fields.
    all: unfold Array2.get; cbn [Z.eqb Pos.eqb]; rewrite Ho; split;
      reflexivity.
Qed.

(** X5. The two channels are independent: a step on one channel ([n] in
    0..1) changes none of the driver variables and none of the registers
    of the other channel. *)
Theorem other_channel_untouched (cfg : Config) (c : call App) s s' (n m : Z) :
  call_channel c = Some n ->
  valid_channel n = true -> valid_channel m = true -> m <> n ->
  run cfg c s = Some s' ->
  channel_vars m s' = channel_vars m s /\
  channel_regs m (hw s') = channel_regs m (hw s).
Proof.
  intros C Vn Vm Hm H.
  destruct c; cbn [call_channel] in C; try discriminate;
    try (injection C as <-); cbn [run] in H.
  all: try match type of H with
    | snd <$> uartSendBuffer ?n ?bf ?nb ?s0 = Some _ =>
        destruct (uartSendBuffer n bf nb s0) as [[r s1] |] eqn:E;
          [| discriminate];
        injection H as <-;
        exact (uartSendBuffer_other _ _ _ _ _ _ _ E Vn Vm Hm)
    end.
  all: destruct (valid_channel_cases _ Vn) as [E | E]; try subst;
    destruct (valid_channel_cases m Vm) as [-> | ->]; try lia.
  all: unfold_calls H;
    repeat (simplify_option_eq || case_match); split; reflexivity.
Qed.

Lemma uartSendBuffer_frame nUart (buffer : list byte) (nBytes : Z) s r s' :
  uartSendBuffer nUart buffer nBytes s = Some (r, s') ->
  r = 0 /\ s' = s \/
  r = 1 /\
  exists a fl rd,
    Array2.set (uartBufferedTx s) nUart 1 = Some fl /\
    Array2.set (uartReadyTx s) nUart 0 = Some rd /\
    exists first,
      s' = set_uartReadyTx rd
             (set_hw (if truthy nUart then outb_UDR1 first (hw s)
                      else outb_UDR0 first (hw s))
                (set_uartBufferedTx fl (set_uartTxBuffer a s))).
Proof.
  intros H. unfold uartSendBuffer in H.
  destruct (Array2.get (uartTxBuffer s) nUart) as [b |]; [| discriminate].
  binds_in H.
  destruct ((u16 (datalength b + nBytes) <? size b) && truthy nBytes);
    [| injection H as <- <-; left; auto].
  destruct buffer as [| first rest]; [discriminate |].
  destruct (uartSendBuffer_loop _ _ _ _) as [s1 |] eqn:E; [| discriminate].
  destruct (uartSendBuffer_loop_frame _ _ _ _ _ E) as (a & -> & _).
  binds_in H. fields_in H.
  destruct (Array2.set (uartBufferedTx s) nUart 1) as [fl |] eqn:Hfl;
    [| discriminate].
  binds_in H. unfold uartSendByte in H.
  destruct (truthy nUart); fields_in H;
    (destruct (Array2.set (uartReadyTx s) nUart 0) as [rd |] eqn:Hrd;
      [| discriminate]);
    injection H as <- <-; right; split; auto;
    exists a, fl, rd; repeat split; exists first; reflexivity.
Qed.

(** X6. The transmit side and the receive side do not touch each other's
    variables: a transmit-side step leaves the receive buffers, overflow
    counters, callbacks, application state and receive data registers as
    they are, and a receive-side step leaves the transmit buffers, both
    flags and the bytes sent as they are. *)
Theorem sides_are_separate (cfg : Config) (c : call App) s s' :
  run cfg c s = Some s' ->
  (is_transmit_side c = true ->
   uartRxBuffer s' = uartRxBuffer s /\
   uartRxOverflow s' = uartRxOverflow s /\
   UartRxFunc s' = UartRxFunc s /\
   app s' = app s /\
   UDR0_rx (hw s') = UDR0_rx (hw s) /\
   UDR1_rx (hw s') = UDR1_rx (hw s)) /\
  (is_receive_side c = true ->
   uartTxBuffer s' = uartTxBuffer s /\
   uartReadyTx s' = uartReadyTx s /\
   uartBufferedTx s' = uartBufferedTx s /\
   UDR0_tx (hw s') = UDR0_tx (hw s) /\
   UDR1_tx (hw s') = UDR1_tx (hw s)).
Proof.
  intros H.
  split; intros I; destruct c; cbn [is_transmit_side is_receive_side] in I;
    try discriminate; cbn [run] in H.
  all: try match type of H with
    | snd <$> uartSendBuffer ?n ?bf ?nb ?s0 = Some _ =>
        destruct (uartSendBuffer n bf nb s0) as [[r s1] |] eqn:E;
          [| discriminate];
        injection H as <-;
        destruct (uartSendBuffer_frame _ _ _ _ _ _ E)
          as [[_ ->] | (_ & a & fl & rd & _ & _ & first & ->)];
          [auto 10 |];
        destruct (truthy n); auto 10
    end.
  all: unfold_calls H;
    repeat (simplify_option_eq || case_match); auto 10.
  all: unfold latch_rx; destruct (truthy nUart); auto 10.
Qed.


Lemma vars_ok_iff s :
  vars_ok s = true <->
  let r0 := Array2.elt0 (uartReadyTx s) in
  let r1 := Array2.elt1 (uartReadyTx s) in
  let f0 := Array2.elt0 (uartBufferedTx s) in
  let f1 := Array2.elt1 (uartBufferedTx s) in
  let v0 := Array2.elt0 (uartRxOverflow s) in
  let v1 := Array2.elt1 (uartRxOverflow s) in
  ((r0 = 0 \/ r0 = 1) /\ (f0 = 0 \/ f0 = 1 /\ r0 = 0)) /\
  ((r1 = 0 \/ r1 = 1) /\ (f1 = 0 \/ f1 = 1 /\ r1 = 0)) /\
  0 <= v0 < 2 ^ 16 /\ 0 <= v1 < 2 ^ 16.
Proof.
  unfold vars_ok, flags_ok, counter_ok. cbv zeta.
  rewrite !andb_true_iff, !orb_true_iff, !andb_true_iff, !Z.eqb_eq,
    !Z.leb_le, !Z.ltb_lt.
  tauto.
Qed.

Lemma u16_range (x : Z) : 0 <= u16 x < 2 ^ 16.
Proof. unfold u16. apply Z.mod_pos_bound. lia. Qed.

Ltac array_cases :=
  repeat match goal with
         | Hs : Array2.set _ _ _ = Some _ |- _ => unfold Array2.set in Hs
         | Hs : Array2.get _ _ = Some _ |- _ => unfold Array2.get in Hs
         | Ht : truthy _ = false |- _ => apply truthy_false in Ht
         end;
  repeat (case_match; simplify_eq).

Ltac vars_ok_tac W :=
  array_cases;
  apply vars_ok_iff; apply vars_ok_iff in W; cbv zeta in *;
  fields; cbn [Array2.elt0 Array2.elt1] in *;
  repeat match goal with
         | |- context [u16 ?x] => pose proof (u16_range x);
                                   generalize dependent (u16 x); intros
         end;
  lia.

Lemma run_vars_ok (cfg : Config) (c : call App) s s' :
  vars_ok s = true -> run cfg c s = Some s' -> vars_ok s' = true.
Proof.
  intros W H. destruct c; cbn [run] in H.
  all: try match type of H with
    | snd <$> uartSendBuffer ?n ?bf ?nb ?s0 = Some _ =>
        destruct (uartSendBuffer n bf nb s0) as [[r s1] |] eqn:E;
          [| discriminate];
        injection H as <-;
        destruct (uartSendBuffer_frame _ _ _ _ _ _ E)
          as [[_ ->] | (_ & a & fl & rd & Hfl & Hrd & first & ->)];
          [exact W |];
        vars_ok_tac W
    end.
  all: unfold_calls H;
    repeat (simplify_option_eq || case_match); try exact W.
  all: vars_ok_tac W.
Qed.


(** ** Receiving, continued *)

Lemma uartReceiveByte_none nUart (rxData : option byte) s b :
  Array2.get (uartRxBuffer s) nUart = Some b ->
  size b = 0 \/ datalength b = 0 ->
  uartReceiveByte nUart rxData s = Some (0, rxData, s).
Proof.
  intros G H. unfold uartReceiveByte. rewrite G. binds.
  destruct (Z.eq_dec (size b) 0) as [E | E].
  - rewrite (proj2 (truthy_false _) E). reflexivity.
  - rewrite (truthy_true _ E).
    rewrite (proj2 (truthy_false (datalength b)) ltac:(lia)). reflexivity.
Qed.

Lemma uartReceiveByte_some nUart s b :
  valid_channel nUart = true ->
  Array2.get (uartRxBuffer s) nUart = Some b ->
  wf_buffer b = true -> datalength b <> 0 ->
  exists c b' a,
    contents b = c :: contents b' /\
    wf_buffer b' = true /\
    size b' = size b /\
    Array2.set (uartRxBuffer s) nUart b' = Some a /\
    forall rxData,
      uartReceiveByte nUart rxData s = Some (1, Some c, set_uartRxBuffer a s).
Proof.
  intros V G W D.
  pose proof (proj1 (wf_buffer_iff b) W) as (_ & _ & Hd & _).
  destruct (bufferGetFromFront_ok b W ltac:(lia))
    as (c & b' & P & W' & C & S & _).
  destruct (Array2Facts.set_is_Some (uartRxBuffer s) nUart b' V) as [a Ha].
  exists c, b', a. repeat split; auto.
  intros rxData. unfold uartReceiveByte. rewrite G. binds.
  rewrite (truthy_true (size b)) by lia.
  rewrite (truthy_true _ D), P. binds. rewrite Ha. reflexivity.
Qed.

(** Reading until "no data" returns the queued bytes, oldest first, and
    leaves the buffer empty. *)
Lemma receive_bytes_drain nUart (q : list byte) :
  valid_channel nUart = true ->
  forall s b (k : nat),
    Array2.get (uartRxBuffer s) nUart = Some b ->
    wf_buffer b = true ->
    contents b = q ->
    (length q < k)%nat ->
    exists s' b',
      receive_bytes k nUart s = Some (q, s') /\
      Array2.get (uartRxBuffer s') nUart = Some b' /\
      wf_buffer b' = true /\
      datalength b' = 0 /\
      size b' = size b /\
      uartRxOverflow s' = uartRxOverflow s.
Proof.
  intros V. induction q as [| c q IH]; intros s b k G W C L.
  - destruct k as [| k]; [cbn in L; lia |].
    exists s, b. cbn [receive_bytes].
    rewrite (uartReceiveByte_none nUart None s b G
               (or_intror (proj1 (contents_nil_iff b W) C))).
    binds. change (truthy 0) with false. cbv iota.
    repeat split; auto. apply (contents_nil_iff b W). exact C.
  - destruct k as [| k]; [cbn in L; lia |]. cbn [length] in L.
    assert (D : datalength b <> 0).
    { intros D. apply (contents_nil_iff b W) in D. congruence. }
    destruct (uartReceiveByte_some nUart s b V G W D)
      as (c' & b1 & a & C1 & W1 & S1 & Ha & R).
    rewrite C in C1. injection C1 as <- C1.
    destruct (IH (set_uartRxBuffer a s) b1 k)
      as (s' & b' & E & G' & W' & D' & S' & O');
      auto; try lia.
    { fields. apply (Array2Facts.get_set_eq _ _ _ _ Ha). }
    exists s', b'. cbn [receive_bytes]. rewrite (R None). binds.
    change (truthy 1) with true. cbv iota. binds. rewrite E. binds.
    repeat split; auto. congruence.
Qed.

(** X9. Bytes that arrive while the receive buffer has room for them are
    read back by successive calls of [uartReceiveByte] in the order of
    arrival, behind the bytes that were waiting before; the call after
    the last byte reports "no data", the buffer is empty again and no
    overflow was counted. *)
Theorem receive_round_trip nUart (cs : list byte) s b :
  valid_channel nUart = true ->
  Array2.get (UartRxFunc s) nUart = Some None ->
  Array2.get (uartRxBuffer s) nUart = Some b ->
  wf_buffer b = true ->
  datalength b + Z.of_nat (length cs) <= size b ->
  exists s1 s2,
    receive_events nUart cs s = Some s1 /\
    receive_bytes (S (length (contents b ++ cs))) nUart s1
    = Some (contents b ++ cs, s2) /\
    uartReceiveBufferIsEmpty nUart s2 = Some 1 /\
    uartRxOverflow s2 = uartRxOverflow s.
Proof.
  intros V F G W L.
  destruct (receive_events_stored nUart cs V s b F G W L)
    as (s1 & b1 & E & G1 & W1 & C1 & O1).
  destruct (receive_bytes_drain nUart (contents b ++ cs) V s1 b1
              (S (length (contents b ++ cs))) G1 W1 C1 ltac:(lia))
    as (s2 & b2 & E2 & G2 & _ & D2 & _ & O2).
  exists s1, s2. repeat split; auto.
  - unfold uartReceiveBufferIsEmpty. rewrite G2. binds. rewrite D2.
    reflexivity.
  - congruence.
Qed.

(** X10. No received byte goes unaccounted: of a run of receive complete
    events on a channel without callback, the first ones, as many as the
    buffer has free places, are queued in order, and each of the others
    advances the overflow counter by one (modulo 2^16). *)
Theorem receive_events_accounting nUart (cs : list byte) :
  valid_channel nUart = true ->
  forall s b v,
    Array2.get (UartRxFunc s) nUart = Some None ->
    Array2.get (uartRxBuffer s) nUart = Some b ->
    wf_buffer b = true ->
    Array2.get (uartRxOverflow s) nUart = Some v ->
    0 <= v < 2 ^ 16 ->
    let free := Z.to_nat (size b - datalength b) in
    exists s' b',
      receive_events nUart cs s = Some s' /\
      Array2.get (uartRxBuffer s') nUart = Some b' /\
      wf_buffer b' = true /\
      contents b' = contents b ++ take free cs /\
      Array2.get (uartRxOverflow s') nUart
      = Some (u16 (v + Z.of_nat (length cs - free))).
Proof.
  intros V. induction cs as [| c cs IH]; intros s b v F G W O R free.
  - exists s, b. cbn [receive_events length]. rewrite take_nil, app_nil_r.
    replace (v + Z.of_nat (0 - free)) with v by lia.
    rewrite u16_small by lia. auto.
  - pose proof (proj1 (wf_buffer_iff b) W) as (_ & _ & Hd & _).
    destruct (Z.lt_ge_cases (datalength b) (size b)) as [L | L].
    + destruct (receive_event_stored nUart c s b V F G W L)
        as (b1 & a & Ha & E & W1 & C1 & S1 & D1).
      destruct (IH (set_uartRxBuffer a (set_hw (latch_rx nUart c (hw s)) s))
                  b1 v) as (s' & b' & E' & G' & W' & C' & O'); auto.
      { fields. apply (Array2Facts.get_set_eq _ _ _ _ Ha). }
      exists s', b'. cbn [receive_events]. rewrite E. binds.
      repeat split; auto.
      * rewrite C', C1, <- app_assoc. f_equal.
        replace free with (S (Z.to_nat (size b1 - datalength b1)))
          by (subst free; lia).
        reflexivity.
      * rewrite O'. do 2 f_equal. cbn [length]. subst free. lia.
    + destruct (receive_event_overflow nUart c s b v V F G L O)
        as (o & Ho & E).
      destruct (IH (set_uartRxOverflow o (set_hw (latch_rx nUart c (hw s)) s))
                  b (u16 (v + 1))) as (s' & b' & E' & G' & W' & C' & O');
        auto.
      { fields. apply (Array2Facts.get_set_eq _ _ _ _ Ho). }
      { apply u16_range. }
      exists s', b'. cbn [receive_events]. rewrite E. binds.
      assert (Z0 : free = 0%nat) by (subst free; lia).
      repeat split; auto.
      * rewrite C'. rewrite Z0. replace (Z.to_nat (size b - datalength b))
          with 0%nat by lia. reflexivity.
      * rewrite O'. rewrite Z0. cbn [length].
        replace (Z.to_nat (size b - datalength b)) with 0%nat by lia.
        unfold u16. rewrite Z.add_mod_idemp_l by lia. f_equal. f_equal. lia.
Qed.


(** ** Transmitting, continued *)

(** In buffered mode, one transmit complete event more than there are
    bytes queued sends them all and ends the transmission. *)
Lemma transmit_events_flush nUart s b f :
  valid_channel nUart = true ->
  Array2.get (uartBufferedTx s) nUart = Some f -> f <> 0 ->
  Array2.get (uartTxBuffer s) nUart = Some b ->
  wf_buffer b = true ->
  exists s' b',
    transmit_events (S (length (contents b))) nUart s = Some s' /\
    UDR_tx nUart (hw s') = UDR_tx nUart (hw s) ++ contents b /\
    Array2.get (uartTxBuffer s') nUart = Some b' /\
    contents b' = [] /\
    Array2.get (uartReadyTx s') nUart = Some 1 /\
    Array2.get (uartBufferedTx s') nUart = Some 0.
Proof.
  intros V F Hf G W.
  destruct (transmit_events_drain nUart f (length (contents b)) V Hf
              s b F G W ltac:(lia))
    as (s1 & b1 & E & G1 & W1 & C1 & U & R & B).
  rewrite drop_all in C1. rewrite firstn_all in U.
  assert (F1 : Array2.get (uartBufferedTx s1) nUart = Some f)
    by (rewrite B; exact F).
  destruct (transmit_event_done nUart s1 b1 f V F1 Hf G1
              (proj1 (contents_nil_iff b1 W1) C1))
    as (fl & r & Hfl & Hr & E1).
  exists (set_uartReadyTx r (set_uartBufferedTx fl s1)), b1.
  rewrite transmit_events_snoc, E. binds.
  split; [exact E1 |]. fields. repeat split; auto.
  - apply (Array2Facts.get_set_eq _ _ _ _ Hr).
  - apply (Array2Facts.get_set_eq _ _ _ _ Hfl).
Qed.

Lemma add_all_loop nUart (cs : list byte) :
  forall s, add_all nUart cs s = uartSendBuffer_loop (length cs) nUart cs s.
Proof.
  induction cs as [| c cs IH]; intros s; [reflexivity |].
  cbn [add_all length uartSendBuffer_loop]. unfold uartAddToTxBuffer.
  destruct (Array2.get (uartTxBuffer s) nUart) as [b |]; [| reflexivity].
  binds.
  destruct (Array2.set (uartTxBuffer s) nUart (bufferAddToEnd b c).2)
    as [a |]; [| reflexivity].
  binds. apply IH.
Qed.

(** [uartSendTxBuffer] with at least one byte queued takes the oldest
    byte out of the queue and writes it to the data register. *)
Lemma uartSendTxBuffer_ok nUart s b :
  valid_channel nUart = true ->
  Array2.get (uartTxBuffer s) nUart = Some b ->
  wf_buffer b = true -> 0 < datalength b ->
  exists c b' s',
    uartSendTxBuffer nUart s = Some s' /\
    contents b = c :: contents b' /\
    wf_buffer b' = true /\
    Array2.get (uartTxBuffer s') nUart = Some b' /\
    UDR_tx nUart (hw s') = UDR_tx nUart (hw s) ++ [c] /\
    Array2.get (uartBufferedTx s') nUart = Some 1 /\
    Array2.get (uartReadyTx s') nUart = Some 0.
Proof.
  intros V G W D.
  destruct (bufferGetFromFront_ok b W D) as (c & b' & P & W' & C & _).
  destruct (Array2Facts.set_is_Some (uartBufferedTx s) nUart 1 V) as [fl Hfl].
  destruct (Array2Facts.set_is_Some (uartTxBuffer s) nUart b' V) as [a Ha].
  destruct (uartSendByte_ok nUart c
              (set_uartTxBuffer a (set_uartBufferedTx fl s)) V)
    as (r & Hr & E & U).
  exists c, b'. eexists. split.
  { unfold uartSendTxBuffer. rewrite Hfl. binds. fields. rewrite G. binds.
    rewrite P. binds. rewrite Ha. binds. exact E. }
  fields. fields_in U. fields_in Hr. repeat split; auto.
  - apply (Array2Facts.get_set_eq _ _ _ _ Ha).
  - apply (Array2Facts.get_set_eq _ _ _ _ Hfl).
  - apply (Array2Facts.get_set_eq _ _ _ _ Hr).
Qed.

(** X15. Queueing bytes with [uartAddToTxBuffer] and starting the
    transmission with [uartSendTxBuffer] sends all queued bytes in order:
    [uartSendTxBuffer] writes the oldest byte, the transmission is pending,
    and after as many transmit complete events as there were bytes the
    data register has received them all, the queue is empty, and the
    transmitter is ready with buffered mode off. *)
Theorem enqueue_then_send nUart (cs : list byte) s b :
  valid_channel nUart = true ->
  Array2.get (uartTxBuffer s) nUart = Some b ->
  wf_buffer b = true ->
  datalength b + Z.of_nat (length cs) <= size b ->
  contents b ++ cs <> [] ->
  exists s1 s2 s3 b3,
    add_all nUart cs s = Some s1 /\
    uartSendTxBuffer nUart s1 = Some s2 /\
    uartTransmitPending nUart s2 = Some 1 /\
    transmit_events (length (contents b ++ cs)) nUart s2 = Some s3 /\
    UDR_tx nUart (hw s3) = UDR_tx nUart (hw s) ++ contents b ++ cs /\
    Array2.get (uartTxBuffer s3) nUart = Some b3 /\
    contents b3 = [] /\
    uartTransmitPending nUart s3 = Some 0 /\
    Array2.get (uartBufferedTx s3) nUart = Some 0.
Proof.
  intros V G W L N.
  destruct (uartSendBuffer_loop_ok nUart (length cs) V cs s b G W L
              ltac:(lia))
    as (s1 & b1 & a & E1 & -> & Ga & _ & W1 & C1 & _ & D1).
  rewrite firstn_all in C1.
  assert (D : 0 < datalength b1).
  { pose proof (length_contents b1 W1) as Hl. rewrite C1 in Hl.
    destruct (contents b ++ cs); [congruence | cbn [length] in Hl; lia]. }
  destruct (uartSendTxBuffer_ok nUart (set_uartTxBuffer a s) b1 V Ga W1 D)
    as (c & b2 & s2 & E2 & C2 & W2 & G2 & U2 & F2 & R2).
  destruct (transmit_events_flush nUart s2 b2 1 V F2 ltac:(lia) G2 W2)
    as (s3 & b3 & E3 & U3 & G3 & C3 & R3 & F3).
  exists (set_uartTxBuffer a s), s2, s3, b3.
  rewrite add_all_loop, E1.
  replace (length (contents b ++ cs)) with (S (length (contents b2)))
    by (rewrite <- C1, C2; reflexivity).
  repeat split; auto.
  - unfold uartTransmitPending. rewrite R2. reflexivity.
  - rewrite U3, U2. fields. rewrite <- C1, C2, <- app_assoc. reflexivity.
  - unfold uartTransmitPending. rewrite R3. reflexivity.
Qed.

(** X16. A successful [uartSendBuffer] followed by transmit complete
    events sends its first byte at once, then the bytes that were queued
    before the call, then the rest of the block: the first byte of the
    block overtakes the bytes queued earlier.  After occupancy plus
    [nBytes] events the queue is empty and the transmitter is ready. *)
Theorem uartSendBuffer_then_events nUart (first : byte) (rest : list byte)
    (nBytes : Z) s b :
  valid_channel nUart = true ->
  Array2.get (uartTxBuffer s) nUart = Some b ->
  wf_buffer b = true ->
  0 < nBytes ->
  datalength b + nBytes < size b ->
  nBytes - 1 <= Z.of_nat (length rest) ->
  exists s1 s2 b2,
    uartSendBuffer nUart (first :: rest) nBytes s = Some (1, s1) /\
    uartTransmitPending nUart s1 = Some 1 /\
    transmit_events (Z.to_nat (datalength b + nBytes)) nUart s1 = Some s2 /\
    UDR_tx nUart (hw s2)
    = UDR_tx nUart (hw s)
      ++ first :: contents b ++ take (Z.to_nat (nBytes - 1)) rest /\
    Array2.get (uartTxBuffer s2) nUart = Some b2 /\
    contents b2 = [] /\
    uartTransmitPending nUart s2 = Some 0 /\
    Array2.get (uartBufferedTx s2) nUart = Some 0.
Proof.
  intros V G W Hn Hroom Hlen.
  pose proof (proj1 (wf_buffer_iff b) W) as (_ & _ & Hd & _).
  destruct (uartSendBuffer_ok nUart first rest nBytes s b V G W Hn Hroom Hlen)
    as (s1 & b1 & E1 & G1 & W1 & C1 & D1 & F1 & R1 & U1 & _).
  destruct (transmit_events_flush nUart s1 b1 1 V F1 ltac:(lia) G1 W1)
    as (s2 & b2 & E2 & U2 & G2 & C2 & R2 & F2).
  exists s1, s2, b2.
  replace (Z.to_nat (datalength b + nBytes)) with (S (length (contents b1)))
    by (pose proof (length_contents b1 W1); lia).
  repeat split; auto.
  - unfold uartTransmitPending. rewrite R1. reflexivity.
  - rewrite U2, U1, C1, <- app_assoc. reflexivity.
  - unfold uartTransmitPending. rewrite R2. reflexivity.
Qed.

(** X14. [uartAddToTxBuffer] appends the byte to the transmit queue of its
    channel when there is room; on a full buffer it drops the byte and
    changes nothing, and its caller is not told (the function is void). *)
Theorem uartAddToTxBuffer_room_or_drop nUart c s b :
  valid_channel nUart = true ->
  Array2.get (uartTxBuffer s) nUart = Some b ->
  wf_buffer b = true ->
  (datalength b < size b ->
   exists a b',
     uartAddToTxBuffer nUart c s = Some (set_uartTxBuffer a s) /\
     Array2.get a nUart = Some b' /\
     Array2.get a (1 - nUart) = Array2.get (uartTxBuffer s) (1 - nUart) /\
     wf_buffer b' = true /\
     contents b' = contents b ++ [c]) /\
  (datalength b = size b -> uartAddToTxBuffer nUart c s = Some s).
Proof.
  intros V G W. split.
  - intros L.
    destruct (bufferAddToEnd_ok b c W L) as (b' & P & W' & C & _).
    destruct (Array2Facts.set_is_Some (uartTxBuffer s) nUart b' V) as [a Ha].
    exists a, b'. unfold uartAddToTxBuffer. rewrite G. binds. rewrite P.
    cbn [snd]. rewrite Ha. repeat split; auto.
    + apply (Array2Facts.get_set_eq _ _ _ _ Ha).
    + apply (Array2Facts.get_set_ne _ _ _ _ _ Ha).
      destruct (valid_channel_cases nUart V); lia.
  - intros L. unfold uartAddToTxBuffer. rewrite G. binds.
    rewrite (bufferAddToEnd_full b c ltac:(lia)). cbn [snd].
    rewrite (Array2Facts.set_get_id _ _ _ G). binds.
    destruct s; reflexivity.
Qed.

(** X18. In single-byte mode [uartSendByte] writes the byte to the data
    register and makes [uartTransmitPending] return 1; the transmit
    complete event that follows makes it return 0 again.  Neither touches
    the transmit queue. *)
Theorem uartSendByte_cycle nUart c s :
  valid_channel nUart = true ->
  Array2.get (uartBufferedTx s) nUart = Some 0 ->
  exists s1 s2,
    uartSendByte nUart c s = Some s1 /\
    uartTransmitPending nUart s1 = Some 1 /\
    uartTransmitService nUart s1 = Some s2 /\
    uartTransmitPending nUart s2 = Some 0 /\
    UDR_tx nUart (hw s2) = UDR_tx nUart (hw s) ++ [c] /\
    uartTxBuffer s2 = uartTxBuffer s /\
    uartBufferedTx s2 = uartBufferedTx s /\
    uartRxBuffer s2 = uartRxBuffer s.
Proof.
  intros V F.
  destruct (uartSendByte_ok nUart c s V) as (r & Hr & E & U).
  set (s1 := set_uartReadyTx r _) in E.
  destruct (transmit_event_single nUart s1 V F) as (r2 & Hr2 & E2).
  exists s1, (set_uartReadyTx r2 s1). subst s1. fields. fields_in Hr2.
  repeat split; auto.
  - unfold uartTransmitPending. fields.
    rewrite (Array2Facts.get_set_eq _ _ _ _ Hr). reflexivity.
  - unfold uartTransmitPending. fields.
    rewrite (Array2Facts.get_set_eq _ _ _ _ Hr2). reflexivity.
Qed.

Lemma uartSendBuffer_loop_take nUart (k : nat) :
  valid_channel nUart = true ->
  forall (buffer : list byte) s,
    (k <= length buffer)%nat ->
    is_Some (uartSendBuffer_loop k nUart buffer s) /\
    uartSendBuffer_loop k nUart (take k buffer) s
    = uartSendBuffer_loop k nUart buffer s.
Proof.
  intros V. induction k as [| k IH]; intros buffer s L.
  - split; [eexists |]; reflexivity.
  - destruct buffer as [| c rest]; [cbn in L; lia |]. cbn [length] in L.
    cbn [take uartSendBuffer_loop].
    destruct (valid_channel_cases nUart V) as [-> | ->];
      cbn [Array2.get Array2.set Z.eqb]; binds; apply IH; lia.
Qed.

(** X17. [uartSendBuffer] reads at most [nBytes] bytes behind the pointer:
    when the caller's array has [nBytes] bytes the call is defined, and
    its result does not depend on what follows these bytes. *)
Theorem uartSendBuffer_reads_nBytes nUart (buffer : list byte) (nBytes : Z)
    s :
  valid_channel nUart = true ->
  0 <= nBytes <= Z.of_nat (length buffer) ->
  is_Some (uartSendBuffer nUart buffer nBytes s) /\
  uartSendBuffer nUart (take (Z.to_nat nBytes) buffer) nBytes s
  = uartSendBuffer nUart buffer nBytes s.
Proof.
  intros V L. unfold uartSendBuffer.
  assert (G : exists b, Array2.get (uartTxBuffer s) nUart = Some b)
    by (destruct (valid_channel_cases nUart V) as [-> | ->];
        eexists; reflexivity).
  destruct G as [b G]. rewrite G. binds.
  destruct (Z.eq_dec nBytes 0) as [-> | N].
  { change (truthy 0) with false. rewrite andb_false_r.
    split; [eexists |]; reflexivity. }
  destruct ((u16 (datalength b + nBytes) <? size b) && truthy nBytes);
    [| split; [eexists |]; reflexivity].
  destruct buffer as [| first rest]; [cbn in L; lia |]. cbn [length] in L.
  replace (Z.to_nat nBytes) with (S (Z.to_nat (nBytes - 1))) by lia.
  cbn [take].
  destruct (uartSendBuffer_loop_take nUart (Z.to_nat (nBytes - 1)) V rest s
              ltac:(lia)) as [[s1 E] T].
  rewrite T, E. binds.
  destruct (Array2Facts.set_is_Some (uartBufferedTx s1) nUart 1 V)
    as [fl Hfl].
  rewrite Hfl. binds.
  destruct (uartSendByte_ok nUart first (set_uartBufferedTx fl s1) V)
    as (r & _ & Eb & _).
  rewrite Eb. binds. split; [eexists |]; reflexivity.
Qed.


(** ** Initialization and baud rate *)

(** The value [uartSetBaudRate] computes for the divisor. *)
Lemma uartSetBaudRate_value (cfg : Config) nUart (baudrate : Z) s :
  valid_channel nUart = true ->
  0 <= baudrate < 2 ^ 32 ->
  u32 (baudrate * 16) <> 0 ->
  let bauddiv :=
    u16 (u32 (u32 (F_CPU cfg + u32 (baudrate * 8)) / u32 (baudrate * 16) - 1))
  in
  uartSetBaudRate cfg nUart baudrate s
  = Some (set_hw
            (if truthy nUart then
               let h := outb_UBRR1L bauddiv (hw s) in
               if UBRR1H_defined cfg
               then outb_UBRR1H (Z.shiftr bauddiv 8) h else h
             else
               let h := outb_UBRR0L bauddiv (hw s) in
               if UBRR0H_defined cfg
               then outb_UBRR0H (Z.shiftr bauddiv 8) h else h) s).
Proof.
  intros V R D. cbv zeta. unfold uartSetBaudRate.
  replace (u32 baudrate) with baudrate
    by (unfold u32; rewrite Z.mod_small; lia).
  destruct (Z.eqb_spec (u32 (baudrate * 16)) 0) as [E | E]; [contradiction |].
  destruct (truthy nUart); reflexivity.
Qed.

(** X1. On a device with the high baud rate registers, for a baud rate
    that the clock can serve ([8 * baudrate <= F_CPU], no 32-bit overflow,
    divisor within 16 bits), [uartSetBaudRate] programs the divisor [d]
    for which [d + 1] is [F_CPU / (16 * baudrate)] rounded to the nearest
    integer, split over the low and the high register of the channel; the
    driver variables and the bytes sent are as before. *)
Theorem uartSetBaudRate_nearest (cfg : Config) nUart (baudrate : Z) s :
  valid_channel nUart = true ->
  UBRR0H_defined cfg = true -> UBRR1H_defined cfg = true ->
  0 < baudrate ->
  8 * baudrate <= F_CPU cfg ->
  F_CPU cfg + 8 * baudrate < 2 ^ 32 ->
  F_CPU cfg + 8 * baudrate < 16 * baudrate * (2 ^ 16 + 1) ->
  exists s',
    uartSetBaudRate cfg nUart baudrate s = Some s' /\
    0 <= UBRR nUart (hw s') < 2 ^ 16 /\
    16 * baudrate * (UBRR nUart (hw s') + 1) - 8 * baudrate <= F_CPU cfg /\
    F_CPU cfg < 16 * baudrate * (UBRR nUart (hw s') + 1) + 8 * baudrate /\
    channel_vars 0 s' = channel_vars 0 s /\
    channel_vars 1 s' = channel_vars 1 s /\
    UDR0_tx (hw s') = UDR0_tx (hw s) /\
    UDR1_tx (hw s') = UDR1_tx (hw s).
Proof.
  intros V H0 H1 Hb Hlo Hhi Hq.
  assert (R16 : u32 (baudrate * 16) = baudrate * 16)
    by (unfold u32; apply Z.mod_small; lia).
  assert (R8 : u32 (baudrate * 8) = baudrate * 8)
    by (unfold u32; apply Z.mod_small; lia).
  rewrite (uartSetBaudRate_value cfg nUart baudrate s V ltac:(lia))
    by (rewrite R16; lia).
  rewrite R16, R8.
  replace (u32 (F_CPU cfg + baudrate * 8)) with (F_CPU cfg + baudrate * 8)
    by (unfold u32; rewrite Z.mod_small; lia).
  set (q := (F_CPU cfg + baudrate * 8) / (baudrate * 16)).
  assert (Hq1 : baudrate * 16 * q <= F_CPU cfg + baudrate * 8
                < baudrate * 16 * (q + 1)).
  { subst q. pose proof (Z.mul_div_le (F_CPU cfg + baudrate * 8)
                           (baudrate * 16) ltac:(lia)).
    pose proof (Z.mul_succ_div_gt (F_CPU cfg + baudrate * 8)
                  (baudrate * 16) ltac:(lia)).
    lia. }
  assert (Hq2 : 1 <= q <= 2 ^ 16) by nia.
  replace (u32 (q - 1)) with (q - 1)
    by (unfold u32; rewrite Z.mod_small; lia).
  rewrite (u16_small (q - 1)) by lia.
  set (d := q - 1) in *.
  assert (Hd : 0 <= d < 2 ^ 16) by lia.
  assert (Hsplit : u8 d + 256 * u8 (Z.shiftr d 8) = d).
  { unfold u8. rewrite Z.shiftr_div_pow2 by lia.
    change (2 ^ 8) with 256.
    rewrite (Z.mod_small (d / 256)).
    - pose proof (Z.div_mod d 256 ltac:(lia)). lia.
    - split; [apply Z.div_pos; lia |].
      apply Z.div_lt_upper_bound; lia. }
  eexists. split; [reflexivity |].
  assert (U : UBRR nUart
                (hw (set_hw
                   (if truthy nUart then
                      let h := outb_UBRR1L d (hw s) in
                      if UBRR1H_defined cfg
                      then outb_UBRR1H (Z.shiftr d 8) h else h
                    else
                      let h := outb_UBRR0L d (hw s) in
                      if UBRR0H_defined cfg
                      then outb_UBRR0H (Z.shiftr d 8) h else h) s)) = d).
  { rewrite H0, H1. fields. unfold UBRR.
    destruct (truthy nUart); cbn; exact Hsplit. }
  rewrite U. rewrite H0, H1. fields.
  repeat split; try lia; destruct (truthy nUart); reflexivity.
Qed.

(** X2. [uartSetBaudRate] divides by [baudrate * 16], computed in 32 bits,
    without a test: the division is by zero exactly when [baudrate] is a
    multiple of 2^28, zero included.  [uart0Init] and [uart1Init] call it
    with the default baud rates and are undefined under the same
    condition. *)
Theorem uartSetBaudRate_defined (cfg : Config) nUart (baudrate : Z) s :
  0 <= baudrate < 2 ^ 32 ->
  (uartSetBaudRate cfg nUart baudrate s = None <-> baudrate mod 2 ^ 28 = 0)
  /\
  (uart0Init cfg s = None <-> u32 (UART0_DEFAULT_BAUD_RATE cfg) mod 2 ^ 28 = 0)
  /\
  (uart1Init cfg s = None <-> u32 (UART1_DEFAULT_BAUD_RATE cfg) mod 2 ^ 28 = 0).
Proof.
  intros R.
  assert (K : forall x, 0 <= x < 2 ^ 32 ->
                        (u32 (x * 16) = 0 <-> x mod 2 ^ 28 = 0)).
  { intros x Hx. unfold u32.
    change (2 ^ 32) with (2 ^ 28 * 16).
    rewrite Zmult_mod_distr_r. lia. }
  assert (B : forall n x (t : State App),
    uartSetBaudRate cfg n x t = None <-> u32 x mod 2 ^ 28 = 0).
  { intros n x t. unfold uartSetBaudRate.
    rewrite <- (K (u32 x)) by (unfold u32; apply Z.mod_pos_bound; lia).
    destruct (Z.eqb_spec (u32 (u32 x * 16)) 0) as [E | E].
    - tauto.
    - destruct (truthy n); split; intros; [discriminate | contradiction
                                          | discriminate | contradiction]. }
  split; [| split].
  - rewrite B. unfold u32 at 1. rewrite (Z.mod_small baudrate) by lia.
    reflexivity.
  - unfold uart0Init, uart0InitBuffers. cbn [Array2.set Z.eqb]. binds.
    cbv zeta.
    match goal with
    | |- context [uartSetBaudRate cfg ?n ?x ?t] =>
        pose proof (B n x t) as Bx
    end.
    match goal with
    | |- context [uartSetBaudRate cfg ?n ?x ?t] =>
        destruct (uartSetBaudRate cfg n x t)
    end.
    all: binds; cbn [Array2.set Z.eqb]; binds.
    + split; [discriminate | intros P; apply Bx in P; discriminate].
    + split; [intros _; apply Bx; reflexivity | reflexivity].
  - unfold uart1Init, uart1InitBuffers. cbn [Array2.set Z.eqb Pos.eqb]. binds.
    cbv zeta.
    match goal with
    | |- context [uartSetBaudRate cfg ?n ?x ?t] =>
        pose proof (B n x t) as Bx
    end.
    match goal with
    | |- context [uartSetBaudRate cfg ?n ?x ?t] =>
        destruct (uartSetBaudRate cfg n x t)
    end.
    all: binds; cbn [Array2.set Z.eqb Pos.eqb]; binds.
    + split; [discriminate | intros P; apply Bx in P; discriminate].
    + split; [intros _; apply Bx; reflexivity | reflexivity].
Qed.


(** X3. [uart0Init] leaves channel 0 with freshly initialized, empty
    buffers of the configured capacities, no callback, the transmitter
    ready, no buffered transmission and the overflow counter at 0; it
    enables receiver, transmitter and both interrupts (UCSR0B = 0xD8) and
    the global interrupt flag, and touches neither the variables and
    registers of channel 1 nor the bytes already sent.  [uart1Init] does
    the same with the channels exchanged. *)
Theorem uartNInit_resets_channel (cfg : Config) s s' :
  (uart0Init cfg s = Some s' ->
   channel_vars 0 s'
   = (Some 1, Some 0,
      Some (bufferInit (uart0RxData cfg) (UART0_RX_BUFFER_SIZE cfg)),
      Some (bufferInit (uart0TxData cfg) (UART0_TX_BUFFER_SIZE cfg)),
      Some 0, Some None) /\
   channel_vars 1 s' = channel_vars 1 s /\
   UCSR0B (hw s') = 216 /\ SREG_I (hw s') = true /\
   UDR0_tx (hw s') = UDR0_tx (hw s) /\
   channel_regs 1 (hw s') = channel_regs 1 (hw s) /\
   app s' = app s) /\
  (uart1Init cfg s = Some s' ->
   channel_vars 1 s'
   = (Some 1, Some 0,
      Some (bufferInit (uart1RxData cfg) (UART1_RX_BUFFER_SIZE cfg)),
      Some (bufferInit (uart1TxData cfg) (UART1_TX_BUFFER_SIZE cfg)),
      Some 0, Some None) /\
   channel_vars 0 s' = channel_vars 0 s /\
   UCSR1B (hw s') = 216 /\ SREG_I (hw s') = true /\
   UDR1_tx (hw s') = UDR1_tx (hw s) /\
   channel_regs 0 (hw s') = channel_regs 0 (hw s) /\
   app s' = app s).
Proof.
  split; intros H.
  - unfold uart0Init, uart0InitBuffers, uartSetBaudRate in H.
    repeat (simplify_option_eq || case_match); repeat split.
  - unfold uart1Init, uart1InitBuffers, uartSetBaudRate in H.
    repeat (simplify_option_eq || case_match); repeat split.
Qed.

(** X4. After [uartInit] every driver variable has its initial value,
    whatever the state before: what was queued, counted or installed on
    either channel is gone.  The bytes already written to the data
    registers and the application state stay. *)
Theorem uartInit_resets_driver (cfg : Config) s s' :
  uartInit cfg s = Some s' ->
  uartReadyTx s' = Array2.Make 1 1 /\
  uartBufferedTx s' = Array2.Make 0 0 /\
  uartRxOverflow s' = Array2.Make 0 0 /\
  UartRxFunc s' = Array2.Make None None /\
  uartRxBuffer s'
  = Array2.Make (bufferInit (uart0RxData cfg) (UART0_RX_BUFFER_SIZE cfg))
                (bufferInit (uart1RxData cfg) (UART1_RX_BUFFER_SIZE cfg)) /\
  uartTxBuffer s'
  = Array2.Make (bufferInit (uart0TxData cfg) (UART0_TX_BUFFER_SIZE cfg))
                (bufferInit (uart1TxData cfg) (UART1_TX_BUFFER_SIZE cfg)) /\
  UCSR0B (hw s') = 216 /\ UCSR1B (hw s') = 216 /\ SREG_I (hw s') = true /\
  UDR0_tx (hw s') = UDR0_tx (hw s) /\ UDR1_tx (hw s') = UDR1_tx (hw s) /\
  app s' = app s /\
  (forall n b, Array2.get (uartRxBuffer s') n = Some b -> contents b = []) /\
  (forall n b, Array2.get (uartTxBuffer s') n = Some b -> contents b = []).
Proof.
  intros H.
  unfold uartInit, uart0Init, uart1Init, uart0InitBuffers, uart1InitBuffers,
    uartSetBaudRate in H.
  repeat (simplify_option_eq || case_match); repeat split;
    intros n b G; unfold Array2.get in G; cbn in G;
    repeat case_match; simplify_eq; reflexivity.
Qed.

(** X12. [uartFlushReceiveBuffer] discards every waiting byte of its
    channel and nothing else: the capacity, the overflow counters, the
    callbacks and the transmit buffers are as before.  Afterwards
    [uartReceiveByte] reports "no data", and the next bytes to arrive, up
    to the full capacity, are all queued without overflow. *)
Theorem uartFlushReceiveBuffer_discards nUart s b :
  valid_channel nUart = true ->
  Array2.get (uartRxBuffer s) nUart = Some b ->
  wf_buffer b = true ->
  exists s' b',
    uartFlushReceiveBuffer nUart s = Some s' /\
    Array2.get (uartRxBuffer s') nUart = Some b' /\
    contents b' = [] /\ size b' = size b /\
    uartRxOverflow s' = uartRxOverflow s /\
    UartRxFunc s' = UartRxFunc s /\
    uartTxBuffer s' = uartTxBuffer s /\
    (forall rxData, uartReceiveByte nUart rxData s' = Some (0, rxData, s')) /\
    (forall cs : list byte,
       Array2.get (UartRxFunc s) nUart = Some None ->
       Z.of_nat (length cs) <= size b ->
       exists s2 b2,
         receive_events nUart cs s' = Some s2 /\
         Array2.get (uartRxBuffer s2) nUart = Some b2 /\
         contents b2 = cs /\
         uartRxOverflow s2 = uartRxOverflow s).
Proof.
  intros V G W.
  destruct (bufferFlush_ok b W) as (W' & C' & D').
  destruct (Array2Facts.set_is_Some (uartRxBuffer s) nUart (bufferFlush b) V)
    as [a Ha].
  assert (G' : Array2.get (uartRxBuffer (set_uartRxBuffer a s)) nUart
               = Some (bufferFlush b))
    by (fields; apply (Array2Facts.get_set_eq _ _ _ _ Ha)).
  exists (set_uartRxBuffer a s), (bufferFlush b).
  split; [unfold uartFlushReceiveBuffer; rewrite G; binds; rewrite Ha;
          reflexivity |].
  repeat split; auto.
  - intros rxData. apply (uartReceiveByte_none _ _ _ _ G'). auto.
  - intros cs F L.
    destruct (receive_events_stored nUart cs V (set_uartRxBuffer a s)
                (bufferFlush b) F G' W'
                ltac:(rewrite D'; cbn [size bufferFlush]; lia))
      as (s2 & b2 & E & G2 & _ & C2 & O2).
    exists s2, b2. rewrite C' in C2. repeat split; auto.
Qed.

(** X13. Installing a callback diverts arriving bytes to it without
    touching the bytes already buffered, and removing it with a null
    pointer brings the buffering back: a byte that arrives after the
    removal is queued behind the bytes that were waiting all along; the
    byte handed to the callback never enters the buffer. *)
Theorem uartSetRxHandler_switch nUart (f : byte -> App -> App) (c1 c2 : byte)
    s b :
  valid_channel nUart = true ->
  Array2.get (uartRxBuffer s) nUart = Some b ->
  wf_buffer b = true ->
  datalength b < size b ->
  exists s1 s2 s3 s4 b4,
    uartSetRxHandler nUart (Some f) s = Some s1 /\
    receive_event nUart c1 s1 = Some s2 /\
    app s2 = f c1 (app s) /\
    uartRxBuffer s2 = uartRxBuffer s /\
    uartSetRxHandler nUart None s2 = Some s3 /\
    receive_event nUart c2 s3 = Some s4 /\
    app s4 = app s2 /\
    Array2.get (uartRxBuffer s4) nUart = Some b4 /\
    contents b4 = contents b ++ [c2] /\
    uartRxOverflow s4 = uartRxOverflow s.
Proof.
  intros V G W L.
  assert (N : 0 <= nUart < 2) by (destruct (valid_channel_cases nUart V); lia).
  destruct (Array2Facts.set_is_Some (UartRxFunc s) nUart (Some f) V)
    as [a1 Ha1].
  set (s1 := set_UartRxFunc a1 s).
  assert (E1 : uartSetRxHandler nUart (Some f) s = Some s1).
  { unfold uartSetRxHandler. destruct (Z.ltb_spec nUart 2); [| lia].
    rewrite Ha1. reflexivity. }
  set (s2 := set_app (f c1 (app s1)) (set_hw (latch_rx nUart c1 (hw s1)) s1)).
  assert (E2 : receive_event nUart c1 s1 = Some s2).
  { unfold receive_event, uartReceiveService. subst s1. fields.
    rewrite (Array2Facts.get_set_eq _ _ _ _ Ha1). binds.
    destruct (valid_channel_cases nUart V) as [-> | ->]; reflexivity. }
  destruct (Array2Facts.set_is_Some (UartRxFunc s2) nUart None V)
    as [a3 Ha3].
  set (s3 := set_UartRxFunc a3 s2).
  assert (E3 : uartSetRxHandler nUart None s2 = Some s3).
  { unfold uartSetRxHandler. destruct (Z.ltb_spec nUart 2); [| lia].
    rewrite Ha3. reflexivity. }
  destruct (receive_event_stored nUart c2 s3 b V)
    as (b4 & a4 & Ha4 & E4 & _ & C4 & _);
    auto.
  { subst s3. fields. apply (Array2Facts.get_set_eq _ _ _ _ Ha3). }
  exists s1, s2, s3. eexists. exists b4.
  split; [exact E1 |]. split; [exact E2 |].
  split; [reflexivity |]. split; [reflexivity |].
  split; [exact E3 |]. split; [exact E4 |].
  fields. repeat split; auto.
  apply (Array2Facts.get_set_eq _ _ _ _ Ha4).
Qed.

(** X11. [uartReceiveBufferIsEmpty] agrees with the next
    [uartReceiveByte]: it returns 1 exactly when that call returns 0. *)
Theorem uartReceiveBufferIsEmpty_agrees nUart (rxData : option byte) s b :
  valid_channel nUart = true ->
  Array2.get (uartRxBuffer s) nUart = Some b ->
  wf_buffer b = true ->
  exists e r rxData' s',
    uartReceiveBufferIsEmpty nUart s = Some e /\
    uartReceiveByte nUart rxData s = Some (r, rxData', s') /\
    (e = 1 /\ r = 0 \/ e = 0 /\ r = 1).
Proof.
  intros V G W.
  pose proof (proj1 (wf_buffer_iff b) W) as (_ & _ & Hd & _).
  unfold uartReceiveBufferIsEmpty. rewrite G. binds.
  destruct (Z.eqb_spec (datalength b) 0) as [D | D].
  - exists 1, 0, rxData, s. split; [reflexivity |].
    split; [apply (uartReceiveByte_none _ _ _ _ G); auto | auto].
  - destruct (uartReceiveByte_some nUart s b V G W D)
      as (c & b' & a & _ & _ & _ & _ & R).
    exists 0, 1, (Some c), (set_uartRxBuffer a s).
    split; [reflexivity |]. split; [apply R | auto].
Qed.

(** ** Invariants *)

(** X7. In every state the driver reaches from program start the flags
    [uartReadyTx] and [uartBufferedTx] hold 0 or 1, the overflow counters
    are within 16 bits, and a buffered transmission in progress implies
    that the transmitter is not ready: [uartTransmitPending] returns 1
    for as long as [uartBufferedTx] is set. *)
Theorem reachable_flags (cfg : Config) (x : App) s :
  reachable cfg x s ->
  vars_ok s = true /\
  forall n f,
    Array2.get (uartBufferedTx s) n = Some f -> f <> 0 ->
    uartTransmitPending n s = Some 1.
Proof.
  intros R.
  assert (W : vars_ok s = true).
  { induction R as [| c s s' R IH H]; [reflexivity |].
    apply (run_vars_ok cfg c s s' IH H). }
  split; [exact W |].
  intros n f G Hf. apply vars_ok_iff in W. cbv zeta in W.
  unfold uartTransmitPending, Array2.get in *.
  repeat case_match; simplify_eq; binds;
    match goal with
    | |- Some (of_bool (negb (truthy ?r))) = _ =>
        replace r with 0 by lia; reflexivity
    end.
Qed.

(** X8. With storage regions as long as the configured capacities, in
    every state the driver reaches from program start the occupancy of
    each of the four ring buffers is between 0 and its capacity and is the
    number of bytes queued. *)
Theorem reachable_occupancy (cfg : Config) (x : App) s :
  cfg_ok cfg = true ->
  reachable cfg x s ->
  forall n b,
    Array2.get (uartRxBuffer s) n = Some b \/
    Array2.get (uartTxBuffer s) n = Some b ->
    0 <= datalength b <= size b /\ size b < 2 ^ 16 /\
    Z.of_nat (length (contents b)) = datalength b.
Proof.
  intros K R n b G.
  pose proof (reachable_wf cfg x s K R) as W.
  destruct (wf_state_buffers s W) as [Wr Wt].
  assert (Wb : wf_buffer b = true)
    by (destruct G as [G | G];
        [apply (wf_buffers_get _ _ _ Wr G)
        | apply (wf_buffers_get _ _ _ Wt G)]).
  pose proof (proj1 (wf_buffer_iff b) Wb) as (Hs & _ & Hd & _).
  pose proof (length_contents b Wb). lia.
Qed.


(** X19. [uartSendByte] does not wait for a buffered transmission: called
    while one is in progress it writes its byte at once, ahead of the
    bytes still queued, leaves the queue as it is, and the transmit
    complete events that follow still send the queued bytes in order. *)
Theorem uartSendByte_overtakes nUart c s b f :
  valid_channel nUart = true ->
  Array2.get (uartBufferedTx s) nUart = Some f -> f <> 0 ->
  Array2.get (uartTxBuffer s) nUart = Some b ->
  wf_buffer b = true ->
  exists s1 s2,
    uartSendByte nUart c s = Some s1 /\
    uartTxBuffer s1 = uartTxBuffer s /\
    transmit_events (S (length (contents b))) nUart s1 = Some s2 /\
    UDR_tx nUart (hw s2) = UDR_tx nUart (hw s) ++ c :: contents b /\
    uartTransmitPending nUart s2 = Some 0.
Proof.
  intros V F Hf G W.
  destruct (uartSendByte_ok nUart c s V) as (r & Hr & E & U).
  set (s1 := set_uartReadyTx r _) in E.
  destruct (transmit_events_flush nUart s1 b f V F Hf G W)
    as (s2 & b2 & E2 & U2 & _ & _ & R2 & _).
  exists s1, s2. repeat split; auto.
  - rewrite U2. subst s1. fields. fields_in U. rewrite U, <- app_assoc.
    reflexivity.
  - unfold uartTransmitPending. rewrite R2. reflexivity.
Qed.

End DriverExtras.
(** ** The further properties at concrete inputs *)

(** X1 with a 16 MHz clock and 9600 baud. *)
Lemma uartSetBaudRate_nearest_witness :
  exists s',
    uartSetBaudRate demo_cfg 0 9600 rx_none = Some s' /\
    16 * 9600 * (UBRR 0 (hw s') + 1) - 8 * 9600 <= 16000000 /\
    16000000 < 16 * 9600 * (UBRR 0 (hw s') + 1) + 8 * 9600.
Proof.
  destruct (uartSetBaudRate_nearest demo_cfg 0 9600 rx_none)
    as (s' & E & _ & L & U & _);
    [reflexivity | reflexivity | reflexivity | lia
    | cbn [F_CPU demo_cfg]; lia | cbn [F_CPU demo_cfg]; lia
    | cbn [F_CPU demo_cfg]; lia |].
  exists s'. split; [exact E |]. split; [exact L | exact U].
Defined.

(** X2 at baud rate 0. *)
Lemma uartSetBaudRate_defined_witness :
  0 <= 0 < 2 ^ 32 /\ uartSetBaudRate demo_cfg 1 0 rx_none = None.
Proof.
  split; [lia |].
  apply (proj1 (uartSetBaudRate_defined demo_cfg 1 0 rx_none ltac:(lia))).
  reflexivity.
Defined.

(** X3 on a state with a byte waiting on both channels. *)
Lemma uartNInit_resets_channel_witness :
  exists s',
    uart0Init demo_cfg rx_one = Some s' /\
    channel_vars 1 s' = channel_vars 1 rx_one /\
    UCSR0B (hw s') = 216.
Proof.
  destruct (uart0Init demo_cfg rx_one) as [s' |] eqn:E;
    [| vm_compute in E; discriminate].
  exists s'. split; [reflexivity |].
  destruct (proj1 (uartNInit_resets_channel demo_cfg rx_one s') E)
    as (_ & H1 & H2 & _).
  split; [exact H1 | exact H2].
Defined.

(** X4 on a state with the overflow counters at 65535. *)
Lemma uartInit_resets_driver_witness :
  exists s',
    uartInit demo_cfg rx_full_max = Some s' /\
    uartRxOverflow s' = Array2.Make 0 0.
Proof.
  destruct (uartInit demo_cfg rx_full_max) as [s' |] eqn:E;
    [| vm_compute in E; discriminate].
  exists s'. split; [reflexivity |].
  destruct (uartInit_resets_driver demo_cfg rx_full_max s' E)
    as (_ & _ & H & _).
  exact H.
Defined.

(** X5 for a byte sent on channel 0. *)
Lemma other_channel_untouched_witness :
  exists s',
    run demo_cfg (call_uartSendByte 0 x41) rx_one = Some s' /\
    channel_vars 1 s' = channel_vars 1 rx_one /\
    channel_regs 1 (hw s') = channel_regs 1 (hw rx_one).
Proof.
  destruct (run demo_cfg (call_uartSendByte 0 x41) rx_one) as [s' |] eqn:E;
    [| vm_compute in E; discriminate].
  exists s'. split; [reflexivity |].
  apply (other_channel_untouched demo_cfg (call_uartSendByte 0 x41) rx_one s'
           0 1);
    [reflexivity | reflexivity | reflexivity | lia | exact E].
Defined.

(** X6 for a block sent on channel 0. *)
Lemma sides_are_separate_witness :
  exists s',
    run demo_cfg (call_uartSendBuffer 0 [x31; x32] 2) rx_one = Some s' /\
    uartRxBuffer s' = uartRxBuffer rx_one /\
    uartRxOverflow s' = uartRxOverflow rx_one.
Proof.
  destruct (run demo_cfg (call_uartSendBuffer 0 [x31; x32] 2) rx_one)
    as [s' |] eqn:E; [| vm_compute in E; discriminate].
  exists s'. split; [reflexivity |].
  destruct (proj1 (sides_are_separate demo_cfg _ rx_one s' E) eq_refl)
    as (H1 & H2 & _).
  split; [exact H1 | exact H2].
Defined.

Lemma demo_running_reachable : reachable demo_cfg [] demo_running.
Proof.
  apply (run_all_reachable demo_cfg [] demo_trace (boot_state [])
           demo_running (reachable_boot demo_cfg [])).
  vm_compute. reflexivity.
Defined.

(** X7 in the state [demo_running], where a buffered transmission is in
    progress on channel 0. *)
Lemma reachable_flags_witness :
  Array2.get (uartBufferedTx demo_running) 0 = Some 1 /\
  uartTransmitPending 0 demo_running = Some 1.
Proof.
  split; [reflexivity |].
  apply (proj2 (reachable_flags demo_cfg [] demo_running
                  demo_running_reachable) 0 1);
    [reflexivity | lia].
Defined.

(** X8 in the state [demo_running]. *)
Lemma reachable_occupancy_witness :
  cfg_ok demo_cfg = true /\
  forall n b,
    Array2.get (uartRxBuffer demo_running) n = Some b \/
    Array2.get (uartTxBuffer demo_running) n = Some b ->
    0 <= datalength b <= size b /\ size b < 2 ^ 16 /\
    Z.of_nat (length (contents b)) = datalength b.
Proof.
  split; [reflexivity |].
  apply (reachable_occupancy demo_cfg [] demo_running);
    [reflexivity | exact demo_running_reachable].
Defined.

(** X9 with one byte waiting and two more arriving. *)
Lemma receive_round_trip_witness :
  exists s1 s2,
    receive_events 0 [x62; x63] rx_one = Some s1 /\
    receive_bytes 4 0 s1 = Some ([x61; x62; x63], s2) /\
    uartReceiveBufferIsEmpty 0 s2 = Some 1 /\
    uartRxOverflow s2 = uartRxOverflow rx_one.
Proof.
  apply (receive_round_trip 0 [x62; x63] rx_one (queue_of 4 [x61]));
    [reflexivity | reflexivity | reflexivity | reflexivity
    | vm_compute; discriminate].
Defined.

(** X10 with one free place and three bytes arriving: one is queued, two
    are counted. *)
Lemma receive_events_accounting_witness :
  exists s' b',
    receive_events 0 [x62; x63; x64]
      (demo_state (queue_of 2 [x61]) (queue_of 8 []) 41 0 None) = Some s' /\
    Array2.get (uartRxBuffer s') 0 = Some b' /\
    wf_buffer b' = true /\
    contents b' = [x61; x62] /\
    Array2.get (uartRxOverflow s') 0 = Some 43.
Proof.
  apply (receive_events_accounting 0 [x62; x63; x64] eq_refl
           (demo_state (queue_of 2 [x61]) (queue_of 8 []) 41 0 None)
           (queue_of 2 [x61]) 41);
    [reflexivity | reflexivity | reflexivity | reflexivity | lia].
Defined.

(** X11 with one byte waiting. *)
Lemma uartReceiveBufferIsEmpty_agrees_witness :
  exists e r rxData' s',
    uartReceiveBufferIsEmpty 0 rx_one = Some e /\
    uartReceiveByte 0 None rx_one = Some (r, rxData', s') /\
    (e = 1 /\ r = 0 \/ e = 0 /\ r = 1).
Proof.
  apply (uartReceiveBufferIsEmpty_agrees 0 None rx_one (queue_of 4 [x61]));
    reflexivity.
Defined.

(** X12 with one byte waiting on channel 1. *)
Lemma uartFlushReceiveBuffer_discards_witness :
  exists s' b',
    uartFlushReceiveBuffer 1 rx_one = Some s' /\
    Array2.get (uartRxBuffer s') 1 = Some b' /\
    contents b' = [] /\ size b' = 4.
Proof.
  destruct (uartFlushReceiveBuffer_discards 1 rx_one (queue_of 4 [x61]))
    as (s' & b' & E & G & C & S & _);
    [reflexivity | reflexivity | reflexivity |].
  exists s', b'. auto.
Defined.

(** X13 with one byte waiting and the recording callback. *)
Lemma uartSetRxHandler_switch_witness :
  exists s1 s2 s3 s4 b4,
    uartSetRxHandler 0 (Some log_byte) rx_one = Some s1 /\
    receive_event 0 x62 s1 = Some s2 /\
    app s2 = [x62] /\
    uartRxBuffer s2 = uartRxBuffer rx_one /\
    uartSetRxHandler 0 None s2 = Some s3 /\
    receive_event 0 x63 s3 = Some s4 /\
    app s4 = app s2 /\
    Array2.get (uartRxBuffer s4) 0 = Some b4 /\
    contents b4 = [x61; x63] /\
    uartRxOverflow s4 = uartRxOverflow rx_one.
Proof.
  apply (uartSetRxHandler_switch 0 log_byte x62 x63 rx_one
           (queue_of 4 [x61]));
    [reflexivity | reflexivity | reflexivity | vm_compute; reflexivity].
Defined.

(** X14 on a full transmit buffer. *)
Lemma uartAddToTxBuffer_room_or_drop_witness :
  uartAddToTxBuffer 0 x63
    (demo_state (queue_of 4 []) (queue_of 2 [x61; x62]) 0 0 None)
  = Some (demo_state (queue_of 4 []) (queue_of 2 [x61; x62]) 0 0 None).
Proof.
  apply (uartAddToTxBuffer_room_or_drop 0 x63
           (demo_state (queue_of 4 []) (queue_of 2 [x61; x62]) 0 0 None)
           (queue_of 2 [x61; x62]));
    reflexivity.
Defined.

(** X15 with "abc" queued and "de" added. *)
Lemma enqueue_then_send_witness :
  exists s1 s2 s3 b3,
    add_all 0 [x64; x65] tx_8_3 = Some s1 /\
    uartSendTxBuffer 0 s1 = Some s2 /\
    uartTransmitPending 0 s2 = Some 1 /\
    transmit_events 5 0 s2 = Some s3 /\
    UDR_tx 0 (hw s3) = [x61; x62; x63; x64; x65] /\
    Array2.get (uartTxBuffer s3) 0 = Some b3 /\
    contents b3 = [] /\
    uartTransmitPending 0 s3 = Some 0 /\
    Array2.get (uartBufferedTx s3) 0 = Some 0.
Proof.
  apply (enqueue_then_send 0 [x64; x65] tx_8_3 (queue_of 8 [x61; x62; x63]));
    [reflexivity | reflexivity | reflexivity | vm_compute; discriminate
    | discriminate].
Defined.

(** X16 with "abc" queued and the block "123" sent: the data register
    receives "1abc23". *)
Lemma uartSendBuffer_then_events_witness :
  exists s1 s2 b2,
    uartSendBuffer 0 [x31; x32; x33] 3 tx_8_3 = Some (1, s1) /\
    uartTransmitPending 0 s1 = Some 1 /\
    transmit_events 6 0 s1 = Some s2 /\
    UDR_tx 0 (hw s2) = [x31; x61; x62; x63; x32; x33] /\
    Array2.get (uartTxBuffer s2) 0 = Some b2 /\
    contents b2 = [] /\
    uartTransmitPending 0 s2 = Some 0 /\
    Array2.get (uartBufferedTx s2) 0 = Some 0.
Proof.
  apply (uartSendBuffer_then_events 0 x31 [x32; x33] 3 tx_8_3
           (queue_of 8 [x61; x62; x63]));
    [reflexivity | reflexivity | reflexivity | lia | vm_compute; reflexivity
    | vm_compute; discriminate].
Defined.

(** X17 with two bytes requested out of an array of four. *)
Lemma uartSendBuffer_reads_nBytes_witness :
  uartSendBuffer 0 [x31; x32] 2 tx_8_3
  = uartSendBuffer 0 [x31; x32; x33; x34] 2 tx_8_3.
Proof.
  apply (uartSendBuffer_reads_nBytes 0 [x31; x32; x33; x34] 2 tx_8_3);
    [reflexivity | cbn; lia].
Defined.

(** X18 on channel 1. *)
Lemma uartSendByte_cycle_witness :
  exists s1 s2,
    uartSendByte 1 x41 rx_one = Some s1 /\
    uartTransmitPending 1 s1 = Some 1 /\
    uartTransmitService 1 s1 = Some s2 /\
    uartTransmitPending 1 s2 = Some 0 /\
    UDR_tx 1 (hw s2) = [x41] /\
    uartTxBuffer s2 = uartTxBuffer rx_one /\
    uartBufferedTx s2 = uartBufferedTx rx_one /\
    uartRxBuffer s2 = uartRxBuffer rx_one.
Proof.
  apply (uartSendByte_cycle 1 x41 rx_one); reflexivity.
Defined.

(** X19 during the buffered transmission of "abc": the data register
    receives "!abc". *)
Lemma uartSendByte_overtakes_witness :
  exists s1 s2,
    uartSendByte 0 x21 tx_busy = Some s1 /\
    uartTxBuffer s1 = uartTxBuffer tx_busy /\
    transmit_events 4 0 s1 = Some s2 /\
    UDR_tx 0 (hw s2) = [x21; x61; x62; x63] /\
    uartTransmitPending 0 s2 = Some 0.
Proof.
  apply (uartSendByte_overtakes 0 x21 tx_busy (queue_of 8 [x61; x62; x63]) 1);
    [reflexivity | reflexivity | lia | reflexivity | reflexivity].
Defined.
